(** * I2Cdev / Fastwire (plainC/I2Cdev/I2Cdev.c): a shallow embedding

    The C code drives the two-wire interface of an AVR part by storing to and
    loading from the memory-mapped registers TWCR, TWSR and TWDR, and busy-waits
    on the TWINT flag.  The embedding keeps that shape: every register access is
    a step of a small state monad over a [World], which holds the peripheral
    (an abstract type with a load and a store operation per register), the
    chronological trace of the accesses the master performed, and the one
    process-wide variable of the library, [I2Cdev_readTimeout].

    Integers are [Z] with the wrap-around of the C types written out
    ([to_uint8], [to_int8], ...).  Memory reached through a pointer argument
    ([uint8_t *data], [uint16_t *data]) is a function from the index to the
    element, so that an index past the caller's buffer reads or writes the
    neighbouring memory, as the C code does.  A local the code leaves
    uninitialised ([uint8_t b;]) is an extra argument holding its indeterminate
    content. *)

From Stdlib Require Import ZArith List Bool Lia.
Import ListNotations.
Open Scope Z_scope.

(** ** Fixed-width C integers *)

Definition to_uint8 (x : Z) : Z := x mod 256.
Definition to_uint16 (x : Z) : Z := x mod 65536.
Definition to_uint32 (x : Z) : Z := x mod 4294967296.

(** Conversion to [int8_t] (two's complement, as avr-gcc does it). *)
Definition to_int8 (x : Z) : Z :=
  let r := x mod 256 in if r <? 128 then r else r - 256.

(** [1 << n] *)
Definition bit (n : Z) : Z := Z.shiftl 1 n.

(** C truth value of a comparison. *)
Definition c_bool (b : bool) : Z := if b then 1 else 0.

(** Store through a pointer: [mem[i] = v]. *)
Definition upd (mem : Z -> Z) (i v : Z) : Z -> Z :=
  fun j => if j =? i then v else mem j.

(** ** Status codes of I2Cdev.h *)

Definition TW_START : Z := 0x08.
Definition TW_REP_START : Z := 0x10.
Definition TW_MT_SLA_ACK : Z := 0x18.
Definition TW_MT_SLA_NACK : Z := 0x20.
Definition TW_MT_DATA_ACK : Z := 0x28.
Definition TW_MT_DATA_NACK : Z := 0x30.
Definition TW_MT_ARB_LOST : Z := 0x38.
Definition TW_MR_ARB_LOST : Z := 0x38.
Definition TW_MR_SLA_ACK : Z := 0x40.
Definition TW_MR_SLA_NACK : Z := 0x48.
Definition TW_MR_DATA_ACK : Z := 0x50.
Definition TW_MR_DATA_NACK : Z := 0x58.

Definition I2CDEV_DEFAULT_READ_TIMEOUT : Z := 1000.

(** ** The target *)

(** The three TWI registers the transfer functions touch. *)
Inductive Reg : Type := TWCR | TWSR | TWDR.

Definition Reg_eqb (a b : Reg) : bool :=
  match a, b with
  | TWCR, TWCR | TWSR, TWSR | TWDR, TWDR => true
  | _, _ => false
  end.

(** What the code takes from outside the repository: the bit numbers of TWCR
    (macros of avr/io.h), the registers themselves, the millisecond counter
    behind [millis()], and the byte order of a [uint16_t] in memory.  Registers
    are volatile: a load returns a value and the peripheral as it is afterwards. *)
Class Platform (H : Type) : Type := {
  TWINT : Z;
  TWEA : Z;
  TWSTA : Z;
  TWSTO : Z;
  TWEN : Z;
  hw_read : Reg -> H -> Z * H;
  hw_write : Reg -> Z -> H -> H;
  hw_millis : H -> Z * H;
  big_endian : bool
}.

(** One access of the master to a register, with the value moved. *)
Inductive Event : Type :=
| RegRead (r : Reg) (v : Z)
| RegWrite (r : Reg) (v : Z).

(** The values stored to register [r], oldest first. *)
Fixpoint writes_to (r : Reg) (t : list Event) : list Z :=
  match t with
  | [] => []
  | RegWrite r' v :: t' => if Reg_eqb r r' then v :: writes_to r t' else writes_to r t'
  | RegRead _ _ :: t' => writes_to r t'
  end.

(** The values loaded from register [r], oldest first. *)
Fixpoint reads_from (r : Reg) (t : list Event) : list Z :=
  match t with
  | [] => []
  | RegRead r' v :: t' => if Reg_eqb r r' then v :: reads_from r t' else reads_from r t'
  | RegWrite _ _ :: t' => reads_from r t'
  end.

Section Embedding.

Context {H : Type} {P : Platform H}.

Record World : Type := mkWorld {
  hw : H;
  trace : list Event;
  I2Cdev_readTimeout : Z
}.

(** ** State monad *)

Definition M (A : Type) : Type := World -> A * World.

Definition ret {A : Type} (a : A) : M A := fun w => (a, w).

Definition bind {A B : Type} (m : M A) (k : A -> M B) : M B :=
  fun w => let (a, w') := m w in k a w'.

Notation "x <- m ;; k" := (bind m (fun x => k))
  (at level 61, m at next level, right associativity).
Notation "' p <- m ;; k" := (bind m (fun x => match x with p => k end))
  (at level 61, p pattern, m at next level, right associativity).

(** Load from an 8-bit volatile register. *)
Definition rd (r : Reg) : M Z :=
  fun w =>
    let (v, h') := hw_read r (hw w) in
    (to_uint8 v,
     mkWorld h' (trace w ++ [RegRead r (to_uint8 v)]) (I2Cdev_readTimeout w)).

(** Store to an 8-bit volatile register. *)
Definition wr (r : Reg) (v : Z) : M unit :=
  fun w =>
    (tt,
     mkWorld (hw_write r (to_uint8 v) (hw w))
             (trace w ++ [RegWrite r (to_uint8 v)]) (I2Cdev_readTimeout w)).

(** [millis()] of msec.c: the 32-bit counter the timer interrupt increments. *)
Definition millis : M Z :=
  fun w =>
    let (t, h') := hw_millis (hw w) in
    (to_uint32 t, mkWorld h' (trace w) (I2Cdev_readTimeout w)).

(** The value of the global [I2Cdev_readTimeout], which the header gives as the
    default of every [timeout] argument. *)
Definition default_timeout : M Z := fun w => (I2Cdev_readTimeout w, w).

(** ** Fastwire *)

(** The TWCR commands the code composes. *)
Definition CMD_START : Z :=
  Z.lor (Z.lor (Z.lor (bit TWINT) (bit TWEN)) (bit TWSTO)) (bit TWSTA).
Definition CMD_SEND : Z := Z.lor (bit TWINT) (bit TWEN).
Definition CMD_RECV_ACK : Z := Z.lor (Z.lor (bit TWINT) (bit TWEN)) (bit TWEA).
Definition CMD_STOP : Z := Z.lor (Z.lor (bit TWINT) (bit TWEN)) (bit TWSTO).

(** [while (!(TWCR & (1 << TWINT)) && l-- > 0);] started with the counter at
    [l]; the result is the counter when the loop is left.  TWCR is loaded
    first; [l-- > 0] is evaluated only when TWINT is clear, and leaves -1 behind
    when it finds 0. *)
Fixpoint waitInt_loop (l : nat) : M Z :=
  cr <- rd TWCR ;;
  if negb (Z.land cr (bit TWINT) =? 0) then ret (Z.of_nat l)
  else match l with
       | O => ret (-1)
       | S l' => waitInt_loop l'
       end.

Definition Fastwire_waitInt : M Z :=
  l <- waitInt_loop 250 ;;
  ret (c_bool (l >? 0)).

Definition Fastwire_stop : M Z :=
  _ <- wr TWCR CMD_STOP ;;
  ok <- Fastwire_waitInt ;;
  if ok =? 0 then ret 1 else ret 0.

Definition Fastwire_write (value : Z) : M Z :=
  _ <- wr TWDR value ;;
  _ <- wr TWCR CMD_SEND ;;
  ok <- Fastwire_waitInt ;;
  if ok =? 0 then ret 1 else
  sr <- rd TWSR ;;
  let twst := Z.land sr 0xF8 in
  if negb (twst =? TW_MT_DATA_ACK) then ret 2 else ret 0.

(** One pass through the body of the [do { ... } while (twst == NACK &&
    retry-- > 0)] loops: START, then the address byte [sla].  [inl code] is an
    early [return code]; [inr twst] is the status the loop condition sees.  The
    three copies of the body in the source (Fastwire_beginTransmission and the
    two address phases of Fastwire_readBuf) differ in the address byte and in the
    three return codes only. *)
Definition start_address (sla e_start e_status e_addr : Z) : M (Z + Z) :=
  _ <- wr TWCR CMD_START ;;
  ok <- Fastwire_waitInt ;;
  if ok =? 0 then ret (inl e_start) else
  sr <- rd TWSR ;;
  let twst := Z.land sr 0xF8 in
  if negb (twst =? TW_START) && negb (twst =? TW_REP_START) then ret (inl e_status) else
  _ <- wr TWDR sla ;;
  _ <- wr TWCR CMD_SEND ;;
  ok <- Fastwire_waitInt ;;
  if ok =? 0 then ret (inl e_addr) else
  sr <- rd TWSR ;;
  ret (inr (Z.land sr 0xF8)).

(** The do-while loop around it.  [retry] is the value of the [uint8_t retry]
    the condition [retry-- > 0] finds: with [retry = 2] at the start the body
    runs at most three times. *)
Fixpoint address_retry (sla nack e_start e_status e_addr : Z) (retry : nat)
  : M (Z + Z) :=
  r <- start_address sla e_start e_status e_addr ;;
  match r with
  | inl code => ret (inl code)
  | inr twst =>
      if twst =? nack then
        match retry with
        | S retry' => address_retry sla nack e_start e_status e_addr retry'
        | O => ret (inr twst)
        end
      else ret (inr twst)
  end.

Definition Fastwire_beginTransmission (device : Z) : M Z :=
  r <- address_retry (Z.shiftl device 1) TW_MT_SLA_NACK 1 2 3 2 ;;
  match r with
  | inl code => ret code
  | inr twst => if negb (twst =? TW_MT_SLA_ACK) then ret 4 else ret 0
  end.

(** [for (uint8_t i = 0; i < num; i++)] of Fastwire_readBuf, entered at index
    [i] with [n = num - i] passes left; the result is the return value of
    Fastwire_readBuf and the buffer. *)
Fixpoint readBuf_loop (num : Z) (n : nat) (i : Z) (data : Z -> Z)
  : M (Z * (Z -> Z)) :=
  match n with
  | O =>
      _ <- Fastwire_stop ;;
      ret (0, data)
  | S n' =>
      _ <- (if i =? num - 1 then wr TWCR CMD_SEND else wr TWCR CMD_RECV_ACK) ;;
      ok <- Fastwire_waitInt ;;
      if ok =? 0 then ret (26, data) else
      sr <- rd TWSR ;;
      let twst := Z.land sr 0xF8 in
      if negb (twst =? TW_MR_DATA_ACK) && negb (twst =? TW_MR_DATA_NACK)
      then ret (twst, data) else
      v <- rd TWDR ;;
      readBuf_loop num n' (i + 1) (upd data i v)
  end.

(** Fastwire_readBuf up to its [/***/] mark: START, the address with the write
    bit, the register address.  The result is the code of an early [return], or
    0 when control reaches the mark. *)
Definition readBuf_select (device address : Z) : M Z :=
  r <- address_retry (Z.land device 0xfe) TW_MT_SLA_NACK 16 17 18 2 ;;
  match r with
  | inl code => ret code
  | inr twst =>
      if negb (twst =? TW_MT_SLA_ACK) then ret 19 else
      _ <- wr TWDR address ;;
      _ <- wr TWCR CMD_SEND ;;
      ok <- Fastwire_waitInt ;;
      if ok =? 0 then ret 20 else
      sr <- rd TWSR ;;
      let twst := Z.land sr 0xF8 in
      if negb (twst =? TW_MT_DATA_ACK) then ret 21 else ret 0
  end.

(** Fastwire_readBuf from the mark on: START again, the address with the read
    bit, the data bytes, STOP. *)
Definition readBuf_receive (device : Z) (data : Z -> Z) (num : Z)
  : M (Z * (Z -> Z)) :=
  r <- address_retry (Z.lor device 0x01) TW_MR_SLA_NACK 22 23 24 2 ;;
  match r with
  | inl code => ret (code, data)
  | inr twst =>
      if negb (twst =? TW_MR_SLA_ACK) then ret (25, data) else
      readBuf_loop num (Z.to_nat num) 0 data
  end.

Definition Fastwire_readBuf (device address : Z) (data : Z -> Z) (num : Z)
  : M (Z * (Z -> Z)) :=
  code <- readBuf_select device address ;;
  if negb (code =? 0) then ret (code, data) else
  readBuf_receive device data num.

(** ** I2Cdev: bytes and words *)

Definition I2Cdev_readBytes (devAddr regAddr length : Z) (data : Z -> Z)
  (timeout : Z) : M (Z * (Z -> Z)) :=
  t1 <- millis ;;
  ' (status, data') <-
    Fastwire_readBuf (to_uint8 (Z.shiftl devAddr 1)) regAddr data length ;;
  let count := if status =? 0 then to_int8 length else -1 in
  count <- (if timeout >? 0 then
              now <- millis ;;
              ret (if (to_uint32 (now - t1) >=? timeout) && (count <? length)
                   then -1 else count)
            else ret count) ;;
  ret (to_uint8 count, data').

(** Element [k] of byte memory [mem] read as an array of [uint16_t]. *)
Definition u16_at (mem : Z -> Z) (k : Z) : Z :=
  if big_endian
  then to_uint8 (mem (2 * k)) * 256 + to_uint8 (mem (2 * k + 1))
  else to_uint8 (mem (2 * k)) + to_uint8 (mem (2 * k + 1)) * 256.

(** [for (uint8_t i = 0; i < length; i++) data[i] = (intermediate[2*i] << 8) |
    intermediate[2*i + 1];] where [intermediate] has element type [uint16_t]. *)
Fixpoint readWords_loop (n : nat) (i : Z) (intermediate data : Z -> Z) : Z -> Z :=
  match n with
  | O => data
  | S n' =>
      readWords_loop n' (i + 1) intermediate
        (upd data i
           (to_uint16 (Z.lor (Z.shiftl (u16_at intermediate (2 * i)) 8)
                             (u16_at intermediate (2 * i + 1)))))
  end.

(** [stack] is the memory from the first byte of the variable-length array
    [uint16_t intermediate[length]] on: its [2 * length] bytes, indeterminate at
    entry, and what lies behind them. *)
Definition I2Cdev_readWords (devAddr regAddr length : Z) (data : Z -> Z)
  (timeout : Z) (stack : Z -> Z) : M (Z * (Z -> Z)) :=
  t1 <- millis ;;
  ' (status, intermediate) <-
    Fastwire_readBuf (to_uint8 (Z.shiftl devAddr 1)) regAddr stack
                     (to_uint8 (length * 2)) ;;
  let count := if status =? 0 then to_int8 length else -1 in
  let data' := if status =? 0
               then readWords_loop (Z.to_nat length) 0 intermediate data
               else data in
  count <- (if timeout >? 0 then
              now <- millis ;;
              ret (if (to_uint32 (now - t1) >=? timeout) && (count <? length)
                   then -1 else count)
            else ret count) ;;
  ret (to_uint8 count, data').

(** [data] is the content of [*data] at entry; the result is the count and the
    content of [*data] at exit. *)
Definition I2Cdev_readByte (devAddr regAddr data timeout : Z) : M (Z * Z) :=
  ' (count, mem) <- I2Cdev_readBytes devAddr regAddr 1 (fun _ => data) timeout ;;
  ret (count, mem 0).

Definition I2Cdev_readWord (devAddr regAddr data timeout : Z) (stack : Z -> Z)
  : M (Z * Z) :=
  ' (count, mem) <-
    I2Cdev_readWords devAddr regAddr 1 (fun _ => data) timeout stack ;;
  ret (count, mem 0).

Fixpoint writeBytes_loop (n : nat) (i : Z) (data : Z -> Z) : M unit :=
  match n with
  | O => ret tt
  | S n' =>
      _ <- Fastwire_write (to_uint8 (data i)) ;;
      writeBytes_loop n' (i + 1) data
  end.

Definition I2Cdev_writeBytes (devAddr regAddr length : Z) (data : Z -> Z) : M Z :=
  let status := 0 in
  _ <- Fastwire_beginTransmission devAddr ;;
  _ <- Fastwire_write regAddr ;;
  _ <- writeBytes_loop (Z.to_nat length) 0 data ;;
  _ <- Fastwire_stop ;;
  ret (c_bool (status =? 0)).

(** [for (uint8_t i = 0; i < length * 2; i++) { ...data[i]...; ...data[i++]...;
    if (status != 0) break; }] entered at index [i].  The index is a [uint8_t]
    and is incremented twice per pass, so it wraps from 254 to 0 when
    [length * 2] exceeds 254: the loop need not end, and the model counts
    passes with [fuel].  [None] is fuel exhausted; [Some status] is the loop
    left with that [status]. *)
Fixpoint writeWords_loop (fuel : nat) (length : Z) (data : Z -> Z) (i status : Z)
  : M (option Z) :=
  match fuel with
  | O => ret None
  | S fuel' =>
      if i <? length * 2 then
        _ <- Fastwire_write (to_uint8 (Z.shiftr (data i) 8)) ;;
        status <- Fastwire_write (to_uint8 (data i)) ;;
        let i := to_uint8 (i + 1) in
        if negb (status =? 0) then ret (Some status)
        else writeWords_loop fuel' length data (to_uint8 (i + 1)) status
      else ret (Some status)
  end.

Definition I2Cdev_writeWords (fuel : nat) (devAddr regAddr length : Z)
  (data : Z -> Z) : M (option Z) :=
  let status := 0 in
  _ <- Fastwire_beginTransmission devAddr ;;
  _ <- Fastwire_write regAddr ;;
  r <- writeWords_loop fuel length data 0 status ;;
  match r with
  | None => ret None
  | Some status =>
      _ <- Fastwire_stop ;;
      ret (Some (c_bool (status =? 0)))
  end.

Definition I2Cdev_writeByte (devAddr regAddr data : Z) : M Z :=
  I2Cdev_writeBytes devAddr regAddr 1 (fun _ => data).

Definition I2Cdev_writeWord (fuel : nat) (devAddr regAddr data : Z) : M (option Z) :=
  I2Cdev_writeWords fuel devAddr regAddr 1 (fun _ => data).

(** ** I2Cdev: bits and bit fields *)

(** In the functions below [b] (or [w]) is the indeterminate content of the
    uninitialised local of that name, and [data] the content of [*data] at
    entry. *)

Definition I2Cdev_readBit (devAddr regAddr bitNum timeout b : Z) : M (Z * Z) :=
  ' (count, b) <- I2Cdev_readByte devAddr regAddr b timeout ;;
  ret (count, to_uint8 (Z.land b (bit bitNum))).

Definition I2Cdev_readBitW (devAddr regAddr bitNum timeout w : Z) (stack : Z -> Z)
  : M (Z * Z) :=
  ' (count, w) <- I2Cdev_readWord devAddr regAddr w timeout stack ;;
  ret (count, to_uint16 (Z.land w (bit bitNum))).

(** The value [I2Cdev_readBits] stores into [*data]: [b] masked, then shifted. *)
Definition readBits_field (bitStart length b : Z) : Z :=
  let mask := to_uint8 (Z.shiftl (bit length - 1) (bitStart - length + 1)) in
  let b := to_uint8 (Z.land b mask) in
  to_uint8 (Z.shiftr b (bitStart - length + 1)).

Definition I2Cdev_readBits (devAddr regAddr bitStart length data timeout b : Z)
  : M (Z * Z) :=
  ' (count, b) <- I2Cdev_readByte devAddr regAddr b timeout ;;
  if negb (count =? 0) then ret (count, readBits_field bitStart length b)
  else ret (count, data).

Definition I2Cdev_readBitsW (devAddr regAddr bitStart length data timeout w : Z)
  (stack : Z -> Z) : M (Z * Z) :=
  ' (count, w) <- I2Cdev_readWord devAddr regAddr w timeout stack ;;
  if negb (count =? 0) then
    let mask := to_uint16 (Z.shiftl (bit length - 1) (bitStart - length + 1)) in
    let w := to_uint16 (Z.land w mask) in
    let w := to_uint16 (Z.shiftr w (bitStart - length + 1)) in
    ret (count, w)
  else ret (count, data).

Definition I2Cdev_writeBit (devAddr regAddr bitNum data b : Z) : M Z :=
  timeout <- default_timeout ;;
  ' (_, b) <- I2Cdev_readByte devAddr regAddr b timeout ;;
  let b := to_uint8 (if negb (data =? 0)
                     then Z.lor b (bit bitNum)
                     else Z.land b (Z.lnot (bit bitNum))) in
  I2Cdev_writeByte devAddr regAddr b.

Definition I2Cdev_writeBitW (fuel : nat) (devAddr regAddr bitNum data w : Z)
  (stack : Z -> Z) : M (option Z) :=
  timeout <- default_timeout ;;
  ' (_, w) <- I2Cdev_readWord devAddr regAddr w timeout stack ;;
  let w := to_uint16 (if negb (data =? 0)
                      then Z.lor w (bit bitNum)
                      else Z.land w (Z.lnot (bit bitNum))) in
  I2Cdev_writeWord fuel devAddr regAddr w.

(** The value [I2Cdev_writeBits] stores back: [b] with the field replaced. *)
Definition writeBits_merge (bitStart length data b : Z) : Z :=
  let mask := to_uint8 (Z.shiftl (bit length - 1) (bitStart - length + 1)) in
  let data := to_uint8 (Z.shiftl data (bitStart - length + 1)) in
  let data := to_uint8 (Z.land data mask) in
  let b := to_uint8 (Z.land b (Z.lnot mask)) in
  to_uint8 (Z.lor b data).

(** The source calls [readByte], the name of the method in the C++ original;
    the only function of this file it can denote is [I2Cdev_readByte], with
    the default timeout. *)
Definition I2Cdev_writeBits (devAddr regAddr bitStart length data b : Z) : M Z :=
  timeout <- default_timeout ;;
  ' (count, b) <- I2Cdev_readByte devAddr regAddr b timeout ;;
  if negb (count =? 0) then
    I2Cdev_writeByte devAddr regAddr (writeBits_merge bitStart length data b)
  else ret 0.

Definition writeBitsW_merge (bitStart length data w : Z) : Z :=
  let mask := to_uint16 (Z.shiftl (bit length - 1) (bitStart - length + 1)) in
  let data := to_uint16 (Z.shiftl data (bitStart - length + 1)) in
  let data := to_uint16 (Z.land data mask) in
  let w := to_uint16 (Z.land w (Z.lnot mask)) in
  to_uint16 (Z.lor w data).

Definition I2Cdev_writeBitsW (fuel : nat) (devAddr regAddr bitStart length data w : Z)
  (stack : Z -> Z) : M (option Z) :=
  timeout <- default_timeout ;;
  ' (count, w) <- I2Cdev_readWord devAddr regAddr w timeout stack ;;
  if negb (count =? 0) then
    I2Cdev_writeWord fuel devAddr regAddr (writeBitsW_merge bitStart length data w)
  else ret (Some 0).

(** ** Fastwire: the functions the I2Cdev layer does not call *)

(** [for (uint8_t i = 0; i < num; i++)] of Fastwire_writeBuf, entered at index
    [i] with [n = num - i] passes left; the result is the return value of
    Fastwire_writeBuf. *)
Fixpoint writeBuf_loop (n : nat) (i : Z) (data : Z -> Z) : M Z :=
  match n with
  | O => ret 0
  | S n' =>
      _ <- wr TWDR (data i) ;;
      _ <- wr TWCR CMD_SEND ;;
      ok <- Fastwire_waitInt ;;
      if ok =? 0 then ret 7 else
      sr <- rd TWSR ;;
      let twst := Z.land sr 0xF8 in
      if negb (twst =? TW_MT_DATA_ACK) then ret 8 else
      writeBuf_loop n' (i + 1) data
  end.

Definition Fastwire_writeBuf (device address : Z) (data : Z -> Z) (num : Z) : M Z :=
  r <- address_retry (Z.land device 0xFE) TW_MT_SLA_NACK 1 2 3 2 ;;
  match r with
  | inl code => ret code
  | inr twst =>
      if negb (twst =? TW_MT_SLA_ACK) then ret 4 else
      _ <- wr TWDR address ;;
      _ <- wr TWCR CMD_SEND ;;
      ok <- Fastwire_waitInt ;;
      if ok =? 0 then ret 5 else
      sr <- rd TWSR ;;
      let twst := Z.land sr 0xF8 in
      if negb (twst =? TW_MT_DATA_ACK) then ret 6 else
      writeBuf_loop (Z.to_nat num) 0 data
  end.

Definition Fastwire_reset : M unit := wr TWCR 0.

(** The registers [Fastwire_setup] assigns; PORTC and TWBR are not among the
    registers of the transfer functions. *)
Inductive SetupReg : Type := SU_TWCR | SU_PORTC | SU_TWSR | SU_TWBR.

(** [Fastwire_setup]: the stores it performs, in order, [portc] being the
    value it loads from PORTC.  [16000L / khz] is a division of [long]s: it
    truncates toward zero, and C leaves it undefined for [khz = 0] ([None]). *)
Definition Fastwire_setup (khz pullup portc : Z) : option (list (SetupReg * Z)) :=
  if khz =? 0 then None else
  Some [(SU_TWCR, to_uint8 0);
        (SU_PORTC,
         to_uint8 (if negb (pullup =? 0)
                   then Z.lor portc (Z.lor (bit 4) (bit 5))
                   else Z.land portc (Z.lnot (Z.lor (bit 4) (bit 5)))));
        (SU_TWSR, to_uint8 0);
        (SU_TWBR, to_uint8 (Z.quot (Z.quot 16000 khz - 16) 2));
        (SU_TWCR, to_uint8 (bit TWEN))].

End Embedding.

Arguments World H : clear implicits.
Arguments M H A : clear implicits.

(** ** A scripted peripheral

    The peripheral answers the commands of the master from a script: the n-th
    store to TWCR that has TWINT set starts the n-th operation, which the n-th
    entry of the script completes.  After the script has run out no operation
    completes any more. *)

Inductive Resp : Type :=
| Done (delay : nat) (status : Z) (rx : option Z)
    (* TWINT shows at load number [delay + 1] of TWCR; TWSR then holds
       [status], and TWDR holds the byte [rx] if one was received *)
| Hang.
    (* TWINT never shows *)

Record Scripted : Type := mkScripted {
  sc_script : list Resp;
  sc_current : Resp;
  sc_twsr : Z;
  sc_twdr : Z;
  sc_ms : Z
}.

Definition scripted_write (r : Reg) (v : Z) (s : Scripted) : Scripted :=
  match r with
  | TWCR =>
      if Z.testbit v 7 then
        match sc_script s with
        | [] => mkScripted [] Hang (sc_twsr s) (sc_twdr s) (sc_ms s)
        | x :: rest => mkScripted rest x (sc_twsr s) (sc_twdr s) (sc_ms s)
        end
      else s
  | TWSR => s
  | TWDR => mkScripted (sc_script s) (sc_current s) (sc_twsr s) v (sc_ms s)
  end.

Definition scripted_read (r : Reg) (s : Scripted) : Z * Scripted :=
  match r with
  | TWCR =>
      match sc_current s with
      | Hang => (0x04, s)
      | Done (S d) st rx =>
          (0x04, mkScripted (sc_script s) (Done d st rx) (sc_twsr s) (sc_twdr s) (sc_ms s))
      | Done O st rx =>
          (0x84,
           mkScripted (sc_script s) (Done O st rx) st
                      (match rx with Some b => b | None => sc_twdr s end) (sc_ms s))
      end
  | TWSR => (sc_twsr s, s)
  | TWDR => (sc_twdr s, s)
  end.

(** The TWCR bit numbers are those of the ATmega TWI. *)
Definition scripted_platform (be : bool) : Platform Scripted := {|
  TWINT := 7;
  TWEA := 6;
  TWSTA := 5;
  TWSTO := 4;
  TWEN := 2;
  hw_read := scripted_read;
  hw_write := scripted_write;
  hw_millis := fun s => (sc_ms s, s);
  big_endian := be
|}.

(** The AVR stores a [uint16_t] low byte first. *)
#[export] Instance avr_scripted : Platform Scripted := scripted_platform false.

(** A fresh world: the peripheral idle with [script] ahead, nothing traced,
    the timeout at its default. *)
Definition scripted_world (script : list Resp) : World Scripted :=
  mkWorld (mkScripted script Hang 0xF8 0xFF 0) [] I2CDEV_DEFAULT_READ_TIMEOUT.

(** Script entries: a status reached at once, and a byte received at once. *)
Definition st (status : Z) : Resp := Done 0 status None.
Definition rx (status byte : Z) : Resp := Done 0 status (Some byte).

(** ** A slave with a register file

    One device at address [sl_addr] with 256 byte registers and an
    auto-incrementing register pointer.  A write transaction sets the pointer
    with its first data byte and stores the following ones; a read transaction
    returns the registers from the pointer on.  The master side follows the
    ATmega TWI: TWINT shows as soon as an operation is done, except after a
    STOP. *)

Inductive Phase : Type :=
| Idle          (* no transaction *)
| Started       (* START sent, address byte expected *)
| SetPointer    (* addressed for writing, register address expected *)
| Store         (* addressed for writing, data expected *)
| Fetch         (* addressed for reading *)
| Unanswered.   (* another address was called *)

Record Slave : Type := mkSlave {
  sl_addr : Z;
  sl_regs : Z -> Z;
  sl_ptr : Z;
  sl_phase : Phase;
  sl_twint : bool;
  sl_twsr : Z;
  sl_twdr : Z;
  sl_ms : Z
}.

Definition slave_command (v : Z) (s : Slave) : Slave :=
  let a := sl_addr s in
  let regs := sl_regs s in
  let ptr := sl_ptr s in
  let dr := sl_twdr s in
  let ms := sl_ms s in
  if Z.testbit v 5 then
    (* START, after a STOP when TWSTO is set as well *)
    let status :=
      match sl_phase s with
      | Idle => TW_START
      | _ => if Z.testbit v 4 then TW_START else TW_REP_START
      end in
    mkSlave a regs ptr Started true status dr ms
  else if Z.testbit v 4 then
    mkSlave a regs ptr Idle false 0xF8 dr ms
  else
    match sl_phase s with
    | Idle => mkSlave a regs ptr Idle false 0xF8 dr ms
    | Started =>
        if Z.shiftr dr 1 =? a then
          if Z.testbit dr 0
          then mkSlave a regs ptr Fetch true TW_MR_SLA_ACK dr ms
          else mkSlave a regs ptr SetPointer true TW_MT_SLA_ACK dr ms
        else
          mkSlave a regs ptr Unanswered true
                  (if Z.testbit dr 0 then TW_MR_SLA_NACK else TW_MT_SLA_NACK) dr ms
    | SetPointer => mkSlave a regs dr Store true TW_MT_DATA_ACK dr ms
    | Store =>
        mkSlave a (upd regs ptr dr) (to_uint8 (ptr + 1)) Store true TW_MT_DATA_ACK dr ms
    | Fetch =>
        mkSlave a regs (to_uint8 (ptr + 1)) Fetch true
                (if Z.testbit v 6 then TW_MR_DATA_ACK else TW_MR_DATA_NACK)
                (to_uint8 (regs ptr)) ms
    | Unanswered => mkSlave a regs ptr Unanswered true TW_MT_DATA_NACK dr ms
    end.

Definition slave_write (r : Reg) (v : Z) (s : Slave) : Slave :=
  match r with
  | TWCR => if Z.testbit v 7 then slave_command v s else s
  | TWSR => s
  | TWDR =>
      mkSlave (sl_addr s) (sl_regs s) (sl_ptr s) (sl_phase s) (sl_twint s)
              (sl_twsr s) v (sl_ms s)
  end.

Definition slave_read (r : Reg) (s : Slave) : Z * Slave :=
  match r with
  | TWCR => (if sl_twint s then 0x84 else 0x04, s)
  | TWSR => (sl_twsr s, s)
  | TWDR => (sl_twdr s, s)
  end.

#[export] Instance avr_slave : Platform Slave := {|
  TWINT := 7;
  TWEA := 6;
  TWSTA := 5;
  TWSTO := 4;
  TWEN := 2;
  hw_read := slave_read;
  hw_write := slave_write;
  hw_millis := fun s => (sl_ms s, s);
  big_endian := false
|}.

(** The bus at rest with the slave at address [a] holding [regs]. *)
Definition slave_idle (a : Z) (regs : Z -> Z) : Slave :=
  mkSlave a regs 0 Idle false 0xF8 0xFF 0.

Definition slave_world (a : Z) (regs : Z -> Z) : World Slave :=
  mkWorld (slave_idle a regs) [] I2CDEV_DEFAULT_READ_TIMEOUT.

(** Scripts of whole transactions, every step answered at once. *)

(** The data phase of a read: ACK status for every byte but the last. *)
Fixpoint data_script (bytes : list Z) : list Resp :=
  match bytes with
  | [] => []
  | [b] => [rx TW_MR_DATA_NACK b]
  | b :: rest => rx TW_MR_DATA_ACK b :: data_script rest
  end.

(** A read that delivers [bytes]. *)
Definition read_script (bytes : list Z) : list Resp :=
  [st TW_START; st TW_MT_SLA_ACK; st TW_MT_DATA_ACK; st TW_START; st TW_MR_SLA_ACK]
  ++ data_script bytes.

(** ** msec.c *)

(** [ISR (TIMER2_OVF_vect) {msec++;}] on the [uint32_t msec]. *)
Definition TIMER2_OVF_vect (msec : Z) : Z := to_uint32 (msec + 1).

(** [millis()]: the counter as it is. *)
Definition msec_millis (msec : Z) : Z := msec.

(** A scripted peripheral whose clock is [msec]: between two calls of
    [millis()] the timer interrupt runs [ticks] times. *)
Definition ticking_platform (ticks : nat) : Platform Scripted := {|
  TWINT := 7;
  TWEA := 6;
  TWSTA := 5;
  TWSTO := 4;
  TWEN := 2;
  hw_read := scripted_read;
  hw_write := scripted_write;
  hw_millis := fun s =>
    (msec_millis (sc_ms s),
     mkScripted (sc_script s) (sc_current s) (sc_twsr s) (sc_twdr s)
                (Nat.iter ticks TIMER2_OVF_vect (sc_ms s)));
  big_endian := false
|}.

(** ** Example inputs *)

(** The address of an MPU-6050, and two of its registers. *)
Definition dev_example : Z := 0x68.
Definition reg_example : Z := 0x75.
Definition reg_block : Z := 0x3B.

(** A register file with 0b10101111 in [reg_example]. *)
Definition regs_example : Z -> Z :=
  fun r => if r =? reg_example then 0xAF else 0.

(** The address phase of a read NACKed twice, ACKed at the second retry; the
    read then runs to its end and delivers 0x5A. *)
Definition two_nacks_script : list Resp :=
  [st TW_START; st TW_MT_SLA_NACK; st TW_START; st TW_MT_SLA_NACK;
   st TW_START; st TW_MT_SLA_ACK; st TW_MT_DATA_ACK;
   st TW_START; st TW_MR_SLA_ACK; rx TW_MR_DATA_NACK 0x5A].

(** The write-address phase NACKed three times. *)
Definition three_nacks_script : list Resp :=
  [st TW_START; st TW_MT_SLA_NACK; st TW_START; st TW_MT_SLA_NACK;
   st TW_START; st TW_MT_SLA_NACK].

(** The register selected, then the read-address phase NACKed three times. *)
Definition three_read_nacks_script : list Resp :=
  [st TW_START; st TW_MT_SLA_ACK; st TW_MT_DATA_ACK;
   st TW_START; st TW_MR_SLA_NACK; st TW_START; st TW_MR_SLA_NACK;
   st TW_START; st TW_MR_SLA_NACK].

(** A write whose first data byte is NACKed, and the second as well. *)
Definition data_nack_script : list Resp :=
  [st TW_START; st TW_MT_SLA_ACK; st TW_MT_DATA_ACK;
   st TW_MT_DATA_NACK; st TW_MT_DATA_NACK].

(** A word write whose high byte is NACKed and whose low byte is ACKed. *)
Definition msb_nack_script : list Resp :=
  [st TW_START; st TW_MT_SLA_ACK; st TW_MT_DATA_ACK;
   st TW_MT_DATA_NACK; st TW_MT_DATA_ACK].

(** A two-byte read: the first byte arrives, then the TWI reports a bus error
    (status 0x00) in place of the second. *)
Definition bus_error_script : list Resp :=
  [st TW_START; st TW_MT_SLA_ACK; st TW_MT_DATA_ACK;
   st TW_START; st TW_MR_SLA_ACK; rx TW_MR_DATA_ACK 0x11; st 0x00].

(** A caller's buffer of two words, and the word that lies behind it. *)
Definition words_example : Z -> Z :=
  fun i => if i =? 0 then 0x1234 else if i =? 1 then 0x5678 else 0x9ABC.

(** A caller's buffer of two bytes. *)
Definition bytes_example : Z -> Z :=
  fun i => if i =? 0 then 0xAA else 0xBB.

(** ** Vocabulary of the statements *)

Definition is_store (e : Event) : bool :=
  match e with
  | RegWrite _ _ => true
  | RegRead _ _ => false
  end.

(** The stores of a trace, in order: what the master did to the bus. *)
Definition stores (t : list Event) : list Event := filter is_store t.

(** [data[i] = d0; data[i + 1] = d1; ...] for the bytes [ds]. *)
Fixpoint store_from (data : Z -> Z) (i : Z) (ds : list Z) : Z -> Z :=
  match ds with
  | [] => data
  | d :: ds' => store_from (upd data i d) (i + 1) ds'
  end.

(** The value [I2Cdev_readBitsW] stores into [*data]. *)
Definition readBitsW_field (bitStart length w : Z) : Z :=
  let mask := to_uint16 (Z.shiftl (bit length - 1) (bitStart - length + 1)) in
  let w := to_uint16 (Z.land w mask) in
  to_uint16 (Z.shiftr w (bitStart - length + 1)).

(** The bytes [data[i]], ..., [data[i + n - 1]] as they go to TWDR. *)
Fixpoint data_bytes (n : nat) (i : Z) (data : Z -> Z) : list Z :=
  match n with
  | O => []
  | S n' => to_uint8 (data i) :: data_bytes n' (i + 1) data
  end.

(** The register file of the slave after it stored [n] bytes of [data] from
    index [i] on, the register pointer starting at [p]. *)
Fixpoint store_seq (regs : Z -> Z) (p i : Z) (n : nat) (data : Z -> Z) : Z -> Z :=
  match n with
  | O => regs
  | S n' => store_seq (upd regs p (to_uint8 (data i))) (to_uint8 (p + 1)) (i + 1) n' data
  end.

(** The buffer after [n] registers were fetched into it from index [i] on,
    the register pointer starting at [p]. *)
Fixpoint fetch_seq (regs : Z -> Z) (p i : Z) (n : nat) (data : Z -> Z) : Z -> Z :=
  match n with
  | O => data
  | S n' => fetch_seq regs (to_uint8 (p + 1)) (i + 1) n' (upd data i (to_uint8 (regs p)))
  end.

Section Vocabulary.

Context {H : Type} {P : Platform H}.

(** From [w] to [w'] the master performed the stores [ws] and loaded the
    bytes [ds] from TWDR, and nothing else but loads of TWCR and TWSR. *)
Definition delta (w w' : World H) (ws : list Event) (ds : list Z) : Prop :=
  stores (trace w') = stores (trace w) ++ ws /\
  reads_from TWDR (trace w') = reads_from TWDR (trace w) ++ ds.


(** The TWCR commands of [n] passes of the receive loop of Fastwire_readBuf
    from index [i] on, as the source prescribes them: without TWEA at index
    [num - 1], with TWEA elsewhere. *)
Fixpoint recv_cmds (num : Z) (n : nat) (i : Z) : list Event :=
  match n with
  | O => []
  | S n' =>
      RegWrite TWCR (to_uint8 (if i =? num - 1 then CMD_SEND else CMD_RECV_ACK))
      :: recv_cmds num n' (i + 1)
  end.

(** The stores of one pass of an address phase. *)
Definition pass_stores (sla : Z) : list Event :=
  [RegWrite TWCR (to_uint8 CMD_START); RegWrite TWDR (to_uint8 sla);
   RegWrite TWCR (to_uint8 CMD_SEND)].

(** The stores of one [Fastwire_write (value)]. *)
Definition send_stores (value : Z) : list Event :=
  [RegWrite TWDR (to_uint8 value); RegWrite TWCR (to_uint8 CMD_SEND)].

(** The stores of [n] passes of the loop of I2Cdev_writeBytes from index [i]. *)
Fixpoint bytes_stores (n : nat) (i : Z) (data : Z -> Z) : list Event :=
  match n with
  | O => []
  | S n' => send_stores (to_uint8 (data i)) ++ bytes_stores n' (i + 1) data
  end.

(** TWINT shows at one of the next [n] loads of TWCR. *)
Fixpoint twint_within (n : nat) (h : H) : bool :=
  match n with
  | O => false
  | S n' =>
      let (v, h') := hw_read TWCR h in
      if negb (Z.land (to_uint8 v) (bit TWINT) =? 0) then true
      else twint_within n' h'
  end.

(** The stores of [k] full passes of an address phase. *)
Fixpoint passes (k : nat) (sla : Z) : list Event :=
  match k with
  | O => []
  | S k' => pass_stores sla ++ passes k' sla
  end.

(** The stores of [n] passes of the loop of Fastwire_writeBuf from index [i]. *)
Fixpoint buf_stores (n : nat) (i : Z) (data : Z -> Z) : list Event :=
  match n with
  | O => []
  | S n' => send_stores (data i) ++ buf_stores n' (i + 1) data
  end.

End Vocabulary.

(** * Properties *)

(** ** Bit fields *)

Lemma bit_ones (n : Z) : 0 <= n -> bit n - 1 = Z.ones n.
Proof.
  intros Hn. unfold bit. rewrite Z.shiftl_1_l, Z.ones_equiv. lia.
Qed.

Lemma to_uint8_bits (x k : Z) :
  Z.testbit (to_uint8 x) k = (k <? 8) && Z.testbit x k.
Proof.
  unfold to_uint8.
  destruct (Z.ltb_spec k 8) as [Hk | Hk]; cbn [andb]; change 256 with (2 ^ 8).
  - destruct (Z.ltb_spec k 0) as [Hneg | Hpos].
    + now rewrite !Z.testbit_neg_r.
    + now apply Z.mod_pow2_bits_low.
  - apply Z.mod_pow2_bits_high. lia.
Qed.

(** The mask of a field that fits the byte is not truncated. *)
Lemma field_mask_bits (shift length k : Z) :
  0 <= length -> 0 <= shift -> shift + length <= 8 ->
  Z.testbit (to_uint8 (Z.shiftl (bit length - 1) shift)) k =
  (shift <=? k) && (k <? shift + length).
Proof.
  intros Hl Hs Hfit.
  rewrite to_uint8_bits, bit_ones by assumption.
  destruct (Z.ltb_spec k 0) as [Hneg | Hpos].
  - rewrite Z.testbit_neg_r by assumption.
    destruct (Z.leb_spec shift k); [lia |]. now rewrite andb_false_r.
  - rewrite Z.shiftl_spec by assumption.
    destruct (Z.leb_spec shift k) as [Hge | Hlt].
    + rewrite Z.testbit_ones_nonneg by lia.
      destruct (Z.ltb_spec (k - shift) length), (Z.ltb_spec k (shift + length)),
        (Z.ltb_spec k 8); simpl; try reflexivity; lia.
    + rewrite Z.testbit_neg_r by lia. now rewrite andb_false_r.
Qed.

(** [readBits_field] is the field, right-aligned. *)
Lemma readBits_field_bits (bitStart length b k : Z) :
  0 <= length <= bitStart + 1 -> bitStart + 1 <= 8 -> 0 <= k ->
  Z.testbit (readBits_field bitStart length b) k =
  (k <? length) && Z.testbit b (k + (bitStart - length + 1)).
Proof.
  intros Hl Hb Hk. unfold readBits_field.
  set (shift := bitStart - length + 1).
  assert (Hs : 0 <= shift) by (unfold shift; lia).
  assert (Hfit : shift + length <= 8) by (unfold shift; lia).
  rewrite to_uint8_bits, Z.shiftr_spec, to_uint8_bits, Z.land_spec by assumption.
  rewrite field_mask_bits by lia.
  destruct (Z.ltb_spec k 8), (Z.ltb_spec (k + shift) 8), (Z.leb_spec shift (k + shift)),
    (Z.ltb_spec (k + shift) (shift + length)), (Z.ltb_spec k length);
    simpl; rewrite ?andb_true_r, ?andb_false_r; try reflexivity; lia.
Qed.

Lemma readBits_field_unfold (bitStart length b : Z) :
  0 <= length <= bitStart + 1 -> bitStart + 1 <= 8 ->
  readBits_field bitStart length b =
  Z.shiftr (Z.land b (Z.shiftl (Z.shiftl 1 length - 1) (bitStart - length + 1)))
           (bitStart - length + 1).
Proof.
  intros Hl Hb. apply Z.bits_inj'. intros k Hk.
  rewrite readBits_field_bits by assumption.
  set (shift := bitStart - length + 1).
  assert (Hs : 0 <= shift) by (unfold shift; lia).
  rewrite Z.shiftr_spec, Z.land_spec by assumption.
  change (Z.shiftl 1 length - 1) with (bit length - 1).
  rewrite bit_ones, Z.shiftl_spec by lia.
  replace (k + shift - shift) with k by lia.
  rewrite Z.testbit_ones_nonneg by lia.
  now rewrite andb_comm.
Qed.

Lemma readBits_field_div_mod (bitStart length b : Z) :
  0 <= length <= bitStart + 1 -> bitStart + 1 <= 8 ->
  readBits_field bitStart length b = (b / 2 ^ (bitStart - length + 1)) mod 2 ^ length.
Proof.
  intros Hl Hb. apply Z.bits_inj'. intros k Hk.
  rewrite readBits_field_bits by assumption.
  set (shift := bitStart - length + 1).
  assert (Hs : 0 <= shift) by (unfold shift; lia).
  rewrite <- Z.shiftr_div_pow2, <- Z.land_ones by lia.
  rewrite Z.land_spec, Z.shiftr_spec, Z.testbit_ones_nonneg by lia.
  now rewrite andb_comm.
Qed.

(** [writeBits_merge] replaces the field and nothing else. *)
Lemma writeBits_merge_bits (bitStart length v b k : Z) :
  0 <= length <= bitStart + 1 -> bitStart + 1 <= 8 -> 0 <= k ->
  Z.testbit (writeBits_merge bitStart length v b) k =
  if (bitStart - length + 1 <=? k) && (k <=? bitStart)
  then Z.testbit v (k - (bitStart - length + 1))
  else (k <? 8) && Z.testbit b k.
Proof.
  intros Hl Hb Hk. unfold writeBits_merge.
  set (shift := bitStart - length + 1).
  assert (Hs : 0 <= shift) by (unfold shift; lia).
  assert (Hfit : shift + length <= 8) by (unfold shift; lia).
  pose proof (field_mask_bits shift length k ltac:(lia) Hs Hfit) as Hmask.
  set (mask := to_uint8 (Z.shiftl (bit length - 1) shift)) in *.
  rewrite to_uint8_bits, Z.lor_spec, !to_uint8_bits, !Z.land_spec, Z.lnot_spec,
    to_uint8_bits, Z.shiftl_spec, Hmask by lia.
  replace (k <? shift + length) with (k <=? bitStart)
    by (unfold shift;
        destruct (Z.leb_spec k bitStart),
                 (Z.ltb_spec k (bitStart - length + 1 + length)); lia).
  destruct (Z.leb_spec shift k), (Z.leb_spec k bitStart), (Z.ltb_spec k 8);
    simpl; rewrite ?andb_true_r, ?andb_false_r, ?orb_false_r; try reflexivity; lia.
Qed.

Lemma writeBits_merge_field (bitStart length v b : Z) :
  0 <= length <= bitStart + 1 -> bitStart + 1 <= 8 -> 0 <= v < 2 ^ length ->
  readBits_field bitStart length (writeBits_merge bitStart length v b) = v.
Proof.
  intros Hl Hb Hv. apply Z.bits_inj'. intros k Hk.
  rewrite readBits_field_bits, writeBits_merge_bits by lia.
  set (shift := bitStart - length + 1).
  assert (Hs : 0 <= shift) by (unfold shift; lia).
  replace (k + shift - shift) with k by lia.
  destruct (Z.ltb_spec k length) as [Hin | Hout]; simpl.
  - destruct (Z.leb_spec shift (k + shift)), (Z.leb_spec (k + shift) bitStart);
      simpl; try reflexivity; unfold shift in *; lia.
  - symmetry. destruct (Z.eq_dec v 0) as [-> | Hnz]; [apply Z.bits_0 |].
    apply Z.bits_above_log2; [lia |].
    apply Z.log2_lt_pow2; [lia |].
    apply Z.lt_le_trans with (2 ^ length); [lia |].
    apply Z.pow_le_mono_r; lia.
Qed.

(** ** Traces *)

Lemma stores_app (a b : list Event) : stores (a ++ b) = stores a ++ stores b.
Proof. apply filter_app. Qed.

Lemma writes_to_app (r : Reg) (a b : list Event) :
  writes_to r (a ++ b) = writes_to r a ++ writes_to r b.
Proof.
  induction a as [| [r' v | r' v] a IH]; simpl; [reflexivity | assumption |].
  destruct (Reg_eqb r r'); simpl; now rewrite IH.
Qed.

Lemma reads_from_app (r : Reg) (a b : list Event) :
  reads_from r (a ++ b) = reads_from r a ++ reads_from r b.
Proof.
  induction a as [| [r' v | r' v] a IH]; simpl; [reflexivity | | assumption].
  destruct (Reg_eqb r r'); simpl; now rewrite IH.
Qed.

Lemma writes_to_stores (r : Reg) (t : list Event) :
  writes_to r (stores t) = writes_to r t.
Proof.
  induction t as [| [r' v | r' v] t IH]; simpl; [reflexivity | assumption |].
  destruct (Reg_eqb r r'); now rewrite IH.
Qed.

Section Facts.

Context {H : Type} {P : Platform H}.
Implicit Types w : World H.

Lemma delta_refl w : delta w w [] [].
Proof. unfold delta. now rewrite !app_nil_r. Qed.

Lemma delta_trans w0 w1 w2 ws1 ws2 ds1 ds2 :
  delta w0 w1 ws1 ds1 -> delta w1 w2 ws2 ds2 ->
  delta w0 w2 (ws1 ++ ws2) (ds1 ++ ds2).
Proof.
  intros [Hs1 Hd1] [Hs2 Hd2]. unfold delta.
  now rewrite Hs2, Hs1, Hd2, Hd1, !app_assoc.
Qed.

Lemma delta_writes_to w w' ws ds (r : Reg) :
  delta w w' ws ds ->
  writes_to r (trace w') = writes_to r (trace w) ++ writes_to r ws.
Proof.
  intros [Hs _].
  rewrite <- (writes_to_stores r (trace w')), Hs, writes_to_app.
  now rewrite writes_to_stores.
Qed.

Lemma rd_delta (r : Reg) w v w' :
  rd r w = (v, w') ->
  delta w w' [] (if Reg_eqb TWDR r then [v] else []).
Proof.
  unfold rd. destruct (hw_read r (hw w)) as [x h']. intros E.
  injection E as <- <-. unfold delta. simpl.
  rewrite stores_app, reads_from_app. simpl.
  now destruct (Reg_eqb TWDR r).
Qed.

Lemma wr_delta (r : Reg) (v : Z) w u w' :
  wr r v w = (u, w') -> delta w w' [RegWrite r (to_uint8 v)] [].
Proof.
  unfold wr. intros E. injection E as _ <-. unfold delta. simpl.
  rewrite stores_app, reads_from_app. simpl. now rewrite app_nil_r.
Qed.


Lemma waitInt_loop_delta (l : nat) w v w' :
  waitInt_loop l w = (v, w') -> delta w w' [] [].
Proof.
  revert w. induction l as [| l IH]; intros w; simpl; unfold bind;
    destruct (rd TWCR w) as [cr w1] eqn:E1; apply rd_delta in E1; simpl in E1;
    destruct (negb (Z.land cr (bit TWINT) =? 0)); unfold ret; intros E.
  - now injection E as _ <-.
  - now injection E as _ <-.
  - now injection E as _ <-.
  - apply IH in E. apply (delta_trans _ _ _ _ _ _ _ E1 E).
Qed.

Lemma Fastwire_waitInt_delta w ok w' :
  Fastwire_waitInt w = (ok, w') -> delta w w' [] [].
Proof.
  unfold Fastwire_waitInt, bind.
  destruct (waitInt_loop 250 w) as [l w1] eqn:E1. unfold ret. intros E.
  injection E as _ <-. now apply waitInt_loop_delta in E1.
Qed.

(** Running the next call of a monadic body: name its result and its final
    world, and record what it did to the trace. *)
Ltac run_wr :=
  match goal with
  | |- context [wr ?r ?v ?w] =>
      let E := fresh "E" in let w' := fresh "w" in
      destruct (wr r v w) as [[] w'] eqn:E; apply wr_delta in E
  end.

Ltac run_rd :=
  match goal with
  | |- context [rd ?r ?w] =>
      let E := fresh "E" in let w' := fresh "w" in let v := fresh "sr" in
      destruct (rd r w) as [v w'] eqn:E; apply rd_delta in E; simpl in E
  end.

Ltac run_wait :=
  match goal with
  | |- context [Fastwire_waitInt ?w] =>
      let E := fresh "E" in let w' := fresh "w" in let ok := fresh "ok" in
      destruct (Fastwire_waitInt w) as [ok w'] eqn:E;
      apply Fastwire_waitInt_delta in E
  end.

(** Closing a branch that returns at once. *)
Ltac returned :=
  unfold ret;
  let E := fresh "E" in
  intros E; injection E as <- <-.

(** Composing the recorded steps from [w] on. *)
Ltac chain_to D :=
  repeat match goal with
  | D1 : delta ?a ?b _ _, D2 : delta ?b ?c _ _ |- _ =>
      let D' := fresh "D" in
      pose proof (delta_trans _ _ _ _ _ _ _ D1 D2) as D'; simpl in D';
      clear D1 D2
  end;
  match goal with
  | D1 : delta _ _ _ _ |- _ => rename D1 into D
  end.

Lemma Fastwire_write_delta (value : Z) w r w' :
  Fastwire_write value w = (r, w') ->
  delta w w' [RegWrite TWDR (to_uint8 value); RegWrite TWCR (to_uint8 CMD_SEND)] [].
Proof.
  unfold Fastwire_write, bind. run_wr. run_wr. run_wait.
  destruct (ok =? 0).
  - returned. chain_to D. exact D.
  - run_rd. destruct (negb _); returned; chain_to D; exact D.
Qed.

Lemma Fastwire_stop_delta w r w' :
  Fastwire_stop w = (r, w') -> delta w w' [RegWrite TWCR (to_uint8 CMD_STOP)] [].
Proof.
  unfold Fastwire_stop, bind. run_wr. run_wait.
  destruct (ok =? 0); returned; chain_to D; exact D.
Qed.

Lemma start_address_delta (sla e1 e2 e3 : Z) w r w' :
  start_address sla e1 e2 e3 w = (r, w') ->
  match r with
  | inr _ => delta w w' (pass_stores sla) []
  | inl _ => delta w w' [RegWrite TWCR (to_uint8 CMD_START)] [] \/
             delta w w' (pass_stores sla) []
  end.
Proof.
  unfold start_address, bind. run_wr. run_wait.
  destruct (ok =? 0).
  { returned. left. chain_to D. exact D. }
  run_rd. destruct (_ && _).
  { returned. left. chain_to D. exact D. }
  run_wr. run_wr. run_wait.
  destruct (ok0 =? 0).
  { returned. right. chain_to D. exact D. }
  run_rd. returned. chain_to D. exact D.
Qed.

(** An address phase stores the address byte once per pass that gets that
    far, loads nothing from TWDR, and makes at most [retry + 1] passes. *)
Lemma address_retry_delta (sla nack e1 e2 e3 : Z) (retry : nat) w r w' :
  address_retry sla nack e1 e2 e3 retry w = (r, w') ->
  exists ws k,
    delta w w' ws [] /\ (k <= S retry)%nat /\
    writes_to TWDR ws = repeat (to_uint8 sla) k.
Proof.
  revert w. induction retry as [| retry IH]; intros w; simpl; unfold bind;
    destruct (start_address sla e1 e2 e3 w) as [[code | twst] w1] eqn:E1;
    apply start_address_delta in E1.
  - returned. destruct E1 as [D | D].
    + exists [RegWrite TWCR (to_uint8 CMD_START)], 0%nat.
      split; [exact D | split; [lia | reflexivity]].
    + exists (pass_stores sla), 1%nat. split; [exact D | split; [lia | reflexivity]].
  - destruct (twst =? nack); returned;
      exists (pass_stores sla), 1%nat; (split; [exact E1 | split; [lia | reflexivity]]).
  - returned. destruct E1 as [D | D].
    + exists [RegWrite TWCR (to_uint8 CMD_START)], 0%nat.
      split; [exact D | split; [lia | reflexivity]].
    + exists (pass_stores sla), 1%nat. split; [exact D | split; [lia | reflexivity]].
  - destruct (twst =? nack).
    + intros E. apply IH in E. destruct E as (ws & k & D & Hk & Hw).
      exists (pass_stores sla ++ ws), (S k). split; [| split].
      * exact (delta_trans _ _ _ _ _ _ _ E1 D).
      * lia.
      * rewrite writes_to_app, Hw. reflexivity.
    + returned. exists (pass_stores sla), 1%nat.
      split; [exact E1 | split; [lia | reflexivity]].
Qed.

(** Three passes in a row that end in the NACK status use up [retry = 2]. *)
Lemma address_retry_exhausted (sla nack e1 e2 e3 : Z) w0 w1 w2 w3 :
  start_address sla e1 e2 e3 w0 = (inr nack, w1) ->
  start_address sla e1 e2 e3 w1 = (inr nack, w2) ->
  start_address sla e1 e2 e3 w2 = (inr nack, w3) ->
  address_retry sla nack e1 e2 e3 2 w0 = (inr nack, w3) /\
  delta w0 w3 (pass_stores sla ++ pass_stores sla ++ pass_stores sla) [].
Proof.
  intros E1 E2 E3. split.
  - simpl. unfold bind. rewrite E1, Z.eqb_refl, E2, Z.eqb_refl, E3, Z.eqb_refl.
    reflexivity.
  - apply start_address_delta in E1, E2, E3.
    pose proof (delta_trans _ _ _ _ _ _ _ E1 (delta_trans _ _ _ _ _ _ _ E2 E3)) as D.
    exact D.
Qed.

Lemma Fastwire_beginTransmission_delta (device : Z) w r w' :
  Fastwire_beginTransmission device w = (r, w') ->
  exists ws k,
    delta w w' ws [] /\ (k <= 3)%nat /\
    writes_to TWDR ws = repeat (to_uint8 (Z.shiftl device 1)) k.
Proof.
  unfold Fastwire_beginTransmission, bind.
  destruct (address_retry _ _ _ _ _ _ w) as [[code | twst] w1] eqn:E1;
    apply address_retry_delta in E1; destruct E1 as (ws & k & D & Hk & Hw).
  - returned. now exists ws, k.
  - destruct (negb _); returned; now exists ws, k.
Qed.

Lemma readBuf_select_delta (device address : Z) w code w' :
  readBuf_select device address w = (code, w') -> exists ws, delta w w' ws [].
Proof.
  unfold readBuf_select, bind.
  destruct (address_retry _ _ _ _ _ _ w) as [[c | twst] w1] eqn:E1;
    apply address_retry_delta in E1; destruct E1 as (ws & k & D0 & _ & _).
  - returned. now exists ws.
  - destruct (negb _).
    { returned. now exists ws. }
    run_wr. run_wr. run_wait.
    destruct (ok =? 0).
    { returned. chain_to D. eexists. exact D. }
    run_rd. destruct (negb _); returned; chain_to D; eexists; exact D.
Qed.

(** ** The spin budget *)









(** ** The address phases of a read *)

(** C5 (amended): an address phase of Fastwire_readBuf that is NACKed three
    times in a row, at the first attempt and at both retries.  When the three
    passes of the write-address phase all end in TW_MT_SLA_NACK, the function
    returns 19 where the third pass ends; when the register was selected and
    the three passes of the read-address phase all end in TW_MR_SLA_NACK, it
    returns 25 where the third pass ends.  In both cases the buffer is the one
    passed in, no byte has been loaded from TWDR, and the only commands of the
    phase are three times START and the address byte. *)
Theorem readBuf_address_nack_exhausted :
  forall (device address : Z) (data : Z -> Z) (num : Z),
    (forall w0 w1 w2 w3 : World H,
       start_address (Z.land device 0xfe) 16 17 18 w0 = (inr TW_MT_SLA_NACK, w1) ->
       start_address (Z.land device 0xfe) 16 17 18 w1 = (inr TW_MT_SLA_NACK, w2) ->
       start_address (Z.land device 0xfe) 16 17 18 w2 = (inr TW_MT_SLA_NACK, w3) ->
       Fastwire_readBuf device address data num w0 = ((19, data), w3) /\
       reads_from TWDR (trace w3) = reads_from TWDR (trace w0) /\
       writes_to TWCR (trace w3) =
         writes_to TWCR (trace w0) ++
         [to_uint8 CMD_START; to_uint8 CMD_SEND; to_uint8 CMD_START;
          to_uint8 CMD_SEND; to_uint8 CMD_START; to_uint8 CMD_SEND]) /\
    (forall w0 wa w1 w2 w3 : World H,
       readBuf_select device address w0 = (0, wa) ->
       start_address (Z.lor device 0x01) 22 23 24 wa = (inr TW_MR_SLA_NACK, w1) ->
       start_address (Z.lor device 0x01) 22 23 24 w1 = (inr TW_MR_SLA_NACK, w2) ->
       start_address (Z.lor device 0x01) 22 23 24 w2 = (inr TW_MR_SLA_NACK, w3) ->
       Fastwire_readBuf device address data num w0 = ((25, data), w3) /\
       reads_from TWDR (trace w3) = reads_from TWDR (trace w0) /\
       writes_to TWCR (trace w3) =
         writes_to TWCR (trace wa) ++
         [to_uint8 CMD_START; to_uint8 CMD_SEND; to_uint8 CMD_START;
          to_uint8 CMD_SEND; to_uint8 CMD_START; to_uint8 CMD_SEND]).
Proof.
  intros device address data num. split.
  - intros w0 w1 w2 w3 E1 E2 E3.
    destruct (address_retry_exhausted _ _ _ _ _ _ _ _ _ E1 E2 E3) as [E D].
    split; [| split].
    + unfold Fastwire_readBuf, readBuf_select, bind. rewrite E. reflexivity.
    + destruct D as [_ D]. now rewrite D, app_nil_r.
    + now rewrite (delta_writes_to _ _ _ _ TWCR D).
  - intros w0 wa w1 w2 w3 Es E1 E2 E3.
    destruct (address_retry_exhausted _ _ _ _ _ _ _ _ _ E1 E2 E3) as [E D].
    split; [| split].
    + unfold Fastwire_readBuf, bind. rewrite Es. simpl.
      unfold readBuf_receive, bind. rewrite E. reflexivity.
    + apply readBuf_select_delta in Es. destruct Es as (ws & _ & Ds).
      destruct D as [_ D]. now rewrite D, Ds, !app_nil_r.
    + now rewrite (delta_writes_to _ _ _ _ TWCR D).
Qed.

(** ** Bit fields over the bus *)

(** C7: the field [I2Cdev_readBits] stores.  When the read of the register
    succeeds with the byte [b], [*data] receives [b] masked with
    [((1 << length) - 1) << (bitStart - length + 1)] and shifted right by
    [bitStart - length + 1], which is the field of [b] right-aligned. *)
Theorem readBits_right_aligned_field :
  forall (devAddr regAddr bitStart length data timeout b0 b : Z) (w w' : World H),
    0 <= length <= bitStart + 1 -> bitStart + 1 <= 8 ->
    I2Cdev_readByte devAddr regAddr b0 timeout w = ((1, b), w') ->
    I2Cdev_readBits devAddr regAddr bitStart length data timeout b0 w =
      ((1, Z.shiftr (Z.land b (Z.shiftl (Z.shiftl 1 length - 1)
                                        (bitStart - length + 1)))
                    (bitStart - length + 1)), w') /\
    Z.shiftr (Z.land b (Z.shiftl (Z.shiftl 1 length - 1) (bitStart - length + 1)))
             (bitStart - length + 1)
      = (b / 2 ^ (bitStart - length + 1)) mod 2 ^ length.
Proof.
  intros devAddr regAddr bitStart length data timeout b0 b w w' Hl Hb E.
  rewrite <- readBits_field_unfold by assumption. split.
  - unfold I2Cdev_readBits, bind. rewrite E. reflexivity.
  - now apply readBits_field_div_mod.
Qed.

(** C6: [I2Cdev_writeBits] followed by [I2Cdev_readBits] on the same field.
    The register holds [b]; the bus stores the byte that [I2Cdev_writeByte]
    sends, so that reading the register afterwards yields that byte.  Then
    [I2Cdev_writeBits] is that write, [I2Cdev_readBits] afterwards returns the
    value [v] written, and every bit of the register outside the field is the
    bit of [b]. *)
Theorem writeBits_readBits_roundtrip :
  forall (devAddr regAddr bitStart length v b0 b1 data timeout b ok : Z)
         (w0 w1 w2 w3 : World H),
    0 <= length <= bitStart + 1 -> bitStart + 1 <= 8 -> 0 <= v < 2 ^ length ->
    I2Cdev_readByte devAddr regAddr b0 (I2Cdev_readTimeout w0) w0 = ((1, b), w1) ->
    I2Cdev_writeByte devAddr regAddr (writeBits_merge bitStart length v b) w1
      = (ok, w2) ->
    I2Cdev_readByte devAddr regAddr b1 timeout w2
      = ((1, writeBits_merge bitStart length v b), w3) ->
    I2Cdev_writeBits devAddr regAddr bitStart length v b0 w0 = (ok, w2) /\
    I2Cdev_readBits devAddr regAddr bitStart length data timeout b1 w2
      = ((1, v), w3) /\
    (forall k, 0 <= k < 8 -> k < bitStart - length + 1 \/ bitStart < k ->
       Z.testbit (writeBits_merge bitStart length v b) k = Z.testbit b k).
Proof.
  intros devAddr regAddr bitStart length v b0 b1 data timeout b ok w0 w1 w2 w3
         Hl Hb Hv Eread Ewrite Eback.
  split; [| split].
  - unfold I2Cdev_writeBits, bind, default_timeout. rewrite Eread. exact Ewrite.
  - unfold I2Cdev_readBits, bind. rewrite Eback. simpl.
    now rewrite writeBits_merge_field.
  - intros k Hk Hout. rewrite writeBits_merge_bits by lia.
    destruct (Z.leb_spec (bitStart - length + 1) k), (Z.leb_spec k bitStart),
      (Z.ltb_spec k 8); simpl; try reflexivity; lia.
Qed.

(** ** Writes *)

Lemma writeBytes_loop_delta (n : nat) (i : Z) (data : Z -> Z) w u w' :
  writeBytes_loop n i data w = (u, w') -> delta w w' (bytes_stores n i data) [].
Proof.
  revert i w. induction n as [| n IH]; intros i w; simpl.
  - returned. apply delta_refl.
  - unfold bind. destruct (Fastwire_write (to_uint8 (data i)) w) as [r w1] eqn:E1.
    apply Fastwire_write_delta in E1. intros E. apply IH in E.
    exact (delta_trans _ _ _ _ _ _ _ E1 E).
Qed.

(** [I2Cdev_writeBytes] never looks at what [Fastwire_write] returns: it sends
    the register address and every data byte whatever the bus answers, and its
    [status] is still 0 at the end. *)
Lemma I2Cdev_writeBytes_spec (devAddr regAddr length : Z) (data : Z -> Z) w r w' :
  I2Cdev_writeBytes devAddr regAddr length data w = (r, w') ->
  r = 1 /\
  exists ws k,
    (k <= 3)%nat /\
    writes_to TWDR ws = repeat (to_uint8 (Z.shiftl devAddr 1)) k /\
    delta w w'
      (ws ++ send_stores regAddr ++ bytes_stores (Z.to_nat length) 0 data
          ++ [RegWrite TWCR (to_uint8 CMD_STOP)]) [].
Proof.
  unfold I2Cdev_writeBytes, bind.
  destruct (Fastwire_beginTransmission devAddr w) as [r0 w1] eqn:E1.
  apply Fastwire_beginTransmission_delta in E1. destruct E1 as (ws & k & D1 & Hk & Hw).
  destruct (Fastwire_write regAddr w1) as [r1 w2] eqn:E2.
  apply Fastwire_write_delta in E2.
  destruct (writeBytes_loop (Z.to_nat length) 0 data w2) as [u w3] eqn:E3.
  apply writeBytes_loop_delta in E3.
  destruct (Fastwire_stop w3) as [r3 w4] eqn:E4. apply Fastwire_stop_delta in E4.
  returned. split; [reflexivity |].
  exists ws, k. split; [exact Hk | split; [exact Hw |]].
  exact (delta_trans _ _ _ _ _ _ _ D1
           (delta_trans _ _ _ _ _ _ _ E2 (delta_trans _ _ _ _ _ _ _ E3 E4))).
Qed.

Lemma I2Cdev_writeBytes_returns_true (devAddr regAddr length : Z) (data : Z -> Z) w :
  fst (I2Cdev_writeBytes devAddr regAddr length data w) = 1.
Proof.
  destruct (I2Cdev_writeBytes devAddr regAddr length data w) as [r w'] eqn:E.
  apply I2Cdev_writeBytes_spec in E. now destruct E as [-> _].
Qed.

Lemma to_uint8_idem (x : Z) : to_uint8 (to_uint8 x) = to_uint8 x.
Proof. unfold to_uint8. apply Z.mod_mod. lia. Qed.

(** The bytes [I2Cdev_writeByte] puts into TWDR: the address byte once per
    pass of the address phase, then the register address, then the data. *)
Lemma I2Cdev_writeByte_spec (devAddr regAddr value : Z) w r w' :
  I2Cdev_writeByte devAddr regAddr value w = (r, w') ->
  r = 1 /\
  exists k,
    (k <= 3)%nat /\
    writes_to TWDR (trace w') =
      writes_to TWDR (trace w) ++ repeat (to_uint8 (Z.shiftl devAddr 1)) k
        ++ [to_uint8 regAddr; to_uint8 value].
Proof.
  unfold I2Cdev_writeByte. intros E. apply I2Cdev_writeBytes_spec in E.
  destruct E as (-> & ws & k & Hk & Hw & D). split; [reflexivity |].
  exists k. split; [exact Hk |].
  rewrite (delta_writes_to _ _ _ _ TWDR D), writes_to_app, Hw.
  change (Z.to_nat 1) with 1%nat. simpl. now rewrite to_uint8_idem.
Qed.

(** With one word to send the loop of [I2Cdev_writeWords] makes one pass and
    ends: two units of fuel are enough. *)
Lemma I2Cdev_writeWord_spec (fuel : nat) (devAddr regAddr value : Z) w :
  (2 <= fuel)%nat ->
  exists r w' k,
    I2Cdev_writeWord fuel devAddr regAddr value w = (Some r, w') /\
    (k <= 3)%nat /\
    writes_to TWDR (trace w') =
      writes_to TWDR (trace w) ++ repeat (to_uint8 (Z.shiftl devAddr 1)) k
        ++ [to_uint8 regAddr; to_uint8 (Z.shiftr value 8); to_uint8 value].
Proof.
  intros Hfuel. destruct fuel as [| [| fuel]]; try lia.
  unfold I2Cdev_writeWord, I2Cdev_writeWords, bind.
  destruct (Fastwire_beginTransmission devAddr w) as [r0 w1] eqn:E1.
  apply Fastwire_beginTransmission_delta in E1. destruct E1 as (ws & k & D1 & Hk & Hw).
  destruct (Fastwire_write regAddr w1) as [r1 w2] eqn:E2.
  apply Fastwire_write_delta in E2.
  simpl writeWords_loop. unfold bind.
  destruct (Fastwire_write (to_uint8 (Z.shiftr value 8)) w2) as [r2 w3] eqn:E3.
  apply Fastwire_write_delta in E3.
  destruct (Fastwire_write (to_uint8 value) w3) as [r3 w4] eqn:E4.
  apply Fastwire_write_delta in E4.
  pose proof (delta_trans _ _ _ _ _ _ _ D1
                (delta_trans _ _ _ _ _ _ _ E2 (delta_trans _ _ _ _ _ _ _ E3 E4))) as D.
  assert (Hdone : forall st w5,
            Fastwire_stop w4 = (st, w5) ->
            writes_to TWDR (trace w5) =
              writes_to TWDR (trace w) ++ repeat (to_uint8 (Z.shiftl devAddr 1)) k
                ++ [to_uint8 regAddr; to_uint8 (Z.shiftr value 8); to_uint8 value]).
  { intros st w5 E5. apply Fastwire_stop_delta in E5.
    pose proof (delta_trans _ _ _ _ _ _ _ D E5) as D5.
    rewrite (delta_writes_to _ _ _ _ TWDR D5), !writes_to_app, Hw.
    simpl. now rewrite !to_uint8_idem, !app_nil_r. }
  destruct (negb (r3 =? 0)); unfold ret; cbn beta iota;
    destruct (Fastwire_stop w4) as [st w5] eqn:E5;
    eexists _, w5, k; (split; [reflexivity | split; [exact Hk | eapply Hdone; reflexivity]]).
Qed.

(** ** Fuel of the word loop *)

(** Up to 127 words the index of the loop of [I2Cdev_writeWords] does not
    wrap: the loop ends, and [length + 1] units of fuel are enough. *)
Lemma writeWords_loop_returns (fuel : nat) (length : Z) (data : Z -> Z) :
  0 <= length <= 127 ->
  forall (i st : Z) (w : World H),
    0 <= i -> Z.max 0 (length * 2 - i) + 2 <= 2 * Z.of_nat fuel ->
    exists st' w', writeWords_loop fuel length data i st w = (Some st', w').
Proof.
  intros Hlen. induction fuel as [| fuel IH]; intros i st w Hi Hfuel.
  - lia.
  - cbn [writeWords_loop]. destruct (Z.ltb_spec i (length * 2)) as [Hlt | Hge].
    + unfold bind.
      destruct (Fastwire_write (to_uint8 (Z.shiftr (data i) 8)) w) as [r1 w1].
      destruct (Fastwire_write (to_uint8 (data i)) w1) as [r2 w2].
      destruct (negb (r2 =? 0)).
      * now exists r2, w2.
      * assert (Hi2 : to_uint8 (to_uint8 (i + 1) + 1) = i + 2).
        { unfold to_uint8. rewrite (Z.mod_small (i + 1)) by lia.
          rewrite Z.mod_small; lia. }
        rewrite Hi2. apply IH; lia.
    + now exists st, w.
Qed.

Lemma I2Cdev_writeWords_returns (fuel : nat) (devAddr regAddr length : Z)
  (data : Z -> Z) (w : World H) :
  0 <= length <= 127 -> length < Z.of_nat fuel ->
  exists r w', I2Cdev_writeWords fuel devAddr regAddr length data w = (Some r, w').
Proof.
  intros Hlen Hfuel. unfold I2Cdev_writeWords, bind.
  destruct (Fastwire_beginTransmission devAddr w) as [r0 w0].
  destruct (Fastwire_write regAddr w0) as [r1 w1].
  destruct (writeWords_loop_returns fuel length data Hlen 0 0 w1 ltac:(lia) ltac:(lia))
    as (st & w2 & E).
  rewrite E. destruct (Fastwire_stop w2) as [r3 w3].
  now eexists _, w3.
Qed.

(** ** Single-element reads *)

(** Running the next call of a monadic body when only its result matters. *)
Ltac run_any :=
  match goal with
  | |- context [wr ?r ?v ?w] => destruct (wr r v w) as [[] ?]
  | |- context [rd ?r ?w] => destruct (rd r w) as [? ?]
  | |- context [Fastwire_waitInt ?w] => destruct (Fastwire_waitInt w) as [? ?]
  | |- context [Fastwire_stop ?w] => destruct (Fastwire_stop w) as [? ?]
  | |- context [address_retry ?a ?b ?c ?d ?e ?f ?w] =>
      destruct (address_retry a b c d e f w) as [[? | ?] ?]
  | |- context [if ?c then _ else _] => destruct c
  end.

(** A one-byte read stores into the buffer only on the path that returns 0. *)
Lemma Fastwire_readBuf_one (device address : Z) (data : Z -> Z) w st data' w' :
  Fastwire_readBuf device address data 1 w = ((st, data'), w') ->
  st = 0 \/ data' = data.
Proof.
  unfold Fastwire_readBuf, readBuf_select, readBuf_receive.
  change (Z.to_nat 1) with 1%nat. simpl readBuf_loop. unfold bind, ret.
  repeat run_any; intros E; injection E as <- <- <-; auto.
Qed.

(** [I2Cdev_readByte] returns 1, or 255 with [*data] untouched; never 0. *)
Lemma I2Cdev_readByte_cases (devAddr regAddr b timeout : Z) w count b' w' :
  I2Cdev_readByte devAddr regAddr b timeout w = ((count, b'), w') ->
  count = 1 \/ (count = 255 /\ b' = b).
Proof.
  unfold I2Cdev_readByte, I2Cdev_readBytes, bind.
  destruct (millis w) as [t1 wm].
  destruct (Fastwire_readBuf _ _ _ _ wm) as [[st data'] w1] eqn:E1.
  apply Fastwire_readBuf_one in E1.
  destruct (Z.eqb_spec st 0) as [Hst | Hst].
  - change (to_int8 1) with 1. change (1 <? 1) with false.
    destruct (timeout >? 0).
    + destruct (millis w1) as [now w2]. rewrite andb_false_r. unfold ret.
      intros E. injection E as <- <- <-. now left.
    + unfold ret. intros E. injection E as <- <- <-. now left.
  - destruct E1 as [E1 | ->]; [contradiction |].
    destruct (timeout >? 0).
    + destruct (millis w1) as [now w2]. unfold ret.
      destruct (_ && _); intros E; injection E as <- <- <-; now right.
    + unfold ret. intros E. injection E as <- <- <-. now right.
Qed.

(** [I2Cdev_readWord] likewise. *)
Lemma I2Cdev_readWord_cases (devAddr regAddr wd timeout : Z) (stack : Z -> Z)
  w count wd' w' :
  I2Cdev_readWord devAddr regAddr wd timeout stack w = ((count, wd'), w') ->
  count = 1 \/ (count = 255 /\ wd' = wd).
Proof.
  unfold I2Cdev_readWord, I2Cdev_readWords, bind.
  destruct (millis w) as [t1 wm].
  destruct (Fastwire_readBuf _ _ _ _ wm) as [[st inter] w1].
  destruct (Z.eqb_spec st 0) as [Hst | Hst].
  - change (to_int8 1) with 1. change (1 <? 1) with false.
    destruct (timeout >? 0).
    + destruct (millis w1) as [now w2]. rewrite andb_false_r. unfold ret.
      intros E. injection E as <- <- <-. now left.
    + unfold ret. intros E. injection E as <- <- <-. now left.
  - destruct (timeout >? 0).
    + destruct (millis w1) as [now w2]. unfold ret.
      destruct (_ && _); intros E; injection E as <- <- <-; now right.
    + unfold ret. intros E. injection E as <- <- <-. now right.
Qed.

(** The guard of [I2Cdev_writeBits] never takes its [else] branch: the count
    it tests is 1 or 255. *)
Lemma I2Cdev_writeBits_always_writes
  (devAddr regAddr bitStart length data b : Z) w count b1 w1 :
  I2Cdev_readByte devAddr regAddr b (I2Cdev_readTimeout w) w = ((count, b1), w1) ->
  I2Cdev_writeBits devAddr regAddr bitStart length data b w =
  I2Cdev_writeByte devAddr regAddr (writeBits_merge bitStart length data b1) w1.
Proof.
  intros E. unfold I2Cdev_writeBits, bind, default_timeout. rewrite E.
  apply I2Cdev_readByte_cases in E. now destruct E as [-> | [-> _]].
Qed.

(** C10: [I2Cdev_writeBit] and [I2Cdev_writeBitW] write back whatever the
    read returned.  The call is the write of the byte (word) computed from the
    local [b] ([w]) as the read left it, started where the read ended, so the
    result is that of the write alone; when the read did not return 1 the
    local still has its indeterminate content; and the payload goes to TWDR
    after the register address. *)
Theorem writeBit_writes_back_unconditionally :
  forall (fuel : nat) (devAddr regAddr bitNum data b wd : Z) (stack : Z -> Z)
         (w : World H),
    (2 <= fuel)%nat ->
    (forall count b1 w1,
       I2Cdev_readByte devAddr regAddr b (I2Cdev_readTimeout w) w
         = ((count, b1), w1) ->
       let payload :=
         to_uint8 (if negb (data =? 0) then Z.lor b1 (bit bitNum)
                   else Z.land b1 (Z.lnot (bit bitNum))) in
       I2Cdev_writeBit devAddr regAddr bitNum data b w
         = I2Cdev_writeByte devAddr regAddr payload w1 /\
       (count <> 1 -> b1 = b) /\
       exists k,
         (k <= 3)%nat /\
         writes_to TWDR (trace (snd (I2Cdev_writeBit devAddr regAddr bitNum data b w)))
         = writes_to TWDR (trace w1) ++ repeat (to_uint8 (Z.shiftl devAddr 1)) k
             ++ [to_uint8 regAddr; payload]) /\
    (forall count wd1 w1,
       I2Cdev_readWord devAddr regAddr wd (I2Cdev_readTimeout w) stack w
         = ((count, wd1), w1) ->
       let payload :=
         to_uint16 (if negb (data =? 0) then Z.lor wd1 (bit bitNum)
                    else Z.land wd1 (Z.lnot (bit bitNum))) in
       I2Cdev_writeBitW fuel devAddr regAddr bitNum data wd stack w
         = I2Cdev_writeWord fuel devAddr regAddr payload w1 /\
       (count <> 1 -> wd1 = wd) /\
       exists r k,
         fst (I2Cdev_writeBitW fuel devAddr regAddr bitNum data wd stack w) = Some r /\
         (k <= 3)%nat /\
         writes_to TWDR
           (trace (snd (I2Cdev_writeBitW fuel devAddr regAddr bitNum data wd stack w)))
         = writes_to TWDR (trace w1) ++ repeat (to_uint8 (Z.shiftl devAddr 1)) k
             ++ [to_uint8 regAddr; to_uint8 (Z.shiftr payload 8); to_uint8 payload]).
Proof.
  intros fuel devAddr regAddr bitNum data b wd stack w Hfuel. split.
  - intros count b1 w1 E payload.
    assert (Hcall : I2Cdev_writeBit devAddr regAddr bitNum data b w
                    = I2Cdev_writeByte devAddr regAddr payload w1).
    { unfold I2Cdev_writeBit, bind, default_timeout. now rewrite E. }
    split; [exact Hcall | split].
    + intros Hc. apply I2Cdev_readByte_cases in E. destruct E as [E | [_ E]]; [lia | exact E].
    + rewrite Hcall.
      destruct (I2Cdev_writeByte devAddr regAddr payload w1) as [r w2] eqn:E2.
      apply I2Cdev_writeByte_spec in E2. destruct E2 as (_ & k & Hk & Hw).
      exists k. split; [exact Hk |]. simpl. rewrite Hw.
      unfold payload. now rewrite to_uint8_idem.
  - intros count wd1 w1 E payload.
    assert (Hcall : I2Cdev_writeBitW fuel devAddr regAddr bitNum data wd stack w
                    = I2Cdev_writeWord fuel devAddr regAddr payload w1).
    { unfold I2Cdev_writeBitW, bind, default_timeout. now rewrite E. }
    split; [exact Hcall | split].
    + intros Hc. apply I2Cdev_readWord_cases in E. destruct E as [E | [_ E]]; [lia | exact E].
    + rewrite Hcall.
      destruct (I2Cdev_writeWord_spec fuel devAddr regAddr payload w1 Hfuel)
        as (r & w2 & k & E2 & Hk & Hw).
      exists r, k. rewrite E2. simpl. auto.
Qed.

(** ** The receive loop *)

(** What [n] passes of the receive loop do, from index [i] on.  Every command
    is the one [recv_cmds] lists, so TWEA is requested at every index but
    [num - 1]; the bytes loaded from TWDR are stored at consecutive indices.
    Either all [n] passes are made, STOP follows and the result is 0; or the
    pass after [length ds] bytes is the last one, because the wait failed
    (26) or because the status was neither TW_MR_DATA_ACK nor
    TW_MR_DATA_NACK, and the result is that status. *)
Lemma readBuf_loop_spec (num : Z) (n : nat) :
  forall (i : Z) (data : Z -> Z) w code data' w',
    readBuf_loop num n i data w = ((code, data'), w') ->
    exists ds,
      data' = store_from data i ds /\
      ((List.length ds = n /\ code = 0 /\
        delta w w' (recv_cmds num n i ++ [RegWrite TWCR (to_uint8 CMD_STOP)]) ds) \/
       ((List.length ds < n)%nat /\
        (code = 26 \/ (code <> TW_MR_DATA_ACK /\ code <> TW_MR_DATA_NACK)) /\
        delta w w' (firstn (S (List.length ds)) (recv_cmds num n i)) ds)).
Proof.
  induction n as [| n IH]; intros i data w code data' w'.
  - simpl. unfold bind.
    destruct (Fastwire_stop w) as [r w1] eqn:E1. apply Fastwire_stop_delta in E1.
    unfold ret. intros E. injection E as <- <- <-.
    exists []. split; [reflexivity |]. left. auto.
  - simpl readBuf_loop. unfold bind.
    replace (if i =? num - 1 then wr TWCR CMD_SEND else wr TWCR CMD_RECV_ACK)
      with (wr TWCR (if i =? num - 1 then CMD_SEND else CMD_RECV_ACK))
      by now destruct (i =? num - 1).
    run_wr. run_wait.
    assert (D0 : delta w w1
              [RegWrite TWCR (to_uint8 (if i =? num - 1 then CMD_SEND else CMD_RECV_ACK))] [])
      by exact (delta_trans _ _ _ _ _ _ _ E E0).
    clear E E0.
    destruct (ok =? 0).
    { unfold ret. intros E. injection E as <- <- <-.
      exists []. split; [reflexivity |]. right. simpl.
      split; [lia | split; [now left | exact D0]]. }
    run_rd.
    pose proof (delta_trans _ _ _ _ _ _ _ D0 E) as D1. simpl in D1. clear D0 E.
    destruct (Z.eqb_spec (Z.land sr 248) TW_MR_DATA_ACK) as [Hack | Hack];
      destruct (Z.eqb_spec (Z.land sr 248) TW_MR_DATA_NACK) as [Hnack | Hnack];
      simpl.
    4: { unfold ret. intros E. injection E as <- <- <-.
         exists []. split; [reflexivity |]. right. simpl.
         split; [lia | split; [now right | exact D1]]. }
    all: run_rd; intros E'; apply IH in E';
      destruct E' as (ds & -> & [(Hlen & -> & D2) | (Hlen & Hcode & D2)]);
      exists (sr0 :: ds); (split; [reflexivity |]);
      pose proof (delta_trans _ _ _ _ _ _ _ (delta_trans _ _ _ _ _ _ _ D1 E) D2) as D;
      simpl in D;
      [ left; simpl; split; [lia | split; [reflexivity | exact D]]
      | right; simpl; split; [lia | split; [exact Hcode | exact D]] ].
Qed.

(** The commands of the receive loop differ in TWEA, provided TWEA is a bit
    of the 8-bit register other than TWINT and TWEN. *)
Lemma bit_testbit (n k : Z) : 0 <= n -> Z.testbit (bit n) k = (n =? k).
Proof. intros Hn. unfold bit. rewrite Z.shiftl_1_l. now apply Z.pow2_bits_eqb. Qed.

Lemma recv_commands_twea :
  0 <= TWEA < 8 -> 0 <= TWINT -> 0 <= TWEN -> TWEA <> TWINT -> TWEA <> TWEN ->
  Z.testbit (to_uint8 CMD_RECV_ACK) TWEA = true /\
  Z.testbit (to_uint8 CMD_SEND) TWEA = false.
Proof.
  intros Hea Hint Hen Hne1 Hne2. unfold CMD_RECV_ACK, CMD_SEND.
  rewrite !to_uint8_bits, !Z.lor_spec, !bit_testbit by lia.
  destruct (Z.ltb_spec TWEA 8); [| lia].
  destruct (Z.eqb_spec TWINT TWEA); [lia |].
  destruct (Z.eqb_spec TWEN TWEA); [lia |].
  now rewrite Z.eqb_refl.
Qed.

(** ** The word loop of I2Cdev_readWords *)

Lemma readWords_loop_before (n : nat) :
  forall (i j : Z) (intermediate data : Z -> Z),
    j < i -> readWords_loop n i intermediate data j = data j.
Proof.
  induction n as [| n IH]; intros i j intermediate data Hj; simpl; [reflexivity |].
  rewrite IH by lia. unfold upd. destruct (Z.eqb_spec j i); [lia | reflexivity].
Qed.

(** Word [j] is made of the 16-bit elements [2j] and [2j + 1] of the
    intermediate buffer, that is of its bytes [4j] to [4j + 3]. *)
Lemma readWords_loop_spec (n : nat) :
  forall (i j : Z) (intermediate data : Z -> Z),
    i <= j < i + Z.of_nat n ->
    readWords_loop n i intermediate data j =
    to_uint16 (Z.lor (Z.shiftl (u16_at intermediate (2 * j)) 8)
                     (u16_at intermediate (2 * j + 1))).
Proof.
  induction n as [| n IH]; intros i j intermediate data Hj; [lia |].
  cbn [readWords_loop]. destruct (Z.eq_dec j i) as [-> | Hne].
  - rewrite readWords_loop_before by lia. unfold upd. now rewrite Z.eqb_refl.
  - apply IH. lia.
Qed.

End Facts.

(** * The register-file slave

    On this bus every transaction of the library runs to its end.  The lemmas
    follow the source function by function, for every address the slave may
    have, every content of its registers and every state the bus was left
    in; the trace of the world reached is left open. *)

Section SlaveBus.

Implicit Types (a ptr sr dr ms tmo : Z) (regs : Z -> Z) (ph : Phase) (ti : bool).
Implicit Types (s : Slave) (t : list Event).

(** *** The address byte *)

Lemma addr_write_byte a : 0 <= a < 128 -> to_uint8 (Z.shiftl a 1) = 2 * a.
Proof.
  intros Ha. unfold to_uint8. rewrite Z.shiftl_mul_pow2 by lia.
  rewrite Z.mod_small; lia.
Qed.

Lemma double_shiftr a : Z.shiftr (2 * a) 1 = a.
Proof.
  rewrite Z.shiftr_div_pow2 by lia. change (2 ^ 1) with 2.
  rewrite Z.mul_comm. apply Z.div_mul. lia.
Qed.

Lemma double_succ_shiftr a : Z.shiftr (2 * a + 1) 1 = a.
Proof.
  rewrite Z.shiftr_div_pow2 by lia. change (2 ^ 1) with 2.
  rewrite Z.mul_comm, Z.div_add_l by lia. change (1 / 2) with 0. lia.
Qed.

Lemma double_land_fe a : 0 <= a < 128 -> Z.land (2 * a) 0xfe = 2 * a.
Proof.
  intros Ha. change 0xfe with (Z.shiftl (Z.ones 7) 1).
  replace (2 * a) with (Z.shiftl a 1) by (rewrite Z.shiftl_mul_pow2; lia).
  rewrite <- Z.shiftl_land, Z.land_ones by lia.
  rewrite Z.mod_small; [reflexivity | simpl; lia].
Qed.

Lemma double_lor_1 a : Z.lor (2 * a) 1 = 2 * a + 1.
Proof.
  apply Z.bits_inj'. intros k Hk. rewrite Z.lor_spec.
  destruct (Z.eq_dec k 0) as [-> | Hnz].
  - rewrite Z.testbit_even_0, Z.testbit_odd_0. reflexivity.
  - replace k with (Z.succ (k - 1)) by lia.
    rewrite Z.testbit_even_succ, Z.testbit_odd_succ by lia.
    replace (Z.testbit 1 (Z.succ (k - 1))) with false; [apply orb_false_r |].
    symmetry. apply Z.bits_above_log2; simpl; lia.
Qed.

(** *** Register accesses *)

Lemma slave_wr (r : Reg) (v : Z) s t tmo :
  wr r v (mkWorld s t tmo)
  = (tt, mkWorld (slave_write r (to_uint8 v) s) (t ++ [RegWrite r (to_uint8 v)]) tmo).
Proof. reflexivity. Qed.

Lemma slave_rd_TWSR s t tmo :
  rd TWSR (mkWorld s t tmo)
  = (to_uint8 (sl_twsr s), mkWorld s (t ++ [RegRead TWSR (to_uint8 (sl_twsr s))]) tmo).
Proof. reflexivity. Qed.

Lemma slave_rd_TWDR s t tmo :
  rd TWDR (mkWorld s t tmo)
  = (to_uint8 (sl_twdr s), mkWorld s (t ++ [RegRead TWDR (to_uint8 (sl_twdr s))]) tmo).
Proof. reflexivity. Qed.

Lemma slave_millis s t tmo :
  millis (mkWorld s t tmo) = (to_uint32 (sl_ms s), mkWorld s t tmo).
Proof. reflexivity. Qed.

(** What the commands of the library (START is 180, a transfer 132, STOP 148
    with the ATmega bit numbers) do to the slave. *)

Lemma slave_cmd_start a regs ptr ph ti sr dr ms :
  slave_write TWCR 180 (mkSlave a regs ptr ph ti sr dr ms)
  = mkSlave a regs ptr Started true TW_START dr ms.
Proof. now destruct ph. Qed.

Lemma slave_cmd_stop a regs ptr ph ti sr dr ms :
  slave_write TWCR 148 (mkSlave a regs ptr ph ti sr dr ms)
  = mkSlave a regs ptr Idle false 0xF8 dr ms.
Proof. reflexivity. Qed.

Lemma slave_cmd_address a regs ptr ti sr dr ms :
  Z.shiftr dr 1 = a ->
  slave_write TWCR 132 (mkSlave a regs ptr Started ti sr dr ms)
  = mkSlave a regs ptr (if Z.testbit dr 0 then Fetch else SetPointer) true
      (if Z.testbit dr 0 then TW_MR_SLA_ACK else TW_MT_SLA_ACK) dr ms.
Proof.
  intros Ha.
  change (slave_write TWCR 132 (mkSlave a regs ptr Started ti sr dr ms))
    with (if Z.shiftr dr 1 =? a
          then if Z.testbit dr 0
               then mkSlave a regs ptr Fetch true TW_MR_SLA_ACK dr ms
               else mkSlave a regs ptr SetPointer true TW_MT_SLA_ACK dr ms
          else mkSlave a regs ptr Unanswered true
                 (if Z.testbit dr 0 then TW_MR_SLA_NACK else TW_MT_SLA_NACK) dr ms).
  rewrite Ha, Z.eqb_refl. now destruct (Z.testbit dr 0).
Qed.

Lemma slave_cmd_pointer a regs ptr ti sr dr ms :
  slave_write TWCR 132 (mkSlave a regs ptr SetPointer ti sr dr ms)
  = mkSlave a regs dr Store true TW_MT_DATA_ACK dr ms.
Proof. reflexivity. Qed.

Lemma slave_cmd_store a regs ptr ti sr dr ms :
  slave_write TWCR 132 (mkSlave a regs ptr Store ti sr dr ms)
  = mkSlave a (upd regs ptr dr) (to_uint8 (ptr + 1)) Store true TW_MT_DATA_ACK dr ms.
Proof. reflexivity. Qed.

Lemma slave_cmd_fetch_last a regs ptr ti sr dr ms :
  slave_write TWCR 132 (mkSlave a regs ptr Fetch ti sr dr ms)
  = mkSlave a regs (to_uint8 (ptr + 1)) Fetch true TW_MR_DATA_NACK
      (to_uint8 (regs ptr)) ms.
Proof. reflexivity. Qed.

Lemma slave_set_twdr (v : Z) a regs ptr ph ti sr dr ms :
  slave_write TWDR v (mkSlave a regs ptr ph ti sr dr ms)
  = mkSlave a regs ptr ph ti sr v ms.
Proof. reflexivity. Qed.

(** *** Fastwire on the slave *)

(** With TWINT showing the wait ends at the first load of TWCR. *)
Lemma slave_waitInt_ready s t tmo :
  sl_twint s = true ->
  Fastwire_waitInt (mkWorld s t tmo) = (1, mkWorld s (t ++ [RegRead TWCR 0x84]) tmo).
Proof.
  intros Hi. unfold Fastwire_waitInt, bind.
  change (waitInt_loop 250)
    with (fun w : World Slave =>
            bind (rd TWCR)
              (fun cr => if negb (Z.land cr (bit TWINT) =? 0)
                         then ret (Z.of_nat 250) else waitInt_loop 249) w).
  cbv beta. unfold bind, rd.
  cbn [hw hw_read avr_slave slave_read trace I2Cdev_readTimeout]. rewrite Hi.
  reflexivity.
Qed.

(** Without it, as after a STOP, the loop runs the counter down to -1. *)
Lemma slave_waitInt_loop_idle (l : nat) s t tmo :
  sl_twint s = false ->
  exists t', waitInt_loop l (mkWorld s t tmo) = (-1, mkWorld s t' tmo).
Proof.
  intros Hi. revert t. induction l as [| l IH]; intros t.
  - eexists. cbn [waitInt_loop]. unfold bind, rd.
    cbn [hw hw_read avr_slave slave_read trace I2Cdev_readTimeout]. rewrite Hi.
    reflexivity.
  - destruct (IH (t ++ [RegRead TWCR 4])) as [t' E]. exists t'.
    cbn [waitInt_loop]. unfold bind, rd.
    cbn [hw hw_read avr_slave slave_read trace I2Cdev_readTimeout]. rewrite Hi.
    change (to_uint8 4) with 4.
    change (negb (Z.land 4 (bit TWINT) =? 0)) with false. cbv beta iota. exact E.
Qed.

Lemma slave_waitInt s t tmo :
  exists t', Fastwire_waitInt (mkWorld s t tmo) = (c_bool (sl_twint s), mkWorld s t' tmo).
Proof.
  destruct (sl_twint s) eqn:Hi.
  - eexists. now apply slave_waitInt_ready.
  - destruct (slave_waitInt_loop_idle 250 s t tmo Hi) as [t' E]. exists t'.
    unfold Fastwire_waitInt, bind. rewrite E. reflexivity.
Qed.

(** Running the wait the goal has reached, and going on when it succeeded. *)
Ltac slave_wait :=
  match goal with
  | |- context [Fastwire_waitInt (mkWorld ?s ?t ?tmo)] =>
      let t' := fresh "t" in let E := fresh "E" in
      destruct (slave_waitInt s t tmo) as [t' E]; rewrite E; clear E;
      cbn [sl_twint c_bool]
  end.

Ltac slave_ok := change (1 =? 0) with false; cbv beta iota.

(** One pass of an address phase that calls the slave's own address: ACK. *)
Lemma slave_start_address (sla e1 e2 e3 : Z) a regs ptr ph ti sr dr ms t tmo :
  0 <= sla < 256 -> Z.shiftr sla 1 = a ->
  exists t',
    start_address sla e1 e2 e3 (mkWorld (mkSlave a regs ptr ph ti sr dr ms) t tmo)
    = (inr (if Z.testbit sla 0 then TW_MR_SLA_ACK else TW_MT_SLA_ACK),
       mkWorld (mkSlave a regs ptr (if Z.testbit sla 0 then Fetch else SetPointer) true
                  (if Z.testbit sla 0 then TW_MR_SLA_ACK else TW_MT_SLA_ACK) sla ms)
               t' tmo).
Proof.
  intros Hsla Ha. unfold start_address, bind.
  assert (Hs : to_uint8 sla = sla) by (unfold to_uint8; apply Z.mod_small; lia).
  rewrite slave_wr. change (to_uint8 CMD_START) with 180. rewrite slave_cmd_start.
  slave_wait. slave_ok.
  rewrite slave_rd_TWSR. cbn [sl_twsr].
  change (Z.land (to_uint8 TW_START) 248) with TW_START.
  change (negb (TW_START =? TW_START) && negb (TW_START =? TW_REP_START)) with false.
  cbv beta iota.
  rewrite slave_wr, Hs, slave_set_twdr.
  rewrite slave_wr. change (to_uint8 CMD_SEND) with 132.
  rewrite slave_cmd_address by exact Ha.
  slave_wait. slave_ok.
  rewrite slave_rd_TWSR. cbn [sl_twsr].
  destruct (Z.testbit sla 0); eexists; reflexivity.
Qed.

Lemma slave_address_write (e1 e2 e3 : Z) a regs ptr ph ti sr dr ms t tmo :
  0 <= a < 128 ->
  exists t',
    address_retry (2 * a) TW_MT_SLA_NACK e1 e2 e3 2
      (mkWorld (mkSlave a regs ptr ph ti sr dr ms) t tmo)
    = (inr TW_MT_SLA_ACK,
       mkWorld (mkSlave a regs ptr SetPointer true TW_MT_SLA_ACK (2 * a) ms) t' tmo).
Proof.
  intros Ha.
  destruct (slave_start_address (2 * a) e1 e2 e3 a regs ptr ph ti sr dr ms t tmo
              ltac:(lia) (double_shiftr a)) as [t' E].
  rewrite Z.testbit_even_0 in E.
  exists t'. cbn [address_retry]. unfold bind. rewrite E. reflexivity.
Qed.

Lemma slave_address_read (e1 e2 e3 : Z) a regs ptr ph ti sr dr ms t tmo :
  0 <= a < 128 ->
  exists t',
    address_retry (2 * a + 1) TW_MR_SLA_NACK e1 e2 e3 2
      (mkWorld (mkSlave a regs ptr ph ti sr dr ms) t tmo)
    = (inr TW_MR_SLA_ACK,
       mkWorld (mkSlave a regs ptr Fetch true TW_MR_SLA_ACK (2 * a + 1) ms) t' tmo).
Proof.
  intros Ha.
  destruct (slave_start_address (2 * a + 1) e1 e2 e3 a regs ptr ph ti sr dr ms t tmo
              ltac:(lia) (double_succ_shiftr a)) as [t' E].
  rewrite Z.testbit_odd_0 in E.
  exists t'. cbn [address_retry]. unfold bind. rewrite E. reflexivity.
Qed.

(** The first byte of a write transaction sets the register pointer. *)
Lemma slave_write_pointer (v : Z) a regs ptr ti sr dr ms t tmo :
  exists t',
    Fastwire_write v (mkWorld (mkSlave a regs ptr SetPointer ti sr dr ms) t tmo)
    = (0, mkWorld (mkSlave a regs (to_uint8 v) Store true TW_MT_DATA_ACK (to_uint8 v) ms)
            t' tmo).
Proof.
  unfold Fastwire_write, bind.
  rewrite slave_wr, slave_set_twdr, slave_wr. change (to_uint8 CMD_SEND) with 132.
  rewrite slave_cmd_pointer. slave_wait. slave_ok.
  rewrite slave_rd_TWSR. eexists. reflexivity.
Qed.

(** The following ones are stored, and the pointer moves on. *)
Lemma slave_write_store (v : Z) a regs ptr ti sr dr ms t tmo :
  exists t',
    Fastwire_write v (mkWorld (mkSlave a regs ptr Store ti sr dr ms) t tmo)
    = (0, mkWorld (mkSlave a (upd regs ptr (to_uint8 v)) (to_uint8 (ptr + 1)) Store true
                     TW_MT_DATA_ACK (to_uint8 v) ms) t' tmo).
Proof.
  unfold Fastwire_write, bind.
  rewrite slave_wr, slave_set_twdr, slave_wr. change (to_uint8 CMD_SEND) with 132.
  rewrite slave_cmd_store. slave_wait. slave_ok.
  rewrite slave_rd_TWSR. eexists. reflexivity.
Qed.

(** TWINT does not show after a STOP: [Fastwire_stop] returns 1. *)
Lemma slave_stop a regs ptr ph ti sr dr ms t tmo :
  exists t',
    Fastwire_stop (mkWorld (mkSlave a regs ptr ph ti sr dr ms) t tmo)
    = (1, mkWorld (mkSlave a regs ptr Idle false 0xF8 dr ms) t' tmo).
Proof.
  unfold Fastwire_stop, bind.
  rewrite slave_wr. change (to_uint8 CMD_STOP) with 148. rewrite slave_cmd_stop.
  slave_wait. eexists. reflexivity.
Qed.

(** Running the call the goal has reached, by the lemma for it. *)
Ltac slave_call Ha :=
  let t' := fresh "t" in
  let E := fresh "E" in
  match goal with
  | |- context [address_retry (2 * ?a) TW_MT_SLA_NACK ?e1 ?e2 ?e3 2
                  (mkWorld (mkSlave ?a ?r ?p ?ph ?ti ?sr ?dr ?ms) ?t ?tmo)] =>
      destruct (slave_address_write e1 e2 e3 a r p ph ti sr dr ms t tmo Ha) as [t' E]
  | |- context [address_retry (2 * ?a + 1) TW_MR_SLA_NACK ?e1 ?e2 ?e3 2
                  (mkWorld (mkSlave ?a ?r ?p ?ph ?ti ?sr ?dr ?ms) ?t ?tmo)] =>
      destruct (slave_address_read e1 e2 e3 a r p ph ti sr dr ms t tmo Ha) as [t' E]
  | |- context [Fastwire_write ?v
                  (mkWorld (mkSlave ?a ?r ?p SetPointer ?ti ?sr ?dr ?ms) ?t ?tmo)] =>
      destruct (slave_write_pointer v a r p ti sr dr ms t tmo) as [t' E]
  | |- context [Fastwire_write ?v
                  (mkWorld (mkSlave ?a ?r ?p Store ?ti ?sr ?dr ?ms) ?t ?tmo)] =>
      destruct (slave_write_store v a r p ti sr dr ms t tmo) as [t' E]
  | |- context [Fastwire_stop (mkWorld (mkSlave ?a ?r ?p ?ph ?ti ?sr ?dr ?ms) ?t ?tmo)] =>
      destruct (slave_stop a r p ph ti sr dr ms t tmo) as [t' E]
  end;
  rewrite E; clear E.

(** A one-byte read delivers the register the pointer was set to. *)
Lemma slave_readBuf_one (reg : Z) (data : Z -> Z) a regs ptr ph ti sr dr ms t tmo :
  0 <= a < 128 ->
  exists t',
    Fastwire_readBuf (to_uint8 (Z.shiftl a 1)) reg data 1
      (mkWorld (mkSlave a regs ptr ph ti sr dr ms) t tmo)
    = ((0, upd data 0 (to_uint8 (regs (to_uint8 reg)))),
       mkWorld (mkSlave a regs (to_uint8 (to_uint8 reg + 1)) Idle false 0xF8
                  (to_uint8 (regs (to_uint8 reg))) ms) t' tmo).
Proof.
  intros Ha. rewrite addr_write_byte by exact Ha.
  unfold Fastwire_readBuf, readBuf_select, readBuf_receive, bind.
  rewrite double_land_fe, double_lor_1 by exact Ha.
  slave_call Ha.
  change (negb (TW_MT_SLA_ACK =? TW_MT_SLA_ACK)) with false. cbv beta iota.
  rewrite slave_wr, slave_set_twdr, slave_wr. change (to_uint8 CMD_SEND) with 132.
  rewrite slave_cmd_pointer. slave_wait. slave_ok.
  rewrite slave_rd_TWSR. cbn [sl_twsr].
  change (negb (Z.land (to_uint8 TW_MT_DATA_ACK) 248 =? TW_MT_DATA_ACK)) with false.
  cbv beta iota. unfold ret at 1. change (negb (0 =? 0)) with false. cbv beta iota.
  slave_call Ha.
  change (negb (TW_MR_SLA_ACK =? TW_MR_SLA_ACK)) with false. cbv beta iota.
  change (Z.to_nat 1) with 1%nat. cbn [readBuf_loop]. unfold bind.
  change (0 =? 1 - 1) with true. cbv beta iota.
  rewrite slave_wr. change (to_uint8 CMD_SEND) with 132. rewrite slave_cmd_fetch_last.
  slave_wait. slave_ok.
  rewrite slave_rd_TWSR. cbn [sl_twsr].
  change (negb (Z.land (to_uint8 TW_MR_DATA_NACK) 248 =? TW_MR_DATA_ACK)
          && negb (Z.land (to_uint8 TW_MR_DATA_NACK) 248 =? TW_MR_DATA_NACK))
    with false.
  cbv beta iota.
  rewrite slave_rd_TWDR. cbn [sl_twdr]. rewrite to_uint8_idem.
  slave_call Ha. eexists. reflexivity.
Qed.

(** *** I2Cdev on the slave *)

Lemma slave_readByte (reg b0 timeout : Z) a regs ptr ph ti sr dr ms t tmo :
  0 <= a < 128 ->
  exists t',
    I2Cdev_readByte a reg b0 timeout (mkWorld (mkSlave a regs ptr ph ti sr dr ms) t tmo)
    = ((1, to_uint8 (regs (to_uint8 reg))),
       mkWorld (mkSlave a regs (to_uint8 (to_uint8 reg + 1)) Idle false 0xF8
                  (to_uint8 (regs (to_uint8 reg))) ms) t' tmo).
Proof.
  intros Ha. unfold I2Cdev_readByte, I2Cdev_readBytes, bind.
  rewrite slave_millis.
  destruct (slave_readBuf_one reg (fun _ => b0) a regs ptr ph ti sr dr ms t tmo Ha)
    as [t1 E1].
  rewrite E1. clear E1. change (0 =? 0) with true. cbv beta iota.
  change (to_int8 1) with 1. change (1 <? 1) with false.
  destruct (timeout >? 0).
  - rewrite slave_millis. rewrite andb_false_r. eexists. reflexivity.
  - eexists. reflexivity.
Qed.

Lemma slave_writeByte (reg x : Z) a regs ptr ph ti sr dr ms t tmo :
  0 <= a < 128 ->
  exists t',
    I2Cdev_writeByte a reg x (mkWorld (mkSlave a regs ptr ph ti sr dr ms) t tmo)
    = (1, mkWorld (mkSlave a (upd regs (to_uint8 reg) (to_uint8 x))
                     (to_uint8 (to_uint8 reg + 1)) Idle false 0xF8 (to_uint8 x) ms)
            t' tmo).
Proof.
  intros Ha.
  unfold I2Cdev_writeByte, I2Cdev_writeBytes, Fastwire_beginTransmission, bind.
  rewrite Z.shiftl_mul_pow2 by lia. change (2 ^ 1) with 2. rewrite (Z.mul_comm a 2).
  slave_call Ha.
  change (negb (TW_MT_SLA_ACK =? TW_MT_SLA_ACK)) with false. cbv beta iota.
  unfold ret at 1. slave_call Ha.
  change (Z.to_nat 1) with 1%nat. cbn [writeBytes_loop]. unfold bind.
  slave_call Ha. unfold ret at 1. slave_call Ha.
  rewrite to_uint8_idem. eexists. reflexivity.
Qed.

Lemma writeBits_merge_byte (bitStart length v b : Z) :
  to_uint8 (writeBits_merge bitStart length v b) = writeBits_merge bitStart length v b.
Proof. unfold writeBits_merge. apply to_uint8_idem. Qed.

Lemma upd_same (mem : Z -> Z) (i v : Z) : upd mem i v i = v.
Proof. unfold upd. now rewrite Z.eqb_refl. Qed.

(** The round trip on the slave, for every address, register, register
    content, field and value: [I2Cdev_writeBits] succeeds and leaves the merged
    byte in the register, all other registers as they were, and
    [I2Cdev_readBits] then returns the value written. *)
Theorem slave_writeBits_readBits :
  forall (a reg bitStart length v b0 b1 data timeout : Z) (regs : Z -> Z),
    0 <= a < 128 ->
    0 <= length <= bitStart + 1 -> bitStart + 1 <= 8 -> 0 <= v < 2 ^ length ->
    let b := to_uint8 (regs (to_uint8 reg)) in
    exists w2 w3,
      I2Cdev_writeBits a reg bitStart length v b0 (slave_world a regs) = (1, w2) /\
      I2Cdev_readBits a reg bitStart length data timeout b1 w2 = ((1, v), w3) /\
      sl_regs (hw w2) = upd regs (to_uint8 reg) (writeBits_merge bitStart length v b) /\
      sl_regs (hw w3) = sl_regs (hw w2).
Proof.
  intros a reg bitStart length v b0 b1 data timeout regs Ha Hl Hb Hv b.
  set (m := writeBits_merge bitStart length v b).
  set (p := to_uint8 (to_uint8 reg + 1)).
  assert (Hm : to_uint8 m = m) by apply writeBits_merge_byte.
  destruct (slave_readByte reg b0 I2CDEV_DEFAULT_READ_TIMEOUT a regs 0 Idle false 0xF8
              0xFF 0 [] I2CDEV_DEFAULT_READ_TIMEOUT Ha) as [t1 E1].
  destruct (slave_writeByte reg m a regs p Idle false 0xF8 b 0 t1
              I2CDEV_DEFAULT_READ_TIMEOUT Ha) as [t2 E2].
  rewrite Hm in E2.
  destruct (slave_readByte reg b1 timeout a (upd regs (to_uint8 reg) m) p Idle false 0xF8
              m 0 t2 I2CDEV_DEFAULT_READ_TIMEOUT Ha) as [t3 E3].
  rewrite upd_same, Hm in E3.
  exists (mkWorld (mkSlave a (upd regs (to_uint8 reg) m) p Idle false 0xF8 m 0) t2
            I2CDEV_DEFAULT_READ_TIMEOUT).
  exists (mkWorld (mkSlave a (upd regs (to_uint8 reg) m) p Idle false 0xF8 m 0) t3
            I2CDEV_DEFAULT_READ_TIMEOUT).
  split; [| split; [| split]].
  - unfold I2Cdev_writeBits, bind, default_timeout, slave_world, slave_idle.
    cbn [I2Cdev_readTimeout]. rewrite E1.
    change (negb (1 =? 0)) with true. cbv beta iota. fold b. fold m. exact E2.
  - unfold I2Cdev_readBits, bind. rewrite E3.
    change (negb (1 =? 0)) with true. cbv beta iota. unfold ret, m.
    rewrite writeBits_merge_field by assumption. reflexivity.
  - reflexivity.
  - reflexivity.
Qed.

(** From 128 words on the index of the loop of [I2Cdev_writeWords] wraps from
    254 to 0 before it reaches [length * 2]: on the slave, which ACKs every
    byte, the loop never ends, whatever the fuel. *)
Lemma slave_writeWords_loop_wraps (fuel : nat) (length : Z) (data : Z -> Z) :
  128 <= length ->
  forall (i st : Z) a regs ptr ti sr dr ms t tmo,
    0 <= i < 256 ->
    exists w',
      writeWords_loop fuel length data i st
        (mkWorld (mkSlave a regs ptr Store ti sr dr ms) t tmo) = (None, w').
Proof.
  intros Hlen.
  induction fuel as [| fuel IH]; intros i st a regs ptr ti sr dr ms t tmo Hi.
  - eexists. reflexivity.
  - cbn [writeWords_loop].
    destruct (Z.ltb_spec i (length * 2)) as [_ | Hge]; [| lia].
    unfold bind. slave_call I. slave_call I.
    change (negb (0 =? 0)) with false. cbv beta iota.
    apply IH. unfold to_uint8. apply Z.mod_pos_bound. lia.
Qed.

Theorem slave_writeWords_never_returns :
  forall (fuel : nat) (a reg length : Z) (data regs : Z -> Z),
    0 <= a < 128 -> 128 <= length ->
    fst (I2Cdev_writeWords fuel a reg length data (slave_world a regs)) = None.
Proof.
  intros fuel a reg length data regs Ha Hlen.
  unfold I2Cdev_writeWords, Fastwire_beginTransmission, bind, slave_world, slave_idle.
  rewrite Z.shiftl_mul_pow2 by lia. change (2 ^ 1) with 2. rewrite (Z.mul_comm a 2).
  slave_call Ha.
  change (negb (TW_MT_SLA_ACK =? TW_MT_SLA_ACK)) with false. cbv beta iota.
  unfold ret at 1. slave_call Ha.
  match goal with
  | |- context [writeWords_loop _ _ _ _ _
                  (mkWorld (mkSlave ?a ?r ?p Store ?ti ?sr ?dr ?ms) ?t ?tmo)] =>
      destruct (slave_writeWords_loop_wraps fuel length data Hlen 0 0 a r p ti sr dr ms
                  t tmo ltac:(lia)) as [w' E]
  end.
  rewrite E. reflexivity.
Qed.

End SlaveBus.

(** * The code on concrete buses *)

(** C1: [I2Cdev_readWords] does not pack consecutive byte pairs.  The buffer
    [intermediate] has element type [uint16_t], so [intermediate[2*i]] is the
    pair of raw bytes at 4i and 4i+1, not the raw byte at 2i.  With two words
    requested and the raw bytes 0x12 0x34 0x56 0x78 delivered, word 0 is
    0x7A56 on the AVR (and 0x7678 on a big-endian target), not 0x1234; with
    one word requested and 0x12 0x34 delivered, word 0 is 0x1200 ored with
    the two bytes that lie behind the array (here 0, then 0xFF). *)
Theorem readWords_mixes_raw_bytes :
  let raw := [0x12; 0x34; 0x56; 0x78] in
  let r := I2Cdev_readWords dev_example reg_block 2 (fun _ => 0) 1000 (fun _ => 0)
             (scripted_world (read_script raw)) in
  let r_be := @I2Cdev_readWords Scripted (scripted_platform true)
                dev_example reg_block 2 (fun _ => 0) 1000 (fun _ => 0)
                (scripted_world (read_script raw)) in
  let r1 := fun junk =>
              I2Cdev_readWords dev_example reg_block 1 (fun _ => 0) 1000
                (fun _ => junk) (scripted_world (read_script [0x12; 0x34])) in
  (reads_from TWDR (trace (snd r)) = raw /\ fst (fst r) = 2 /\
   snd (fst r) 0 = 0x7A56 /\ snd (fst r) 0 <> 0x1234) /\
  (reads_from TWDR (trace (snd r_be)) = raw /\ fst (fst r_be) = 2 /\
   snd (fst r_be) 0 = 0x7678 /\ snd (fst r_be) 0 <> 0x1234) /\
  (reads_from TWDR (trace (snd (r1 0))) = [0x12; 0x34] /\ fst (fst (r1 0)) = 1 /\
   snd (fst (r1 0)) 0 = 0x1200 /\ snd (fst (r1 0xFF)) 0 = 0xFFFF).
Proof.
  cbv zeta. repeat split; try (vm_compute; reflexivity); vm_compute; discriminate.
Qed.

(** C2: [I2Cdev_writeWords] skips every other word.  The index is incremented
    in the body and again by the loop, so with two words to send the second
    pass takes [data[2]], the word behind the buffer: the slave receives
    0x12 0x34 0x9A 0xBC, never 0x56 0x78.  And only the status of the low
    byte is looked at: a NACK on the high byte does not stop the transfer,
    and the call reports success. *)
Theorem writeWords_skips_second_word :
  let r := I2Cdev_writeWords 3 dev_example 0x10 2 words_example
             (slave_world dev_example regs_example) in
  let r_nack := I2Cdev_writeWords 2 dev_example 0x10 1 words_example
                  (scripted_world msb_nack_script) in
  (fst r = Some 1 /\
   writes_to TWDR (trace (snd r)) = [0xD0; 0x10; 0x12; 0x34; 0x9A; 0xBC] /\
   writes_to TWDR (trace (snd r)) <> [0xD0; 0x10; 0x12; 0x34; 0x56; 0x78] /\
   map (sl_regs (hw (snd r))) [0x10; 0x11; 0x12; 0x13] = [0x12; 0x34; 0x9A; 0xBC]) /\
  (reads_from TWSR (trace (snd r_nack))
     = [TW_START; TW_MT_SLA_ACK; TW_MT_DATA_ACK; TW_MT_DATA_NACK; TW_MT_DATA_ACK] /\
   writes_to TWDR (trace (snd r_nack)) = [0xD0; 0x10; 0x12; 0x34] /\
   fst r_nack = Some 1).
Proof.
  cbv zeta. repeat split; try (vm_compute; reflexivity); vm_compute; discriminate.
Qed.

(** C3: [I2Cdev_writeBytes] reports success whatever the bus answers.  Both
    data bytes are NACKed here; both are sent, and the call returns 1. *)
Theorem writeBytes_nack_reported_as_success :
  let r := I2Cdev_writeBytes dev_example 0x10 2 bytes_example
             (scripted_world data_nack_script) in
  reads_from TWSR (trace (snd r))
    = [TW_START; TW_MT_SLA_ACK; TW_MT_DATA_ACK; TW_MT_DATA_NACK; TW_MT_DATA_NACK] /\
  writes_to TWDR (trace (snd r)) = [0xD0; 0x10; 0xAA; 0xBB] /\
  fst r = 1.
Proof.
  cbv zeta. repeat split; vm_compute; reflexivity.
Qed.

(** C4: [I2Cdev_writeBits] writes after a failed read.  On a bus where
    nothing ever completes the read of the register returns 255, the image of
    the failure count -1 in the [uint8_t] return type, which the test
    [!= 0] lets pass: the function sends the register address and a byte
    merged from the indeterminate local (0xAF here gives 0xAB), and returns
    1. *)
Theorem writeBits_writes_after_failed_read :
  let w0 := scripted_world [] in
  let rd0 := I2Cdev_readByte dev_example reg_example 0xAF (I2Cdev_readTimeout w0) w0 in
  let r := I2Cdev_writeBits dev_example reg_example 4 3 2 0xAF w0 in
  fst rd0 = (255, 0xAF) /\
  reads_from TWDR (trace (snd r)) = [] /\
  writes_to TWDR (trace (snd r)) = [reg_example; 0xAB] /\
  fst r = 1.
Proof.
  cbv zeta. repeat split; vm_compute; reflexivity.
Qed.

(** C5 as stated fails: two NACKs in a row do not exhaust the retries.  The
    address phase is NACKed at the first attempt and at the first retry and
    ACKed at the second retry; the read returns 0, not 19, and delivers the
    byte 0x5A. *)
Lemma readBuf_two_nacks_then_ack :
  let r := Fastwire_readBuf 0xD0 reg_example (fun _ => 0) 1
             (scripted_world two_nacks_script) in
  reads_from TWSR (trace (snd r))
    = [TW_START; TW_MT_SLA_NACK; TW_START; TW_MT_SLA_NACK; TW_START; TW_MT_SLA_ACK;
       TW_MT_DATA_ACK; TW_START; TW_MR_SLA_ACK; TW_MR_DATA_NACK] /\
  fst (fst r) = 0 /\
  snd (fst r) 0 = 0x5A /\
  reads_from TWDR (trace (snd r)) = [0x5A] /\
  ~ (fst (fst r) = 19 /\ reads_from TWDR (trace (snd r)) = []).
Proof.
  cbv zeta. repeat split; try (vm_compute; reflexivity).
  vm_compute. intros [E _]. discriminate E.
Qed.

(** C9: a status of 0x00 in the data phase is returned as success.  The
    status is neither TW_MR_DATA_ACK nor TW_MR_DATA_NACK, so Fastwire_readBuf
    leaves the loop with [return twst], and [twst] is 0: the second byte is
    never stored, no STOP is sent, and [I2Cdev_readBytes] returns the full
    count 2. *)
Theorem readBuf_bus_error_returns_success :
  let w0 := scripted_world bus_error_script in
  let r := Fastwire_readBuf 0xD0 0x10 (fun _ => 0xEE) 2 w0 in
  let rb := I2Cdev_readBytes dev_example 0x10 2 (fun _ => 0xEE) 1000 w0 in
  reads_from TWSR (trace (snd r))
    = [TW_START; TW_MT_SLA_ACK; TW_MT_DATA_ACK; TW_START; TW_MR_SLA_ACK;
       TW_MR_DATA_ACK; 0x00] /\
  fst (fst r) = 0 /\
  map (snd (fst r)) [0; 1] = [0x11; 0xEE] /\
  ~ In (to_uint8 CMD_STOP) (writes_to TWCR (trace (snd r))) /\
  fst (fst rb) = 2.
Proof.
  cbv zeta. repeat split; try (vm_compute; reflexivity).
  vm_compute. intuition discriminate.
Qed.


(** * The general statements at concrete inputs *)


(** C5 (amended) at concrete inputs: three NACKs in the write-address phase,
    and three NACKs in the read-address phase. *)
Lemma readBuf_address_nack_exhausted_witness :
  let data := fun _ : Z => 0xEE in
  let w0 := scripted_world three_nacks_script in
  let w1 := snd (start_address (Z.land 0xD0 0xfe) 16 17 18 w0) in
  let w2 := snd (start_address (Z.land 0xD0 0xfe) 16 17 18 w1) in
  let w3 := snd (start_address (Z.land 0xD0 0xfe) 16 17 18 w2) in
  let v0 := scripted_world three_read_nacks_script in
  let va := snd (readBuf_select 0xD0 reg_example v0) in
  let v1 := snd (start_address (Z.lor 0xD0 0x01) 22 23 24 va) in
  let v2 := snd (start_address (Z.lor 0xD0 0x01) 22 23 24 v1) in
  let v3 := snd (start_address (Z.lor 0xD0 0x01) 22 23 24 v2) in
  (start_address (Z.land 0xD0 0xfe) 16 17 18 w0 = (inr TW_MT_SLA_NACK, w1) /\
   start_address (Z.land 0xD0 0xfe) 16 17 18 w1 = (inr TW_MT_SLA_NACK, w2) /\
   start_address (Z.land 0xD0 0xfe) 16 17 18 w2 = (inr TW_MT_SLA_NACK, w3) /\
   Fastwire_readBuf 0xD0 reg_example data 1 w0 = ((19, data), w3) /\
   reads_from TWDR (trace w3) = []) /\
  (readBuf_select 0xD0 reg_example v0 = (0, va) /\
   start_address (Z.lor 0xD0 0x01) 22 23 24 va = (inr TW_MR_SLA_NACK, v1) /\
   start_address (Z.lor 0xD0 0x01) 22 23 24 v1 = (inr TW_MR_SLA_NACK, v2) /\
   start_address (Z.lor 0xD0 0x01) 22 23 24 v2 = (inr TW_MR_SLA_NACK, v3) /\
   Fastwire_readBuf 0xD0 reg_example data 1 v0 = ((25, data), v3) /\
   reads_from TWDR (trace v3) = []).
Proof.
  intros data w0 w1 w2 w3 v0 va v1 v2 v3.
  assert (H1 : start_address (Z.land 0xD0 0xfe) 16 17 18 w0 = (inr TW_MT_SLA_NACK, w1))
    by (vm_compute; reflexivity).
  assert (H2 : start_address (Z.land 0xD0 0xfe) 16 17 18 w1 = (inr TW_MT_SLA_NACK, w2))
    by (vm_compute; reflexivity).
  assert (H3 : start_address (Z.land 0xD0 0xfe) 16 17 18 w2 = (inr TW_MT_SLA_NACK, w3))
    by (vm_compute; reflexivity).
  assert (Ga : readBuf_select 0xD0 reg_example v0 = (0, va))
    by (vm_compute; reflexivity).
  assert (G1 : start_address (Z.lor 0xD0 0x01) 22 23 24 va = (inr TW_MR_SLA_NACK, v1))
    by (vm_compute; reflexivity).
  assert (G2 : start_address (Z.lor 0xD0 0x01) 22 23 24 v1 = (inr TW_MR_SLA_NACK, v2))
    by (vm_compute; reflexivity).
  assert (G3 : start_address (Z.lor 0xD0 0x01) 22 23 24 v2 = (inr TW_MR_SLA_NACK, v3))
    by (vm_compute; reflexivity).
  destruct (readBuf_address_nack_exhausted (H := Scripted) 0xD0 reg_example data 1)
    as [T1 T2].
  destruct (T1 w0 w1 w2 w3 H1 H2 H3) as (E & R & _).
  destruct (T2 v0 va v1 v2 v3 Ga G1 G2 G3) as (F & Q & _).
  split.
  - exact (conj H1 (conj H2 (conj H3 (conj E R)))).
  - exact (conj Ga (conj G1 (conj G2 (conj G3 (conj F Q))))).
Defined.

(** C7 at the input of the source comment: the byte 0b01101001, bitStart 4,
    length 3 give 0b010. *)
Lemma readBits_right_aligned_field_witness :
  let w := scripted_world (read_script [0x69]) in
  let w' := snd (I2Cdev_readByte dev_example reg_example 0 1000 w) in
  (0 <= 3 <= 4 + 1 /\ 4 + 1 <= 8 /\
   I2Cdev_readByte dev_example reg_example 0 1000 w = ((1, 0x69), w')) /\
  I2Cdev_readBits dev_example reg_example 4 3 0 1000 0 w = ((1, 2), w').
Proof.
  intros w w'.
  assert (Hl : 0 <= 3 <= 4 + 1) by lia.
  assert (Hb : 4 + 1 <= 8) by lia.
  assert (E : I2Cdev_readByte dev_example reg_example 0 1000 w = ((1, 0x69), w'))
    by (vm_compute; reflexivity).
  split; [exact (conj Hl (conj Hb E)) |].
  exact (proj1 (readBits_right_aligned_field dev_example reg_example 4 3 0 1000 0 0x69
                  w w' Hl Hb E)).
Defined.

(** C6 at the input of the source comment: the register holds 0b10101111;
    writing 0b010 at bitStart 4, length 3 leaves 0b10101011 in the slave, and
    reading the field back gives 0b010. *)
Lemma writeBits_readBits_roundtrip_witness :
  let w0 := slave_world dev_example regs_example in
  let w1 := snd (I2Cdev_readByte dev_example reg_example 0 (I2Cdev_readTimeout w0) w0) in
  let w2 := snd (I2Cdev_writeByte dev_example reg_example
                   (writeBits_merge 4 3 2 0xAF) w1) in
  let w3 := snd (I2Cdev_readByte dev_example reg_example 0 1000 w2) in
  (0 <= 3 <= 4 + 1 /\ 4 + 1 <= 8 /\ 0 <= 2 < 2 ^ 3 /\
   I2Cdev_readByte dev_example reg_example 0 (I2Cdev_readTimeout w0) w0
     = ((1, 0xAF), w1) /\
   I2Cdev_writeByte dev_example reg_example (writeBits_merge 4 3 2 0xAF) w1 = (1, w2) /\
   I2Cdev_readByte dev_example reg_example 0 1000 w2
     = ((1, writeBits_merge 4 3 2 0xAF), w3)) /\
  I2Cdev_writeBits dev_example reg_example 4 3 2 0 w0 = (1, w2) /\
  I2Cdev_readBits dev_example reg_example 4 3 0 1000 0 w2 = ((1, 2), w3) /\
  sl_regs (hw w2) reg_example = 0xAB.
Proof.
  intros w0 w1 w2 w3.
  assert (Hl : 0 <= 3 <= 4 + 1) by lia.
  assert (Hb : 4 + 1 <= 8) by lia.
  assert (Hv : 0 <= 2 < 2 ^ 3) by lia.
  assert (E1 : I2Cdev_readByte dev_example reg_example 0 (I2Cdev_readTimeout w0) w0
               = ((1, 0xAF), w1)) by (vm_compute; reflexivity).
  assert (E2 : I2Cdev_writeByte dev_example reg_example (writeBits_merge 4 3 2 0xAF) w1
               = (1, w2)) by (vm_compute; reflexivity).
  assert (E3 : I2Cdev_readByte dev_example reg_example 0 1000 w2
               = ((1, writeBits_merge 4 3 2 0xAF), w3)) by (vm_compute; reflexivity).
  destruct (writeBits_readBits_roundtrip dev_example reg_example 4 3 2 0 0 0 1000 0xAF 1
              w0 w1 w2 w3 Hl Hb Hv E1 E2 E3) as (Tw & Tr & _).
  split; [exact (conj Hl (conj Hb (conj Hv (conj E1 (conj E2 E3))))) |].
  split; [exact Tw |]. split; [exact Tr |].
  vm_compute. reflexivity.
Defined.

(** C10 at a concrete input: on a bus where nothing completes the reads fail,
    and the writes follow all the same, with payloads computed from the
    indeterminate locals 0x0F and 0x0F0F. *)
Lemma writeBit_writes_back_unconditionally_witness :
  let w := scripted_world [] in
  let rb := I2Cdev_readByte dev_example reg_example 0x0F (I2Cdev_readTimeout w) w in
  let rw := I2Cdev_readWord dev_example reg_example 0x0F0F (I2Cdev_readTimeout w)
              (fun _ => 0) w in
  (2 <= 2)%nat /\
  (fst rb = (255, 0x0F) /\
   I2Cdev_writeBit dev_example reg_example 7 1 0x0F w
     = I2Cdev_writeByte dev_example reg_example 0x8F (snd rb) /\
   exists k,
     (k <= 3)%nat /\
     writes_to TWDR (trace (snd (I2Cdev_writeBit dev_example reg_example 7 1 0x0F w)))
     = writes_to TWDR (trace (snd rb)) ++ repeat (to_uint8 (Z.shiftl dev_example 1)) k
         ++ [to_uint8 reg_example; 0x8F]) /\
  (fst rw = (255, 0x0F0F) /\
   I2Cdev_writeBitW 2 dev_example reg_example 15 1 0x0F0F (fun _ => 0) w
     = I2Cdev_writeWord 2 dev_example reg_example 0x8F0F (snd rw) /\
   exists r k,
     fst (I2Cdev_writeBitW 2 dev_example reg_example 15 1 0x0F0F (fun _ => 0) w)
       = Some r /\
     (k <= 3)%nat /\
     writes_to TWDR
       (trace (snd (I2Cdev_writeBitW 2 dev_example reg_example 15 1 0x0F0F (fun _ => 0) w)))
     = writes_to TWDR (trace (snd rw)) ++ repeat (to_uint8 (Z.shiftl dev_example 1)) k
         ++ [to_uint8 reg_example; to_uint8 (Z.shiftr 0x8F0F 8); to_uint8 0x8F0F]).
Proof.
  intros w rb rw.
  assert (Hfuel : (2 <= 2)%nat) by lia.
  assert (Eb : I2Cdev_readByte dev_example reg_example 0x0F (I2Cdev_readTimeout w) w
               = ((255, 0x0F), snd rb)) by (vm_compute; reflexivity).
  assert (Ew : I2Cdev_readWord dev_example reg_example 0x0F0F (I2Cdev_readTimeout w)
                 (fun _ => 0) w = ((255, 0x0F0F), snd rw)) by (vm_compute; reflexivity).
  destruct (writeBit_writes_back_unconditionally 2 dev_example reg_example 7 1 0x0F 0
              (fun _ => 0) w Hfuel) as [Tb _].
  destruct (writeBit_writes_back_unconditionally 2 dev_example reg_example 15 1 0 0x0F0F
              (fun _ => 0) w Hfuel) as [_ Tw].
  destruct (Tb 255 0x0F (snd rb) Eb) as (Tb1 & _ & Tb3).
  destruct (Tw 255 0x0F0F (snd rw) Ew) as (Tw1 & _ & Tw3).
  split; [exact Hfuel |]. split.
  - split; [vm_compute; reflexivity |]. split; [exact Tb1 | exact Tb3].
  - split; [vm_compute; reflexivity |]. split; [exact Tw1 | exact Tw3].
Defined.

(** * Further properties of the code *)

(** Running the next call of a monadic body and recording what it did. *)
Ltac go_wr :=
  match goal with
  | |- context [wr ?r ?v ?w] =>
      let E := fresh "E" in let w' := fresh "w" in
      destruct (wr r v w) as [[] w'] eqn:E; apply wr_delta in E
  end.

Ltac go_rd :=
  match goal with
  | |- context [rd ?r ?w] =>
      let E := fresh "E" in let w' := fresh "w" in let v := fresh "sr" in
      destruct (rd r w) as [v w'] eqn:E; apply rd_delta in E; simpl in E
  end.

Ltac go_wait :=
  match goal with
  | |- context [Fastwire_waitInt ?w] =>
      let E := fresh "E" in let w' := fresh "w" in let ok := fresh "ok" in
      destruct (Fastwire_waitInt w) as [ok w'] eqn:E;
      apply Fastwire_waitInt_delta in E
  end.

Ltac chain D :=
  repeat match goal with
  | D1 : delta ?a ?b _ _, D2 : delta ?b ?c _ _ |- _ =>
      let D' := fresh "D" in
      pose proof (delta_trans _ _ _ _ _ _ _ D1 D2) as D'; simpl in D';
      clear D1 D2
  end;
  match goal with
  | D1 : delta _ _ _ _ |- _ => rename D1 into D
  end.

Section Coverage.

Context {H : Type} {P : Platform H}.
Implicit Types w : World H.

(** ** Fastwire_waitInt *)

Lemma waitInt_loop_within (l : nat) w :
  (fst (waitInt_loop l w) >? 0) = twint_within l (hw w).
Proof.
  revert w. induction l as [| l IH]; intros w; simpl; unfold bind, rd;
    destruct (hw_read TWCR (hw w)) as [v h']; simpl;
    destruct (negb (Z.land (to_uint8 v) (bit TWINT) =? 0)); simpl;
    try reflexivity.
  apply IH.
Qed.

Lemma waitInt_loop_polls (l : nat) w :
  exists ps,
    trace (snd (waitInt_loop l w)) = trace w ++ map (RegRead TWCR) ps /\
    (1 <= List.length ps <= S l)%nat.
Proof.
  revert w. induction l as [| l IH]; intros w; simpl; unfold bind, rd;
    destruct (hw_read TWCR (hw w)) as [v h']; simpl;
    destruct (negb (Z.land (to_uint8 v) (bit TWINT) =? 0)); simpl;
    try (exists [to_uint8 v]; split; [reflexivity | simpl; lia]).
  match goal with
  | |- context [waitInt_loop l ?w1] => destruct (IH w1) as (ps & E & Hlen)
  end.
  exists (to_uint8 v :: ps). rewrite E. simpl. rewrite <- app_assoc. simpl.
  split; [reflexivity | lia].
Qed.

(** X1: the spin budget of [Fastwire_waitInt].  The call returns 1 exactly
    when one of the first 250 loads of TWCR finds TWINT set, and 0 otherwise,
    also when TWINT shows at load 251; it does nothing but load TWCR, at
    least once and at most 251 times. *)
Theorem Fastwire_waitInt_budget :
  forall w,
    fst (Fastwire_waitInt w) = c_bool (twint_within 250 (hw w)) /\
    exists ps,
      trace (snd (Fastwire_waitInt w)) = trace w ++ map (RegRead TWCR) ps /\
      (1 <= List.length ps <= 251)%nat.
Proof.
  intros w. pose proof (waitInt_loop_within 250 w) as Hw.
  pose proof (waitInt_loop_polls 250 w) as Hp.
  unfold Fastwire_waitInt, bind.
  destruct (waitInt_loop 250 w) as [l w1]. simpl in *.
  rewrite Hw. split; [reflexivity | exact Hp].
Qed.

(** ** Address phases *)

Lemma start_address_cases (sla e1 e2 e3 : Z) w r w' :
  start_address sla e1 e2 e3 w = (r, w') ->
  match r with
  | inr _ => delta w w' (pass_stores sla) []
  | inl c =>
      ((c = e1 \/ c = e2) /\ delta w w' [RegWrite TWCR (to_uint8 CMD_START)] []) \/
      (c = e3 /\ delta w w' (pass_stores sla) [])
  end.
Proof.
  unfold start_address, bind. go_wr. go_wait.
  destruct (ok =? 0).
  { unfold ret. intros E1; injection E1 as <- <-. left. split; [now left |].
    chain D. exact D. }
  go_rd. destruct (_ && _).
  { unfold ret. intros E2; injection E2 as <- <-. left. split; [now right |].
    chain D. exact D. }
  go_wr. go_wr. go_wait.
  destruct (ok0 =? 0).
  { unfold ret. intros E5; injection E5 as <- <-. right. split; [reflexivity |].
    chain D. exact D. }
  go_rd. unfold ret. intros E6; injection E6 as <- <-. chain D. exact D.
Qed.

(** An address phase is [k] full passes, possibly followed by a START whose
    pass was cut short; together at least one and at most [retry + 1]. *)
Lemma address_retry_passes (sla nack e1 e2 e3 : Z) (retry : nat) w r w' :
  address_retry sla nack e1 e2 e3 retry w = (r, w') ->
  exists k tail,
    delta w w' (passes k sla ++ tail) [] /\
    (tail = [] \/ tail = [RegWrite TWCR (to_uint8 CMD_START)]) /\
    (1 <= k + List.length tail <= S retry)%nat /\
    match r with
    | inl c => c = e1 \/ c = e2 \/ c = e3
    | inr twst => tail = [] /\ (twst = nack -> k = S retry)
    end.
Proof.
  revert w. induction retry as [| retry IH]; intros w; simpl; unfold bind;
    destruct (start_address sla e1 e2 e3 w) as [[c | twst] w1] eqn:E1;
    apply start_address_cases in E1.
  - unfold ret. intros E; injection E as <- <-.
    destruct E1 as [[Hc D] | [Hc D]].
    + exists 0%nat, [RegWrite TWCR (to_uint8 CMD_START)].
      split; [exact D | split; [tauto | split; [simpl; lia | tauto]]].
    + exists 1%nat, []. simpl.
      split; [exact D | split; [tauto | split; [simpl; lia | tauto]]].
  - destruct (twst =? nack); unfold ret; intros E; injection E as <- <-;
      exists 1%nat, []; simpl;
      (split; [exact E1 | split; [tauto | split; [simpl; lia | tauto]]]).
  - unfold ret. intros E; injection E as <- <-.
    destruct E1 as [[Hc D] | [Hc D]].
    + exists 0%nat, [RegWrite TWCR (to_uint8 CMD_START)].
      split; [exact D | split; [tauto | split; [simpl; lia | tauto]]].
    + exists 1%nat, []. simpl.
      split; [exact D | split; [tauto | split; [simpl; lia | tauto]]].
  - destruct (Z.eqb_spec twst nack) as [Heq | Hne].
    + intros E. apply IH in E. destruct E as (k & tail & D & Htail & Hk & Hr).
      exists (S k), tail. split; [| split; [exact Htail | split; [simpl; lia |]]].
      * pose proof (delta_trans _ _ _ _ _ _ _ E1 D) as D'.
        simpl in D'. simpl. exact D'.
      * destruct r as [c | t]; [exact Hr |].
        destruct Hr as [Ht Hn]. split; [exact Ht |]. intros Hx. f_equal. auto.
    + unfold ret. intros E; injection E as <- <-.
      exists 1%nat, []. simpl.
      split; [exact E1 | split; [tauto | split; [simpl; lia | tauto]]].
Qed.

Lemma passes_TWDR (k : nat) (sla : Z) :
  writes_to TWDR (passes k sla) = repeat (to_uint8 sla) k.
Proof.
  induction k as [| k IH]; [reflexivity |].
  change (passes (S k) sla) with (pass_stores sla ++ passes k sla).
  rewrite writes_to_app, IH. reflexivity.
Qed.

Lemma passes_TWCR (k : nat) (sla : Z) :
  Forall (fun v => v = to_uint8 CMD_START \/ v = to_uint8 CMD_SEND)
         (writes_to TWCR (passes k sla)).
Proof.
  induction k as [| k IH]; [constructor |].
  change (passes (S k) sla) with (pass_stores sla ++ passes k sla).
  rewrite writes_to_app. apply Forall_app. split; [| exact IH].
  simpl. constructor; [now left | constructor; [now right | constructor]].
Qed.

(** X2: the retries of [Fastwire_beginTransmission].  The call makes at least
    one and at most three attempts: its stores are [k] times START, address
    byte and transfer command, possibly followed by one more START whose
    wait or status failed.  It returns one of 0..4, returns 0 only after a
    full pass, and loads nothing from TWDR. *)
Theorem Fastwire_beginTransmission_attempts :
  forall (device : Z) w,
    let r := Fastwire_beginTransmission device w in
    In (fst r) [0; 1; 2; 3; 4] /\
    exists k tail,
      stores (trace (snd r)) = stores (trace w) ++ passes k (Z.shiftl device 1) ++ tail /\
      (tail = [] \/ tail = [RegWrite TWCR (to_uint8 CMD_START)]) /\
      (1 <= k + List.length tail <= 3)%nat /\
      (tail = [] \/ fst r <> 0) /\
      reads_from TWDR (trace (snd r)) = reads_from TWDR (trace w).
Proof.
  intros device w. cbv zeta. unfold Fastwire_beginTransmission, bind.
  destruct (address_retry _ _ _ _ _ _ w) as [[c | twst] w1] eqn:E1;
    apply address_retry_passes in E1;
    destruct E1 as (k & tail & [Ds Dr] & Htail & Hk & Hr).
  - unfold ret. simpl. split.
    + destruct Hr as [-> | [-> | ->]]; simpl; auto.
    + exists k, tail. rewrite app_nil_r in Dr.
      split; [exact Ds | split; [exact Htail | split; [exact Hk | split; [| exact Dr]]]].
      right. destruct Hr as [-> | [-> | ->]]; discriminate.
  - destruct Hr as [-> _]. rewrite app_nil_r in Dr.
    destruct (negb (twst =? TW_MT_SLA_ACK)); unfold ret; simpl;
      (split; [auto 6 |]); exists k, [];
      (split; [exact Ds | split; [auto | split; [exact Hk | split; [auto | exact Dr]]]]).
Qed.

(** ** Fastwire_readBuf: return codes *)

Lemma masked_status_mod8 (sr : Z) : Z.land sr 0xF8 mod 8 = 0.
Proof.
  change 8 with (2 ^ 3). rewrite <- Z.land_ones by lia.
  rewrite <- Z.land_assoc. change (Z.land 248 (Z.ones 3)) with 0.
  apply Z.land_0_r.
Qed.

(** The receive loop returns 0, 26 or a masked status. *)
Lemma readBuf_loop_codes (num : Z) (n : nat) :
  forall (i : Z) (data : Z -> Z) w code data' w',
    readBuf_loop num n i data w = ((code, data'), w') ->
    code = 0 \/ code = 26 \/ code mod 8 = 0.
Proof.
  induction n as [| n IH]; intros i data w code data' w'.
  - simpl. unfold bind. destruct (Fastwire_stop w) as [r w1].
    unfold ret. intros E. injection E as <- <- <-. now left.
  - simpl readBuf_loop. unfold bind.
    destruct ((if i =? num - 1 then wr TWCR CMD_SEND else wr TWCR CMD_RECV_ACK) w)
      as [[] w1].
    destruct (Fastwire_waitInt w1) as [ok w2].
    destruct (ok =? 0).
    { unfold ret. intros E. injection E as <- <- <-. right. now left. }
    destruct (rd TWSR w2) as [sr w3].
    destruct (_ && _).
    { unfold ret. intros E. injection E as <- <- <-. right. right.
      apply masked_status_mod8. }
    destruct (rd TWDR w3) as [v w4]. apply IH.
Qed.

Lemma readBuf_select_codes (device address : Z) w code w' :
  readBuf_select device address w = (code, w') -> code = 0 \/ 16 <= code <= 21.
Proof.
  unfold readBuf_select, bind.
  destruct (address_retry _ _ _ _ _ _ w) as [[c | twst] w1] eqn:E1;
    apply address_retry_passes in E1;
    destruct E1 as (k & tail & _ & _ & _ & Hr).
  - unfold ret. intros E. injection E as <- <-. lia.
  - destruct (negb _); [unfold ret; intros E; injection E as <- <-; lia |].
    destruct (wr TWDR address w1) as [[] w2].
    destruct (wr TWCR CMD_SEND w2) as [[] w3].
    destruct (Fastwire_waitInt w3) as [ok w4].
    destruct (ok =? 0); [unfold ret; intros E; injection E as <- <-; lia |].
    destruct (rd TWSR w4) as [sr w5].
    destruct (negb _); unfold ret; intros E; injection E as <- <-; lia.
Qed.

(** X3: the return codes of [Fastwire_readBuf].  The code is 0, one of 16..26,
    or a masked status (a multiple of 8).  The codes 17..23 and 25 belong to
    the phases before the data: with one of them the buffer is the one passed
    in and nothing was loaded from TWDR.  (16 and 24 are also the statuses
    0x10 and 0x18, which the data loop returns as they are.) *)
Theorem Fastwire_readBuf_codes :
  forall (device address num code : Z) (data data' : Z -> Z) w w',
    Fastwire_readBuf device address data num w = ((code, data'), w') ->
    (code = 0 \/ 16 <= code <= 26 \/ code mod 8 = 0) /\
    (In code [17; 18; 19; 20; 21; 22; 23; 25] ->
     data' = data /\ reads_from TWDR (trace w') = reads_from TWDR (trace w)).
Proof.
  intros device address num code data data' w w'.
  unfold Fastwire_readBuf, bind.
  destruct (readBuf_select device address w) as [cs w1] eqn:Es.
  pose proof (readBuf_select_codes _ _ _ _ _ Es) as Hcs.
  apply readBuf_select_delta in Es. destruct Es as (ws & _ & Ds).
  rewrite app_nil_r in Ds.
  destruct (Z.eqb_spec cs 0) as [-> | Hnz]; simpl.
  2: { unfold ret. intros E. injection E as <- <- <-.
       split; [lia | intros _; split; [reflexivity | exact Ds]]. }
  unfold readBuf_receive, bind.
  destruct (address_retry _ _ _ _ _ _ w1) as [[c | twst] w2] eqn:E2;
    apply address_retry_passes in E2;
    destruct E2 as (k & tail & [_ Dr] & _ & _ & Hr); rewrite app_nil_r in Dr.
  - unfold ret. intros E. injection E as <- <- <-.
    split; [lia | intros _; split; [reflexivity | now rewrite Dr]].
  - destruct (negb (twst =? TW_MR_SLA_ACK)).
    + unfold ret. intros E. injection E as <- <- <-.
      split; [lia | intros _; split; [reflexivity | now rewrite Dr]].
    + intros E. apply readBuf_loop_codes in E. split.
      * destruct E as [-> | [-> | E]]; [now left | right; left; lia | now right; right].
      * intros Hin. exfalso. simpl in Hin.
        repeat (destruct Hin as [<- | Hin];
                [destruct E as [E | [E | E]]; vm_compute in E; discriminate E |]).
        exact Hin.
Qed.

(** ** Fastwire_writeBuf *)

Lemma writeBuf_loop_spec (n : nat) :
  forall (i : Z) (data : Z -> Z) w c w',
    writeBuf_loop n i data w = (c, w') ->
    exists k,
      (k <= n)%nat /\ delta w w' (buf_stores k i data) [] /\
      (c = 0 /\ k = n \/ (c = 7 \/ c = 8) /\ (1 <= k)%nat).
Proof.
  induction n as [| n IH]; intros i data w c w'.
  - simpl. unfold ret. intros E. injection E as <- <-.
    exists 0%nat. split; [lia | split; [apply delta_refl | now left]].
  - simpl writeBuf_loop. unfold bind. go_wr. go_wr. go_wait.
    assert (D0 : delta w w2 (send_stores (data i)) []).
    { chain D. exact D. }
    clear E E0 E1.
    destruct (ok =? 0).
    { unfold ret. intros E. injection E as <- <-.
      exists 1%nat. simpl.
      split; [lia | split; [exact D0 | right; split; [now left | lia]]]. }
    go_rd. pose proof (delta_trans _ _ _ _ _ _ _ D0 E) as D1.
    rewrite app_nil_r in D1. simpl in D1. clear D0 E.
    destruct (negb _).
    { unfold ret. intros E. injection E as <- <-.
      exists 1%nat. simpl. 
      split; [lia | split; [exact D1 | right; split; [now right | lia]]]. }
    intros E. apply IH in E. destruct E as (k & Hk & D2 & Hc).
    exists (S k). split; [lia | split].
    + pose proof (delta_trans _ _ _ _ _ _ _ D1 D2) as D. simpl in D. exact D.
    + destruct Hc as [[-> ->] | [Hc Hk1]]; [now left | right; split; [exact Hc | lia]].
Qed.

Lemma buf_stores_TWDR (k : nat) :
  forall (i : Z) (data : Z -> Z),
    writes_to TWDR (buf_stores k i data) = data_bytes k i data.
Proof.
  induction k as [| k IH]; intros i data; [reflexivity |].
  simpl. now rewrite IH.
Qed.

Lemma buf_stores_TWCR (k : nat) :
  forall (i : Z) (data : Z -> Z),
    Forall (fun v => v = to_uint8 CMD_START \/ v = to_uint8 CMD_SEND)
           (writes_to TWCR (buf_stores k i data)).
Proof.
  induction k as [| k IH]; intros i data; [constructor |].
  simpl. constructor; [now right | apply IH].
Qed.

(** X4: [Fastwire_writeBuf].  The call returns one of 0..8.  Whatever the
    result it loads nothing from TWDR, and every command it stores to TWCR is
    START or the transfer command: the function has no STOP of its own.  When
    it returns 0 the bytes that went to TWDR are the address byte with the
    read bit cleared, once per attempt of at most three, then the register
    address and all [num] bytes of the buffer in order. *)
Theorem Fastwire_writeBuf_spec :
  forall (device address num c : Z) (data : Z -> Z) w w',
    Fastwire_writeBuf device address data num w = (c, w') ->
    In c [0; 1; 2; 3; 4; 5; 6; 7; 8] /\
    (exists cs,
       writes_to TWCR (trace w') = writes_to TWCR (trace w) ++ cs /\
       Forall (fun v => v = to_uint8 CMD_START \/ v = to_uint8 CMD_SEND) cs) /\
    reads_from TWDR (trace w') = reads_from TWDR (trace w) /\
    (c = 0 ->
     exists j,
       (1 <= j <= 3)%nat /\
       writes_to TWDR (trace w') =
         writes_to TWDR (trace w) ++ repeat (to_uint8 (Z.land device 0xFE)) j
           ++ to_uint8 address :: data_bytes (Z.to_nat num) 0 data).
Proof.
  intros device address num c data w w'.
  unfold Fastwire_writeBuf, bind.
  destruct (address_retry _ _ _ _ _ _ w) as [[c0 | twst] w1] eqn:E1;
    apply address_retry_passes in E1;
    destruct E1 as (k & tail & D1 & Htail & Hk & Hr).
  - unfold ret. intros E. injection E as <- <-.
    split; [destruct Hr as [-> | [-> | ->]]; simpl; auto |].
    split; [| split].
    + exists (writes_to TWCR (passes k (Z.land device 254) ++ tail)).
      split; [exact (delta_writes_to _ _ _ _ TWCR D1) |].
      rewrite writes_to_app. apply Forall_app. split; [apply passes_TWCR |].
      destruct Htail as [-> | ->]; simpl; [constructor |].
      constructor; [now left | constructor].
    + destruct D1 as [_ D1]. now rewrite D1, app_nil_r.
    + intros ->. destruct Hr as [Hr | [Hr | Hr]]; discriminate Hr.
  - destruct Hr as [-> _]. rewrite app_nil_r in D1.
    assert (Hcs1 : Forall (fun v => v = to_uint8 CMD_START \/ v = to_uint8 CMD_SEND)
                     (writes_to TWCR (passes k (Z.land device 254))))
      by apply passes_TWCR.
    destruct (negb (twst =? TW_MT_SLA_ACK)).
    { unfold ret. intros E. injection E as <- <-.
      split; [simpl; auto 6 |]. split; [| split].
      - eexists. split; [exact (delta_writes_to _ _ _ _ TWCR D1) | exact Hcs1].
      - destruct D1 as [_ D1]. now rewrite D1, app_nil_r.
      - discriminate. }
    go_wr. go_wr. go_wait.
    assert (D2 : delta w w3 (passes k (Z.land device 254) ++ send_stores address) []).
    { pose proof (delta_trans _ _ _ _ _ _ _ D1
                    (delta_trans _ _ _ _ _ _ _ E
                       (delta_trans _ _ _ _ _ _ _ E0 E1))) as D.
      simpl in D. exact D. }
    clear E E0 E1 D1.
    assert (Hcs2 : Forall (fun v => v = to_uint8 CMD_START \/ v = to_uint8 CMD_SEND)
                     (writes_to TWCR (passes k (Z.land device 254) ++ send_stores address))).
    { rewrite writes_to_app. apply Forall_app. split; [exact Hcs1 |].
      simpl. constructor; [now right | constructor]. }
    destruct (ok =? 0).
    { unfold ret. intros E. injection E as <- <-.
      split; [simpl; auto 7 |]. split; [| split].
      - eexists. split; [exact (delta_writes_to _ _ _ _ TWCR D2) | exact Hcs2].
      - destruct D2 as [_ D2]. now rewrite D2, app_nil_r.
      - discriminate. }
    go_rd. pose proof (delta_trans _ _ _ _ _ _ _ D2 E) as D3.
    rewrite !app_nil_r in D3. clear D2 E.
    destruct (negb _).
    { unfold ret. intros E. injection E as <- <-.
      split; [simpl; auto 8 |]. split; [| split].
      - eexists. split; [exact (delta_writes_to _ _ _ _ TWCR D3) | exact Hcs2].
      - destruct D3 as [_ D3]. now rewrite D3, app_nil_r.
      - discriminate. }
    intros E. apply writeBuf_loop_spec in E. destruct E as (n & Hn & D4 & Hc).
    pose proof (delta_trans _ _ _ _ _ _ _ D3 D4) as D. rewrite app_nil_r in D.
    split; [| split; [| split]].
    + destruct Hc as [[-> _] | [[-> | ->] _]]; simpl; auto 10.
    + eexists. split; [exact (delta_writes_to _ _ _ _ TWCR D) |].
      rewrite writes_to_app. apply Forall_app. split; [exact Hcs2 |].
      apply buf_stores_TWCR.
    + destruct D as [_ D]. now rewrite D, app_nil_r.
    + intros ->. destruct Hc as [[_ ->] | [[Hc | Hc] _]]; try discriminate Hc.
      exists k. split; [simpl in Hk; lia |].
      rewrite (delta_writes_to _ _ _ _ TWDR D), !writes_to_app, passes_TWDR,
        buf_stores_TWDR.
      simpl. now rewrite <- app_assoc.
Qed.

(** ** Fastwire_readBuf: the buffer *)

Lemma store_from_outside (ds : list Z) :
  forall (data : Z -> Z) (i j : Z),
    j < i \/ i + Z.of_nat (List.length ds) <= j ->
    store_from data i ds j = data j.
Proof.
  induction ds as [| d ds IH]; intros data i j Hj; [reflexivity |].
  simpl store_from. rewrite IH by (simpl List.length in Hj; lia).
  unfold upd. destruct (Z.eqb_spec j i); [simpl List.length in Hj; lia | reflexivity].
Qed.

Lemma store_from_inside (ds : list Z) :
  forall (data : Z -> Z) (i : Z) (k : nat),
    (k < List.length ds)%nat ->
    store_from data i ds (i + Z.of_nat k) = nth k ds 0.
Proof.
  induction ds as [| d ds IH]; intros data i k Hk; [simpl in Hk; lia |].
  simpl store_from. destruct k as [| k].
  - rewrite store_from_outside by lia. unfold upd.
    replace (i + Z.of_nat 0) with i by lia. now rewrite Z.eqb_refl.
  - replace (i + Z.of_nat (S k)) with (i + 1 + Z.of_nat k) by lia.
    rewrite IH by (simpl in Hk; lia). reflexivity.
Qed.

(** X5: the buffer of [Fastwire_readBuf].  Whatever the call returns, the
    buffer holds the bytes it loaded from TWDR, in order from index 0 on, and
    is unchanged elsewhere; there are at most [num] of them.  When there are
    [num] of them (and [num] is not 0) the call returns 0, and the data phase
    consisted of the receive commands, with TWEA at every index but the last,
    followed by STOP. *)
Theorem Fastwire_readBuf_buffer :
  forall (device address num code : Z) (data data' : Z -> Z) w w',
    Fastwire_readBuf device address data num w = ((code, data'), w') ->
    exists ds,
      data' = store_from data 0 ds /\
      reads_from TWDR (trace w') = reads_from TWDR (trace w) ++ ds /\
      (List.length ds <= Z.to_nat num)%nat /\
      (forall j, j < 0 \/ Z.of_nat (List.length ds) <= j -> data' j = data j) /\
      (List.length ds = Z.to_nat num /\ 0 < num ->
       code = 0 /\
       exists pre,
         stores (trace w') =
           stores (trace w) ++ pre ++ recv_cmds num (Z.to_nat num) 0
             ++ [RegWrite TWCR (to_uint8 CMD_STOP)]).
Proof.
  intros device address num code data data' w w'.
  assert (Hearly : forall c w1 ws,
            delta w w1 ws [] ->
            exists ds,
              data = store_from data 0 ds /\
              reads_from TWDR (trace w1) = reads_from TWDR (trace w) ++ ds /\
              (List.length ds <= Z.to_nat num)%nat /\
              (forall j, j < 0 \/ Z.of_nat (List.length ds) <= j -> data j = data j) /\
              (List.length ds = Z.to_nat num /\ 0 < num ->
               c = 0 /\
               exists pre,
                 stores (trace w1) =
                   stores (trace w) ++ pre ++ recv_cmds num (Z.to_nat num) 0
                     ++ [RegWrite TWCR (to_uint8 CMD_STOP)])).
  { intros c w1 ws [_ D]. exists []. simpl.
    split; [reflexivity | split; [exact D | split; [lia | split; [reflexivity | lia]]]]. }
  unfold Fastwire_readBuf, bind.
  destruct (readBuf_select device address w) as [c0 w1] eqn:E1.
  apply readBuf_select_delta in E1. destruct E1 as [ws1 D1].
  destruct (negb (c0 =? 0)).
  { unfold ret. intros E. injection E as <- <- <-. exact (Hearly _ _ _ D1). }
  unfold readBuf_receive, bind.
  destruct (address_retry _ _ _ _ _ _ w1) as [[c | twst] w2] eqn:E2;
    apply address_retry_delta in E2; destruct E2 as (ws2 & k & D2 & _ & _);
    pose proof (delta_trans _ _ _ _ _ _ _ D1 D2) as D12; simpl in D12.
  { unfold ret. intros E. injection E as <- <- <-. exact (Hearly _ _ _ D12). }
  destruct (negb (twst =? TW_MR_SLA_ACK)).
  { unfold ret. intros E. injection E as <- <- <-. exact (Hearly _ _ _ D12). }
  intros E. apply readBuf_loop_spec in E.
  destruct E as (ds & -> & [(Hlen & -> & D3) | (Hlen & Hcode & D3)]);
    pose proof (delta_trans _ _ _ _ _ _ _ D12 D3) as D; simpl in D;
    exists ds; split; [reflexivity | | reflexivity |].
  - split; [exact (proj2 D) | split; [lia | split]].
    + intros j Hj. apply store_from_outside. lia.
    + intros _. split; [reflexivity |]. exists (ws1 ++ ws2).
      destruct D as [D _]. now rewrite D, <- !app_assoc.
  - split; [exact (proj2 D) | split; [lia | split]].
    + intros j Hj. apply store_from_outside. lia.
    + intros [Heq _]. lia.
Qed.

End Coverage.

(** ** Transfers of any length on the register-file slave *)

(** Running the wait the goal has reached, and going on when it succeeded. *)
Ltac sl_wait :=
  match goal with
  | |- context [Fastwire_waitInt (mkWorld ?s ?t ?tmo)] =>
      let t' := fresh "t" in let E := fresh "E" in
      destruct (slave_waitInt s t tmo) as [t' E]; rewrite E; clear E;
      cbn [sl_twint c_bool]
  end.

Ltac sl_ok := change (1 =? 0) with false; cbv beta iota.

(** Running the call the goal has reached, by the lemma for it. *)
Ltac sl_call Ha :=
  let t' := fresh "t" in
  let E := fresh "E" in
  match goal with
  | |- context [address_retry (2 * ?a) TW_MT_SLA_NACK ?e1 ?e2 ?e3 2
                  (mkWorld (mkSlave ?a ?r ?p ?ph ?ti ?sr ?dr ?ms) ?t ?tmo)] =>
      destruct (slave_address_write e1 e2 e3 a r p ph ti sr dr ms t tmo Ha) as [t' E]
  | |- context [address_retry (2 * ?a + 1) TW_MR_SLA_NACK ?e1 ?e2 ?e3 2
                  (mkWorld (mkSlave ?a ?r ?p ?ph ?ti ?sr ?dr ?ms) ?t ?tmo)] =>
      destruct (slave_address_read e1 e2 e3 a r p ph ti sr dr ms t tmo Ha) as [t' E]
  | |- context [Fastwire_write ?v
                  (mkWorld (mkSlave ?a ?r ?p SetPointer ?ti ?sr ?dr ?ms) ?t ?tmo)] =>
      destruct (slave_write_pointer v a r p ti sr dr ms t tmo) as [t' E]
  | |- context [Fastwire_write ?v
                  (mkWorld (mkSlave ?a ?r ?p Store ?ti ?sr ?dr ?ms) ?t ?tmo)] =>
      destruct (slave_write_store v a r p ti sr dr ms t tmo) as [t' E]
  | |- context [Fastwire_stop (mkWorld (mkSlave ?a ?r ?p ?ph ?ti ?sr ?dr ?ms) ?t ?tmo)] =>
      destruct (slave_stop a r p ph ti sr dr ms t tmo) as [t' E]
  end;
  rewrite E; clear E.

Section SlaveTransfers.

Implicit Types (a ptr sr dr ms tmo : Z) (regs : Z -> Z) (ph : Phase) (ti : bool).
Implicit Types (s : Slave) (t : list Event).

Lemma slave_cmd_fetch_ack a regs ptr ti sr dr ms :
  slave_write TWCR 196 (mkSlave a regs ptr Fetch ti sr dr ms)
  = mkSlave a regs (to_uint8 (ptr + 1)) Fetch true TW_MR_DATA_ACK
      (to_uint8 (regs ptr)) ms.
Proof. reflexivity. Qed.

(** The receive loop fetches one register per pass and ends with STOP. *)
Lemma slave_readBuf_loop (num : Z) (n : nat) :
  forall (i : Z) (data : Z -> Z) a regs ptr ti sr dr ms t tmo,
    exists t' ptr' dr',
      readBuf_loop num n i data (mkWorld (mkSlave a regs ptr Fetch ti sr dr ms) t tmo)
      = ((0, fetch_seq regs ptr i n data),
         mkWorld (mkSlave a regs ptr' Idle false 0xF8 dr' ms) t' tmo).
Proof.
  induction n as [| n IH]; intros i data a regs ptr ti sr dr ms t tmo.
  - cbn [readBuf_loop fetch_seq]. unfold bind. sl_call I.
    eexists _, _, _. reflexivity.
  - cbn [readBuf_loop fetch_seq]. unfold bind.
    destruct (i =? num - 1).
    + rewrite slave_wr. change (to_uint8 CMD_SEND) with 132.
      rewrite slave_cmd_fetch_last. sl_wait. sl_ok.
      rewrite slave_rd_TWSR. cbn [sl_twsr].
      change (negb (Z.land (to_uint8 TW_MR_DATA_NACK) 248 =? TW_MR_DATA_ACK)
              && negb (Z.land (to_uint8 TW_MR_DATA_NACK) 248 =? TW_MR_DATA_NACK))
        with false.
      cbv beta iota. rewrite slave_rd_TWDR. cbn [sl_twdr]. rewrite to_uint8_idem.
      apply IH.
    + rewrite slave_wr. change (to_uint8 CMD_RECV_ACK) with 196.
      rewrite slave_cmd_fetch_ack. sl_wait. sl_ok.
      rewrite slave_rd_TWSR. cbn [sl_twsr].
      change (negb (Z.land (to_uint8 TW_MR_DATA_ACK) 248 =? TW_MR_DATA_ACK)
              && negb (Z.land (to_uint8 TW_MR_DATA_ACK) 248 =? TW_MR_DATA_NACK))
        with false.
      cbv beta iota. rewrite slave_rd_TWDR. cbn [sl_twdr]. rewrite to_uint8_idem.
      apply IH.
Qed.

Lemma slave_readBuf (reg num : Z) (data : Z -> Z) a regs ptr ph ti sr dr ms t tmo :
  0 <= a < 128 ->
  exists t' ptr' dr',
    Fastwire_readBuf (to_uint8 (Z.shiftl a 1)) reg data num
      (mkWorld (mkSlave a regs ptr ph ti sr dr ms) t tmo)
    = ((0, fetch_seq regs (to_uint8 reg) 0 (Z.to_nat num) data),
       mkWorld (mkSlave a regs ptr' Idle false 0xF8 dr' ms) t' tmo).
Proof.
  intros Ha. rewrite addr_write_byte by exact Ha.
  unfold Fastwire_readBuf, readBuf_select, readBuf_receive, bind.
  rewrite double_land_fe, double_lor_1 by exact Ha.
  sl_call Ha.
  change (negb (TW_MT_SLA_ACK =? TW_MT_SLA_ACK)) with false. cbv beta iota.
  rewrite slave_wr, slave_set_twdr, slave_wr. change (to_uint8 CMD_SEND) with 132.
  rewrite slave_cmd_pointer. sl_wait. sl_ok.
  rewrite slave_rd_TWSR. cbn [sl_twsr].
  change (negb (Z.land (to_uint8 TW_MT_DATA_ACK) 248 =? TW_MT_DATA_ACK)) with false.
  cbv beta iota. unfold ret at 1. change (negb (0 =? 0)) with false. cbv beta iota.
  sl_call Ha.
  change (negb (TW_MR_SLA_ACK =? TW_MR_SLA_ACK)) with false. cbv beta iota.
  apply slave_readBuf_loop.
Qed.

Lemma to_uint8_to_int8 (x : Z) : to_uint8 (to_int8 x) = to_uint8 x.
Proof.
  unfold to_uint8, to_int8. destruct (x mod 256 <? 128).
  - apply Z.mod_mod. lia.
  - rewrite <- (Z.mod_add (x mod 256 - 256) 1 256) by lia.
    replace (x mod 256 - 256 + 1 * 256) with (x mod 256) by lia.
    apply Z.mod_mod. lia.
Qed.

(** The clock of the slave stands still, so no read times out. *)
Lemma slave_readBytes (reg length timeout : Z) (data : Z -> Z)
  a regs ptr ph ti sr dr ms t tmo :
  0 <= a < 128 -> 0 <= length <= 255 ->
  exists t' ptr' dr',
    I2Cdev_readBytes a reg length data timeout
      (mkWorld (mkSlave a regs ptr ph ti sr dr ms) t tmo)
    = ((length, fetch_seq regs (to_uint8 reg) 0 (Z.to_nat length) data),
       mkWorld (mkSlave a regs ptr' Idle false 0xF8 dr' ms) t' tmo).
Proof.
  intros Ha Hlen. unfold I2Cdev_readBytes, bind.
  rewrite slave_millis.
  destruct (slave_readBuf reg length data a regs ptr ph ti sr dr ms t tmo Ha)
    as (t1 & ptr1 & dr1 & E1).
  rewrite E1. clear E1. change (0 =? 0) with true. cbv beta iota.
  assert (Hc : to_uint8 (to_int8 length) = length).
  { rewrite to_uint8_to_int8. unfold to_uint8. apply Z.mod_small. lia. }
  destruct (Z.gtb_spec timeout 0) as [Hpos | Hnpos].
  - rewrite slave_millis. cbn [sl_ms]. rewrite Z.sub_diag.
    change (to_uint32 0) with 0.
    destruct (Z.geb_spec 0 timeout) as [Hge | _]; [lia |].
    cbn [andb]. unfold ret. rewrite Hc. eexists _, _, _. reflexivity.
  - unfold ret. rewrite Hc. eexists _, _, _. reflexivity.
Qed.

(** The loop of [I2Cdev_writeBytes] stores one byte per pass. *)
Lemma slave_writeBytes_loop (n : nat) :
  forall (i : Z) (data : Z -> Z) a regs ptr ti sr dr ms t tmo,
    exists t' ptr' ti' sr' dr',
      writeBytes_loop n i data (mkWorld (mkSlave a regs ptr Store ti sr dr ms) t tmo)
      = (tt, mkWorld (mkSlave a (store_seq regs ptr i n data) ptr' Store ti' sr' dr' ms)
               t' tmo).
Proof.
  induction n as [| n IH]; intros i data a regs ptr ti sr dr ms t tmo.
  - eexists _, _, _, _, _. reflexivity.
  - cbn [writeBytes_loop store_seq]. unfold bind. sl_call I.
    rewrite to_uint8_idem. apply IH.
Qed.

Lemma slave_writeBytes (reg length : Z) (data : Z -> Z)
  a regs ptr ph ti sr dr ms t tmo :
  0 <= a < 128 ->
  exists t' ptr' dr',
    I2Cdev_writeBytes a reg length data
      (mkWorld (mkSlave a regs ptr ph ti sr dr ms) t tmo)
    = (1, mkWorld (mkSlave a (store_seq regs (to_uint8 reg) 0 (Z.to_nat length) data)
                     ptr' Idle false 0xF8 dr' ms) t' tmo).
Proof.
  intros Ha.
  unfold I2Cdev_writeBytes, Fastwire_beginTransmission, bind.
  rewrite Z.shiftl_mul_pow2 by lia. change (2 ^ 1) with 2. rewrite (Z.mul_comm a 2).
  sl_call Ha.
  change (negb (TW_MT_SLA_ACK =? TW_MT_SLA_ACK)) with false. cbv beta iota.
  unfold ret at 1. sl_call Ha.
  match goal with
  | |- context [writeBytes_loop ?n ?i ?d
                  (mkWorld (mkSlave ?a ?r ?p Store ?ti ?sr ?dr ?ms) ?t ?tmo)] =>
      destruct (slave_writeBytes_loop n i d a r p ti sr dr ms t tmo)
        as (t2 & ptr2 & ti2 & sr2 & dr2 & E2)
  end.
  rewrite E2. clear E2. sl_call Ha. eexists _, _, _. reflexivity.
Qed.

(** What the two sequences leave behind. *)

Lemma to_uint8_succ_add (p k : Z) : to_uint8 (to_uint8 (p + 1) + k) = to_uint8 (p + (k + 1)).
Proof.
  unfold to_uint8. rewrite Zplus_mod_idemp_l. f_equal. lia.
Qed.

Lemma fetch_seq_outside (n : nat) :
  forall regs (p i j : Z) (data : Z -> Z),
    j < i \/ i + Z.of_nat n <= j ->
    fetch_seq regs p i n data j = data j.
Proof.
  induction n as [| n IH]; intros regs p i j data Hj; [reflexivity |].
  cbn [fetch_seq]. rewrite IH by lia.
  unfold upd. destruct (Z.eqb_spec j i); [lia | reflexivity].
Qed.

Lemma fetch_seq_inside (n : nat) :
  forall regs (p i k : Z) (data : Z -> Z),
    0 <= p < 256 -> 0 <= k < Z.of_nat n ->
    fetch_seq regs p i n data (i + k) = to_uint8 (regs (to_uint8 (p + k))).
Proof.
  induction n as [| n IH]; intros regs p i k data Hp Hk; [lia |].
  cbn [fetch_seq]. destruct (Z.eq_dec k 0) as [-> | Hnz].
  - rewrite fetch_seq_outside by lia. unfold upd.
    replace (i + 0) with i by lia. rewrite Z.eqb_refl, Z.add_0_r.
    unfold to_uint8 at 3. now rewrite Z.mod_small by lia.
  - replace (i + k) with (i + 1 + (k - 1)) by lia.
    rewrite IH by (try lia; unfold to_uint8; apply Z.mod_pos_bound; lia).
    rewrite to_uint8_succ_add. do 3 f_equal. lia.
Qed.

Lemma store_seq_outside (n : nat) :
  forall regs (p i r : Z) (data : Z -> Z),
    (forall k, 0 <= k < Z.of_nat n -> r <> to_uint8 (p + k)) ->
    0 <= p < 256 ->
    store_seq regs p i n data r = regs r.
Proof.
  induction n as [| n IH]; intros regs p i r data Hr Hp; [reflexivity |].
  cbn [store_seq]. rewrite IH.
  - unfold upd. destruct (Z.eqb_spec r p) as [-> | _]; [| reflexivity].
    exfalso. apply (Hr 0); [lia |]. rewrite Z.add_0_r.
    unfold to_uint8. now rewrite Z.mod_small by lia.
  - intros k Hk. rewrite to_uint8_succ_add. apply Hr. lia.
  - unfold to_uint8. apply Z.mod_pos_bound. lia.
Qed.

Lemma store_seq_inside (n : nat) :
  forall regs (p i k : Z) (data : Z -> Z),
    0 <= p < 256 -> 0 <= k < Z.of_nat n -> Z.of_nat n <= 256 ->
    store_seq regs p i n data (to_uint8 (p + k)) = to_uint8 (data (i + k)).
Proof.
  induction n as [| n IH]; intros regs p i k data Hp Hk Hn; [lia |].
  cbn [store_seq]. destruct (Z.eq_dec k 0) as [-> | Hnz].
  - rewrite store_seq_outside.
    + rewrite !Z.add_0_r.
      replace (to_uint8 p) with p by (unfold to_uint8; now rewrite Z.mod_small by lia).
      unfold upd. now rewrite Z.eqb_refl.
    + intros k Hk'. rewrite to_uint8_succ_add, Z.add_0_r. unfold to_uint8.
      intros Heq. 
      assert (Hm : (p + (k + 1) - p) mod 256 = 0).
      { rewrite Zminus_mod, <- Heq, Z.sub_diag. reflexivity. }
      replace (p + (k + 1) - p) with (k + 1) in Hm by lia.
      rewrite Z.mod_small in Hm by lia. lia.
    + unfold to_uint8. apply Z.mod_pos_bound. lia.
  - replace (to_uint8 (p + k)) with (to_uint8 (to_uint8 (p + 1) + (k - 1)))
      by (rewrite to_uint8_succ_add; f_equal; lia).
    rewrite IH by (try lia; unfold to_uint8; apply Z.mod_pos_bound; lia).
    do 2 f_equal. lia.
Qed.

(** X6: a block written with [I2Cdev_writeBytes] is read back by
    [I2Cdev_readBytes].  On the register-file slave, for every address,
    register, length up to 255 and buffer: the write returns 1 and leaves
    every register outside the block as it was; the read of the same block
    returns the length and delivers the bytes written, and does not touch the
    caller's buffer outside the block. *)
Theorem slave_writeBytes_readBytes :
  forall (a reg length timeout : Z) (data buf regs : Z -> Z),
    0 <= a < 128 -> 0 <= length <= 255 ->
    exists w1 w2 buf',
      I2Cdev_writeBytes a reg length data (slave_world a regs) = (1, w1) /\
      I2Cdev_readBytes a reg length buf timeout w1 = ((length, buf'), w2) /\
      (forall j, 0 <= j < length -> buf' j = to_uint8 (data j)) /\
      (forall j, j < 0 \/ length <= j -> buf' j = buf j) /\
      (forall r, (forall k, 0 <= k < length -> r <> to_uint8 (to_uint8 reg + k)) ->
                 sl_regs (hw w1) r = regs r) /\
      sl_regs (hw w2) = sl_regs (hw w1).
Proof.
  intros a reg length timeout data buf regs Ha Hlen.
  assert (Hp : 0 <= to_uint8 reg < 256) by (unfold to_uint8; apply Z.mod_pos_bound; lia).
  destruct (slave_writeBytes reg length data a regs 0 Idle false 0xF8 0xFF 0 []
              I2CDEV_DEFAULT_READ_TIMEOUT Ha) as (t1 & ptr1 & dr1 & E1).
  set (regs1 := store_seq regs (to_uint8 reg) 0 (Z.to_nat length) data) in *.
  destruct (slave_readBytes reg length timeout buf a regs1 ptr1 Idle false 0xF8 dr1 0 t1
              I2CDEV_DEFAULT_READ_TIMEOUT Ha Hlen) as (t2 & ptr2 & dr2 & E2).
  eexists _, _, _.
  split; [exact E1 | split; [exact E2 | split; [| split; [| split]]]].
  - intros j Hj. replace j with (0 + j) at 1 by lia.
    rewrite fetch_seq_inside by lia. unfold regs1.
    rewrite store_seq_inside by lia. rewrite to_uint8_idem. reflexivity.
  - intros j Hj. apply fetch_seq_outside. lia.
  - intros r Hr. cbn [hw sl_regs]. unfold regs1. apply store_seq_outside; [| exact Hp].
    intros k Hk. apply Hr. lia.
  - reflexivity.
Qed.

End SlaveTransfers.

(** ** The count of I2Cdev_readBytes, single bits, and 16-bit fields *)

Section Counts.

Context {H : Type} {P : Platform H}.
Implicit Types w : World H.

Lemma to_int8_small (x : Z) : 0 <= x <= 127 -> to_int8 x = x.
Proof.
  intros Hx. unfold to_int8. rewrite Z.mod_small by lia.
  destruct (Z.ltb_spec x 128); lia.
Qed.

Lemma to_int8_large (x : Z) : 128 <= x <= 255 -> to_int8 x = x - 256.
Proof.
  intros Hx. unfold to_int8. rewrite Z.mod_small by lia.
  destruct (Z.ltb_spec x 128); lia.
Qed.

(** X7: the count of [I2Cdev_readBytes] for up to 127 bytes.  The result is
    [length] when [Fastwire_readBuf] returned 0 and 255 otherwise, whatever
    the timeout and however long the transfer took: the comparison
    [count < length] that guards the timeout is false after a read that
    returned 0, and a read that did not has the count at -1 already. *)
Theorem I2Cdev_readBytes_count :
  forall (devAddr regAddr length timeout t1 st : Z) (data data' : Z -> Z) w wm w1,
    0 <= length <= 127 ->
    millis w = (t1, wm) ->
    Fastwire_readBuf (to_uint8 (Z.shiftl devAddr 1)) regAddr data length wm
      = ((st, data'), w1) ->
    fst (I2Cdev_readBytes devAddr regAddr length data timeout w)
      = (if st =? 0 then length else 255, data').
Proof.
  intros devAddr regAddr length timeout t1 st data data' w wm w1 Hlen Em Er.
  unfold I2Cdev_readBytes, bind. rewrite Em, Er.
  rewrite to_int8_small by exact Hlen.
  destruct (st =? 0).
  - rewrite Z.ltb_irrefl.
    assert (Hc : to_uint8 length = length) by (unfold to_uint8; apply Z.mod_small; lia).
    destruct (timeout >? 0).
    + destruct (millis w1) as [now w2]. rewrite andb_false_r. unfold ret. simpl.
      now rewrite Hc.
    + unfold ret. simpl. now rewrite Hc.
  - destruct (timeout >? 0).
    + destruct (millis w1) as [now w2]. unfold ret.
      destruct (_ && _); reflexivity.
    + reflexivity.
Qed.

(** X8: the count of [I2Cdev_readBytes] from 128 bytes on.  [count] is an
    [int8_t], so a length of 128 or more is a negative count, which is less
    than [length]: when the transfer took [timeout] milliseconds or longer, a
    read that delivered every byte is reported as a failure (255), with the
    bytes in the caller's buffer all the same. *)
Theorem I2Cdev_readBytes_long_read_timeout :
  forall (devAddr regAddr length timeout t1 now : Z) (data data' : Z -> Z) w wm w1 w2,
    128 <= length <= 255 -> 0 < timeout ->
    millis w = (t1, wm) ->
    Fastwire_readBuf (to_uint8 (Z.shiftl devAddr 1)) regAddr data length wm
      = ((0, data'), w1) ->
    millis w1 = (now, w2) ->
    I2Cdev_readBytes devAddr regAddr length data timeout w
      = ((if to_uint32 (now - t1) >=? timeout then 255 else length, data'), w2).
Proof.
  intros devAddr regAddr length timeout t1 now data data' w wm w1 w2
         Hlen Hpos Em Er En.
  unfold I2Cdev_readBytes, bind. rewrite Em, Er. change (0 =? 0) with true.
  cbv beta iota. rewrite to_int8_large by exact Hlen.
  destruct (Z.gtb_spec timeout 0) as [_ | Hle]; [| lia].
  rewrite En.
  destruct (Z.ltb_spec (length - 256) length) as [_ | Hge]; [| lia].
  rewrite andb_true_r. unfold ret.
  destruct (to_uint32 (now - t1) >=? timeout).
  - reflexivity.
  - replace (to_uint8 (length - 256)) with length; [reflexivity |].
    unfold to_uint8. rewrite <- (Z.mod_add (length - 256) 1 256) by lia.
    replace (length - 256 + 1 * 256) with length by lia.
    symmetry. apply Z.mod_small. lia.
Qed.

(** *** Single bits *)

Lemma land_bit (x n : Z) :
  0 <= n -> Z.land x (bit n) = if Z.testbit x n then 2 ^ n else 0.
Proof.
  intros Hn. apply Z.bits_inj'. intros k Hk.
  rewrite Z.land_spec, bit_testbit by exact Hn.
  destruct (Z.eqb_spec n k) as [-> | Hne].
  - destruct (Z.testbit x k); [| now rewrite Z.bits_0].
    now rewrite Z.pow2_bits_true.
  - rewrite andb_false_r.
    destruct (Z.testbit x n); [| now rewrite Z.bits_0].
    symmetry. apply Z.pow2_bits_false. exact Hne.
Qed.

Lemma pow2_uint8 (n : Z) : 0 <= n < 8 -> to_uint8 (2 ^ n) = 2 ^ n.
Proof.
  intros Hn. unfold to_uint8. apply Z.mod_small. split; [lia |].
  change 256 with (2 ^ 8). apply Z.pow_lt_mono_r; lia.
Qed.

Lemma pow2_uint16 (n : Z) : 0 <= n < 16 -> to_uint16 (2 ^ n) = 2 ^ n.
Proof.
  intros Hn. unfold to_uint16. apply Z.mod_small. split; [lia |].
  change 65536 with (2 ^ 16). apply Z.pow_lt_mono_r; lia.
Qed.

(** X9: what [I2Cdev_readBit] and [I2Cdev_readBitW] store.  [*data] receives
    the register masked with [1 << bitNum]: 0 or [2 ^ bitNum], not 0 or 1.
    The store does not depend on the count: after a failed read it is computed
    from the local the read left untouched. *)
Theorem readBit_stores_masked_register :
  forall (devAddr regAddr bitNum timeout b wd : Z) (stack : Z -> Z) w,
    (0 <= bitNum < 8 ->
     forall count v w',
       I2Cdev_readBit devAddr regAddr bitNum timeout b w = ((count, v), w') ->
       exists b',
         I2Cdev_readByte devAddr regAddr b timeout w = ((count, b'), w') /\
         v = (if Z.testbit b' bitNum then 2 ^ bitNum else 0) /\
         (count <> 1 -> b' = b)) /\
    (0 <= bitNum < 15 ->
     forall count v w',
       I2Cdev_readBitW devAddr regAddr bitNum timeout wd stack w = ((count, v), w') ->
       exists wd',
         I2Cdev_readWord devAddr regAddr wd timeout stack w = ((count, wd'), w') /\
         v = (if Z.testbit wd' bitNum then 2 ^ bitNum else 0) /\
         (count <> 1 -> wd' = wd)).
Proof.
  intros devAddr regAddr bitNum timeout b wd stack w. split.
  - intros Hn count v w'. unfold I2Cdev_readBit, bind.
    destruct (I2Cdev_readByte devAddr regAddr b timeout w) as [[c b'] w1] eqn:E.
    unfold ret. intros E'. injection E' as <- <- <-.
    exists b'. split; [reflexivity | split].
    + rewrite land_bit by lia. destruct (Z.testbit b' bitNum); [| reflexivity].
      apply pow2_uint8. exact Hn.
    + intros Hc. apply I2Cdev_readByte_cases in E.
      destruct E as [E | [_ E]]; [contradiction | exact E].
  - intros Hn count v w'. unfold I2Cdev_readBitW, bind.
    destruct (I2Cdev_readWord devAddr regAddr wd timeout stack w) as [[c wd'] w1] eqn:E.
    unfold ret. intros E'. injection E' as <- <- <-.
    exists wd'. split; [reflexivity | split].
    + rewrite land_bit by lia. destruct (Z.testbit wd' bitNum); [| reflexivity].
      apply pow2_uint16. lia.
    + intros Hc. apply I2Cdev_readWord_cases in E.
      destruct E as [E | [_ E]]; [contradiction | exact E].
Qed.

(** X10: [I2Cdev_readBits] and [I2Cdev_readBitsW] store after a failed read
    too.  The count they test against 0 is 1 or 255, so the branch that
    leaves [*data] alone is never taken: after a failed read [*data] receives
    the field of the uninitialised local, whatever it held before. *)
Theorem readBits_stores_after_failed_read :
  forall (devAddr regAddr bitStart length data timeout b wd : Z) (stack : Z -> Z) w,
    (forall b' w',
       I2Cdev_readByte devAddr regAddr b timeout w = ((255, b'), w') ->
       I2Cdev_readBits devAddr regAddr bitStart length data timeout b w
         = ((255, readBits_field bitStart length b), w')) /\
    (forall wd' w',
       I2Cdev_readWord devAddr regAddr wd timeout stack w = ((255, wd'), w') ->
       I2Cdev_readBitsW devAddr regAddr bitStart length data timeout wd stack w
         = ((255, readBitsW_field bitStart length wd), w')) /\
    fst (fst (I2Cdev_readBits devAddr regAddr bitStart length data timeout b w)) <> 0 /\
    fst (fst (I2Cdev_readBitsW devAddr regAddr bitStart length data timeout wd stack w))
      <> 0.
Proof.
  intros devAddr regAddr bitStart length data timeout b wd stack w.
  split; [| split; [| split]].
  - intros b' w' E. unfold I2Cdev_readBits, bind. rewrite E.
    apply I2Cdev_readByte_cases in E. destruct E as [E | [_ ->]]; [discriminate E |].
    reflexivity.
  - intros wd' w' E. unfold I2Cdev_readBitsW, bind. rewrite E.
    apply I2Cdev_readWord_cases in E. destruct E as [E | [_ ->]]; [discriminate E |].
    reflexivity.
  - unfold I2Cdev_readBits, bind.
    destruct (I2Cdev_readByte devAddr regAddr b timeout w) as [[c b'] w1] eqn:E.
    apply I2Cdev_readByte_cases in E. destruct E as [-> | [-> _]]; simpl; lia.
  - unfold I2Cdev_readBitsW, bind.
    destruct (I2Cdev_readWord devAddr regAddr wd timeout stack w) as [[c wd'] w1] eqn:E.
    apply I2Cdev_readWord_cases in E. destruct E as [-> | [-> _]]; simpl; lia.
Qed.

End Counts.

(** ** 16-bit fields *)

Lemma to_uint16_bits (x k : Z) :
  Z.testbit (to_uint16 x) k = (k <? 16) && Z.testbit x k.
Proof.
  unfold to_uint16.
  destruct (Z.ltb_spec k 16) as [Hk | Hk]; cbn [andb]; change 65536 with (2 ^ 16).
  - destruct (Z.ltb_spec k 0) as [Hneg | Hpos].
    + now rewrite !Z.testbit_neg_r.
    + now apply Z.mod_pow2_bits_low.
  - apply Z.mod_pow2_bits_high. lia.
Qed.

Lemma field_mask16_bits (shift length k : Z) :
  0 <= length -> 0 <= shift -> shift + length <= 16 ->
  Z.testbit (to_uint16 (Z.shiftl (bit length - 1) shift)) k =
  (shift <=? k) && (k <? shift + length).
Proof.
  intros Hl Hs Hfit.
  rewrite to_uint16_bits, bit_ones by assumption.
  destruct (Z.ltb_spec k 0) as [Hneg | Hpos].
  - rewrite Z.testbit_neg_r by assumption.
    destruct (Z.leb_spec shift k); [lia |]. now rewrite andb_false_r.
  - rewrite Z.shiftl_spec by assumption.
    destruct (Z.leb_spec shift k) as [Hge | Hlt].
    + rewrite Z.testbit_ones_nonneg by lia.
      destruct (Z.ltb_spec (k - shift) length), (Z.ltb_spec k (shift + length)),
        (Z.ltb_spec k 16); simpl; try reflexivity; lia.
    + rewrite Z.testbit_neg_r by lia. now rewrite andb_false_r.
Qed.

Lemma readBitsW_field_bits (bitStart length w k : Z) :
  0 <= length <= bitStart + 1 -> bitStart + 1 <= 16 -> 0 <= k ->
  Z.testbit (readBitsW_field bitStart length w) k =
  (k <? length) && Z.testbit w (k + (bitStart - length + 1)).
Proof.
  intros Hl Hb Hk. unfold readBitsW_field.
  set (shift := bitStart - length + 1).
  assert (Hs : 0 <= shift) by (unfold shift; lia).
  assert (Hfit : shift + length <= 16) by (unfold shift; lia).
  rewrite to_uint16_bits, Z.shiftr_spec, to_uint16_bits, Z.land_spec by assumption.
  rewrite field_mask16_bits by lia.
  destruct (Z.ltb_spec k 16), (Z.ltb_spec (k + shift) 16), (Z.leb_spec shift (k + shift)),
    (Z.ltb_spec (k + shift) (shift + length)), (Z.ltb_spec k length);
    simpl; rewrite ?andb_true_r, ?andb_false_r; try reflexivity; lia.
Qed.

Lemma readBitsW_field_div_mod (bitStart length w : Z) :
  0 <= length <= bitStart + 1 -> bitStart + 1 <= 16 ->
  readBitsW_field bitStart length w = (w / 2 ^ (bitStart - length + 1)) mod 2 ^ length.
Proof.
  intros Hl Hb. apply Z.bits_inj'. intros k Hk.
  rewrite readBitsW_field_bits by assumption.
  set (shift := bitStart - length + 1).
  assert (Hs : 0 <= shift) by (unfold shift; lia).
  rewrite <- Z.shiftr_div_pow2, <- Z.land_ones by lia.
  rewrite Z.land_spec, Z.shiftr_spec, Z.testbit_ones_nonneg by lia.
  now rewrite andb_comm.
Qed.

Lemma writeBitsW_merge_bits (bitStart length v w k : Z) :
  0 <= length <= bitStart + 1 -> bitStart + 1 <= 16 -> 0 <= k ->
  Z.testbit (writeBitsW_merge bitStart length v w) k =
  if (bitStart - length + 1 <=? k) && (k <=? bitStart)
  then Z.testbit v (k - (bitStart - length + 1))
  else (k <? 16) && Z.testbit w k.
Proof.
  intros Hl Hb Hk. unfold writeBitsW_merge.
  set (shift := bitStart - length + 1).
  assert (Hs : 0 <= shift) by (unfold shift; lia).
  assert (Hfit : shift + length <= 16) by (unfold shift; lia).
  pose proof (field_mask16_bits shift length k ltac:(lia) Hs Hfit) as Hmask.
  set (mask := to_uint16 (Z.shiftl (bit length - 1) shift)) in *.
  rewrite to_uint16_bits, Z.lor_spec, !to_uint16_bits, !Z.land_spec, Z.lnot_spec,
    to_uint16_bits, Z.shiftl_spec, Hmask by lia.
  replace (k <? shift + length) with (k <=? bitStart)
    by (unfold shift;
        destruct (Z.leb_spec k bitStart),
                 (Z.ltb_spec k (bitStart - length + 1 + length)); lia).
  destruct (Z.leb_spec shift k), (Z.leb_spec k bitStart), (Z.ltb_spec k 16);
    simpl; rewrite ?andb_true_r, ?andb_false_r, ?orb_false_r; try reflexivity; lia.
Qed.

Lemma writeBitsW_merge_field (bitStart length v w : Z) :
  0 <= length <= bitStart + 1 -> bitStart + 1 <= 16 -> 0 <= v < 2 ^ length ->
  readBitsW_field bitStart length (writeBitsW_merge bitStart length v w) = v.
Proof.
  intros Hl Hb Hv. apply Z.bits_inj'. intros k Hk.
  rewrite readBitsW_field_bits, writeBitsW_merge_bits by lia.
  set (shift := bitStart - length + 1).
  assert (Hs : 0 <= shift) by (unfold shift; lia).
  replace (k + shift - shift) with k by lia.
  destruct (Z.ltb_spec k length) as [Hin | Hout]; simpl.
  - destruct (Z.leb_spec shift (k + shift)), (Z.leb_spec (k + shift) bitStart);
      simpl; try reflexivity; unfold shift in *; lia.
  - symmetry. destruct (Z.eq_dec v 0) as [-> | Hnz]; [apply Z.bits_0 |].
    apply Z.bits_above_log2; [lia |].
    apply Z.log2_lt_pow2; [lia |].
    apply Z.lt_le_trans with (2 ^ length); [lia |].
    apply Z.pow_le_mono_r; lia.
Qed.

Section Words.

Context {H : Type} {P : Platform H}.
Implicit Types w : World H.

(** X11: the field [I2Cdev_readBitsW] stores.  When the read of the register
    succeeds with the word [wd], [*data] receives bits [bitStart] down to
    [bitStart - length + 1] of [wd], right-aligned.  The field lies below bit
    15, where the [int] arithmetic of the mask does not overflow. *)
Theorem readBitsW_right_aligned_field :
  forall (devAddr regAddr bitStart length data timeout wd0 wd : Z) (stack : Z -> Z)
         w w',
    0 <= length <= bitStart + 1 -> bitStart + 1 <= 15 ->
    I2Cdev_readWord devAddr regAddr wd0 timeout stack w = ((1, wd), w') ->
    I2Cdev_readBitsW devAddr regAddr bitStart length data timeout wd0 stack w
      = ((1, (wd / 2 ^ (bitStart - length + 1)) mod 2 ^ length), w').
Proof.
  intros devAddr regAddr bitStart length data timeout wd0 wd stack w w' Hl Hb E.
  unfold I2Cdev_readBitsW, bind. rewrite E.
  change (negb (1 =? 0)) with true. cbv beta iota zeta. unfold ret.
  rewrite <- readBitsW_field_div_mod by lia. reflexivity.
Qed.

(** X12: [I2Cdev_writeBitsW] replaces the field and nothing else.  After a
    read that returned the word [wd], the call is the write of [wd] with bits
    [bitStart] down to [bitStart - length + 1] replaced by [v]: the field of
    the word written is [v], and every other bit is the bit of [wd]. *)
Theorem writeBitsW_replaces_field :
  forall (fuel : nat) (devAddr regAddr bitStart length v wd0 wd : Z) (stack : Z -> Z)
         w0 w1,
    0 <= length <= bitStart + 1 -> bitStart + 1 <= 15 -> 0 <= v < 2 ^ length ->
    I2Cdev_readWord devAddr regAddr wd0 (I2Cdev_readTimeout w0) stack w0
      = ((1, wd), w1) ->
    let merged := writeBitsW_merge bitStart length v wd in
    I2Cdev_writeBitsW fuel devAddr regAddr bitStart length v wd0 stack w0
      = I2Cdev_writeWord fuel devAddr regAddr merged w1 /\
    (merged / 2 ^ (bitStart - length + 1)) mod 2 ^ length = v /\
    (forall k, 0 <= k < 16 -> k < bitStart - length + 1 \/ bitStart < k ->
       Z.testbit merged k = Z.testbit wd k).
Proof.
  intros fuel devAddr regAddr bitStart length v wd0 wd stack w0 w1 Hl Hb Hv E merged.
  split; [| split].
  - unfold I2Cdev_writeBitsW, bind, default_timeout. rewrite E. reflexivity.
  - rewrite <- readBitsW_field_div_mod by lia. apply writeBitsW_merge_field; lia.
  - intros k Hk Hout. unfold merged. rewrite writeBitsW_merge_bits by lia.
    destruct (Z.leb_spec (bitStart - length + 1) k), (Z.leb_spec k bitStart),
      (Z.ltb_spec k 16); simpl; try reflexivity; lia.
Qed.

End Words.

(** ** Single bits and words on the register-file slave *)

Section SlaveRegisters.

Implicit Types (a ptr sr dr ms tmo : Z) (regs : Z -> Z) (ph : Phase) (ti : bool).

(** X13: [I2Cdev_writeBit] on the register-file slave.  The call returns 1;
    bit [bitNum] of the register is set when [data] is not 0 and cleared when
    it is, the other bits of the register and all other registers are as
    before. *)
Theorem slave_writeBit_changes_one_bit :
  forall (a reg bitNum v b0 : Z) (regs : Z -> Z),
    0 <= a < 128 -> 0 <= bitNum < 8 ->
    exists w1,
      I2Cdev_writeBit a reg bitNum v b0 (slave_world a regs) = (1, w1) /\
      (forall r, r <> to_uint8 reg -> sl_regs (hw w1) r = regs r) /\
      (forall k, 0 <= k ->
         Z.testbit (sl_regs (hw w1) (to_uint8 reg)) k =
         if k =? bitNum then negb (v =? 0)
         else (k <? 8) && Z.testbit (regs (to_uint8 reg)) k).
Proof.
  intros a reg bitNum v b0 regs Ha Hn.
  destruct (slave_readByte reg b0 I2CDEV_DEFAULT_READ_TIMEOUT a regs 0 Idle false 0xF8
              0xFF 0 [] I2CDEV_DEFAULT_READ_TIMEOUT Ha) as [t1 E1].
  set (b := to_uint8 (regs (to_uint8 reg))) in *.
  set (payload := to_uint8 (if negb (v =? 0) then Z.lor b (bit bitNum)
                            else Z.land b (Z.lnot (bit bitNum)))).
  destruct (slave_writeByte reg payload a regs (to_uint8 (to_uint8 reg + 1)) Idle false
              0xF8 b 0 t1 I2CDEV_DEFAULT_READ_TIMEOUT Ha) as [t2 E2].
  eexists. split; [| split].
  - unfold I2Cdev_writeBit, bind, default_timeout, slave_world, slave_idle.
    cbn [I2Cdev_readTimeout]. rewrite E1. cbv beta iota. fold payload. exact E2.
  - intros r Hr. cbn [hw sl_regs]. unfold upd.
    destruct (Z.eqb_spec r (to_uint8 reg)); [contradiction | reflexivity].
  - intros k Hk. cbn [hw sl_regs]. rewrite upd_same. unfold payload, b.
    rewrite !to_uint8_bits.
    destruct (Z.eqb_spec k bitNum) as [-> | Hne].
    + destruct (Z.ltb_spec bitNum 8) as [_ | Hge]; [| lia]. cbn [andb].
      destruct (negb (v =? 0)).
      * rewrite Z.lor_spec, bit_testbit, Z.eqb_refl by lia. apply orb_true_r.
      * rewrite Z.land_spec, Z.lnot_spec, bit_testbit, Z.eqb_refl by lia.
        apply andb_false_r.
    + destruct (negb (v =? 0)).
      * rewrite Z.lor_spec, bit_testbit, to_uint8_bits by lia.
        destruct (Z.eqb_spec bitNum k) as [Heq | _]; [congruence |].
        rewrite orb_false_r. now destruct (k <? 8).
      * rewrite Z.land_spec, Z.lnot_spec, bit_testbit, to_uint8_bits by lia.
        destruct (Z.eqb_spec bitNum k) as [Heq | _]; [congruence |].
        cbn [negb]. rewrite andb_true_r. now destruct (k <? 8).
Qed.

(** X14: [I2Cdev_writeWord] on the register-file slave.  With fuel for two
    passes of the loop the call returns 1; the high byte of the word is in
    register [regAddr] and the low byte in the register after it. *)
Theorem slave_writeWord_stores_high_byte_first :
  forall (fuel : nat) (a reg v : Z) (regs : Z -> Z),
    0 <= a < 128 -> (2 <= fuel)%nat ->
    exists w1,
      I2Cdev_writeWord fuel a reg v (slave_world a regs) = (Some 1, w1) /\
      sl_regs (hw w1) =
        upd (upd regs (to_uint8 reg) (to_uint8 (Z.shiftr v 8)))
            (to_uint8 (to_uint8 reg + 1)) (to_uint8 v).
Proof.
  intros fuel a reg v regs Ha Hfuel.
  destruct fuel as [| [| fuel]]; try lia.
  unfold I2Cdev_writeWord, I2Cdev_writeWords, Fastwire_beginTransmission, bind,
    slave_world, slave_idle.
  rewrite Z.shiftl_mul_pow2 by lia. change (2 ^ 1) with 2. rewrite (Z.mul_comm a 2).
  sl_call Ha.
  change (negb (TW_MT_SLA_ACK =? TW_MT_SLA_ACK)) with false. cbv beta iota.
  unfold ret at 1. sl_call Ha.
  cbn [writeWords_loop]. change (0 <? 1 * 2) with true. cbv beta iota. unfold bind.
  sl_call Ha. sl_call Ha.
  change (negb (0 =? 0)) with false. cbv beta iota.
  change (to_uint8 (to_uint8 (0 + 1) + 1) <? 1 * 2) with false. cbv beta iota.
  unfold ret at 1. sl_call Ha.
  rewrite !to_uint8_idem. eexists. split; reflexivity.
Qed.

End SlaveRegisters.

(** ** Writes on any bus, the bit rate, and the clock *)

Section Setup.

Context {H : Type} {P : Platform H}.
Implicit Types w : World H.

Lemma bytes_stores_TWDR (n : nat) :
  forall (i : Z) (data : Z -> Z),
    writes_to TWDR (bytes_stores n i data) = data_bytes n i data.
Proof.
  induction n as [| n IH]; intros i data; [reflexivity |].
  simpl. now rewrite IH, to_uint8_idem.
Qed.

(** X15: [I2Cdev_writeBytes] on any bus.  Whatever the bus answers, and
    whether or not the address phase succeeded, the call puts the register
    address and all [length] bytes of the buffer into TWDR in order, after the
    address byte of at most three attempts; its last store is the STOP
    command; it loads nothing from TWDR; and it returns 1. *)
Theorem I2Cdev_writeBytes_sends_every_byte :
  forall (devAddr regAddr length : Z) (data : Z -> Z) w,
    let r := I2Cdev_writeBytes devAddr regAddr length data w in
    fst r = 1 /\
    (exists k,
       (k <= 3)%nat /\
       writes_to TWDR (trace (snd r)) =
         writes_to TWDR (trace w) ++ repeat (to_uint8 (Z.shiftl devAddr 1)) k
           ++ to_uint8 regAddr :: data_bytes (Z.to_nat length) 0 data) /\
    (exists pre, stores (trace (snd r)) = pre ++ [RegWrite TWCR (to_uint8 CMD_STOP)]) /\
    reads_from TWDR (trace (snd r)) = reads_from TWDR (trace w).
Proof.
  intros devAddr regAddr length data w r.
  destruct (I2Cdev_writeBytes devAddr regAddr length data w) as [c w'] eqn:E.
  subst r. cbn [fst snd]. apply I2Cdev_writeBytes_spec in E.
  destruct E as (-> & ws & k & Hk & Hw & D).
  split; [reflexivity | split; [| split]].
  - exists k. split; [exact Hk |].
    rewrite (delta_writes_to _ _ _ _ TWDR D), !writes_to_app, Hw, bytes_stores_TWDR.
    simpl. now rewrite app_nil_r.
  - destruct D as [D _]. rewrite D.
    exists (stores (trace w) ++ ws ++ send_stores regAddr
              ++ bytes_stores (Z.to_nat length) 0 data).
    now rewrite <- !app_assoc.
  - destruct D as [_ D]. now rewrite D, app_nil_r.
Qed.

(** X16: the bit rate [Fastwire_setup] programs.  For 31 to 1000 kHz the
    value stored to TWBR fits the register, and with the 16 MHz clock and the
    prescaler at 1 the rate [16000 / (16 + 2 * TWBR)] it selects is the
    lowest one the divider offers that is not below [khz].  PORTC changes in
    bits 4 and 5 only, and the TWI is enabled last. *)
Theorem Fastwire_setup_bit_rate :
  forall (khz pullup portc : Z),
    31 <= khz <= 1000 ->
    exists portc' twbr,
      Fastwire_setup khz pullup portc =
        Some [(SU_TWCR, 0); (SU_PORTC, portc'); (SU_TWSR, 0); (SU_TWBR, twbr);
              (SU_TWCR, to_uint8 (bit TWEN))] /\
      0 <= twbr <= 250 /\
      khz * (16 + 2 * twbr) <= 16000 < khz * (16 + 2 * (twbr + 1)) /\
      (forall k, 0 <= k ->
         Z.testbit portc' k =
         if (k =? 4) || (k =? 5) then negb (pullup =? 0)
         else (k <? 8) && Z.testbit portc k).
Proof.
  intros khz pullup portc Hk.
  unfold Fastwire_setup. destruct (Z.eqb_spec khz 0) as [Hz | _]; [lia |].
  set (q := 16000 / khz).
  assert (Hq : khz * q <= 16000 < khz * (q + 1)).
  { unfold q. pose proof (Z.mul_div_le 16000 khz ltac:(lia)).
    pose proof (Z.mul_succ_div_gt 16000 khz ltac:(lia)). lia. }
  assert (Hq16 : 16 <= q <= 516) by nia.
  set (T := (q - 16) / 2).
  assert (HT : 2 * T <= q - 16 < 2 * (T + 1)).
  { unfold T. pose proof (Z.mul_div_le (q - 16) 2 ltac:(lia)).
    pose proof (Z.mul_succ_div_gt (q - 16) 2 ltac:(lia)). lia. }
  assert (Hquot : Z.quot (Z.quot 16000 khz - 16) 2 = T).
  { rewrite (Z.quot_div_nonneg 16000 khz) by lia. fold q.
    rewrite Z.quot_div_nonneg by lia. reflexivity. }
  rewrite Hquot.
  assert (HT8 : to_uint8 T = T) by (unfold to_uint8; apply Z.mod_small; lia).
  rewrite HT8. change (to_uint8 0) with 0.
  eexists _, T. split; [reflexivity |].
  split; [lia | split; [nia |]].
  intros k Hk0. rewrite to_uint8_bits.
  assert (Hm : Z.testbit (Z.lor (bit 4) (bit 5)) k = (k =? 4) || (k =? 5)).
  { rewrite Z.lor_spec, !bit_testbit by lia.
    now rewrite (Z.eqb_sym 4 k), (Z.eqb_sym 5 k). }
  destruct (negb (pullup =? 0)).
  - rewrite Z.lor_spec, Hm. destruct ((k =? 4) || (k =? 5)) eqn:E45.
    + rewrite orb_true_r, andb_true_r.
      destruct (Z.ltb_spec k 8) as [_ | Hge]; [reflexivity |].
      destruct (Z.eqb_spec k 4), (Z.eqb_spec k 5); simpl in E45;
        try discriminate E45; lia.
    + now rewrite orb_false_r.
  - rewrite Z.land_spec, Z.lnot_spec, Hm by lia.
    destruct ((k =? 4) || (k =? 5)); cbn [negb].
    + now rewrite !andb_false_r.
    + now rewrite andb_true_r.
Qed.

End Setup.

(** *** msec.c *)

Lemma to_uint32_idem (x : Z) : to_uint32 (to_uint32 x) = to_uint32 x.
Proof. unfold to_uint32. apply Z.mod_mod. lia. Qed.

Lemma ticks_add (n : nat) (m : Z) :
  Nat.iter (S n) TIMER2_OVF_vect m = to_uint32 (m + Z.of_nat (S n)).
Proof.
  induction n as [| n IH].
  - reflexivity.
  - change (Nat.iter (S (S n)) TIMER2_OVF_vect m)
      with (TIMER2_OVF_vect (Nat.iter (S n) TIMER2_OVF_vect m)).
    rewrite IH. unfold TIMER2_OVF_vect, to_uint32.
    rewrite Zplus_mod_idemp_l. f_equal. lia.
Qed.

(** X17: the clock of msec.c.  After [n] timer interrupts the difference of
    two readings of [millis()], taken as the [uint32_t] it is in
    [I2Cdev_readBytes], is [n] modulo 2^32, also when the counter has wrapped
    in between; and the counter stays a [uint32_t]. *)
Theorem millis_difference_counts_ticks :
  forall (n : nat) (msec : Z),
    0 <= msec < 2 ^ 32 ->
    let later := Nat.iter n TIMER2_OVF_vect msec in
    to_uint32 (msec_millis later - msec_millis msec) = to_uint32 (Z.of_nat n) /\
    0 <= msec_millis later < 2 ^ 32.
Proof.
  intros n msec Hm later. subst later. unfold msec_millis.
  destruct n as [| n].
  - simpl Nat.iter. rewrite Z.sub_diag. split; [reflexivity | exact Hm].
  - rewrite ticks_add. split.
    + unfold to_uint32. rewrite Zminus_mod_idemp_l. f_equal. lia.
    + unfold to_uint32. change (2 ^ 32) with 4294967296.
      apply Z.mod_pos_bound. lia.
Qed.

(** * The further properties at concrete inputs *)

(** X3 at a concrete input: the write-address phase NACKed three times. *)
Lemma Fastwire_readBuf_codes_witness :
  let data := fun _ : Z => 0xEE in
  let w := scripted_world three_nacks_script in
  let w' := snd (Fastwire_readBuf 0xD0 reg_example data 1 w) in
  Fastwire_readBuf 0xD0 reg_example data 1 w = ((19, data), w') /\
  (19 = 0 \/ 16 <= 19 <= 26 \/ 19 mod 8 = 0) /\
  reads_from TWDR (trace w') = reads_from TWDR (trace w).
Proof.
  intros data w w'.
  assert (E : Fastwire_readBuf 0xD0 reg_example data 1 w = ((19, data), w'))
    by (vm_compute; reflexivity).
  destruct (Fastwire_readBuf_codes (H := Scripted) 0xD0 reg_example 1 19 data data w w' E)
    as [T1 T2].
  assert (Hin : In 19 [17; 18; 19; 20; 21; 22; 23; 25]) by (simpl; auto).
  exact (conj E (conj T1 (proj2 (T2 Hin)))).
Defined.

(** X4 at a concrete input: two bytes written to the slave. *)
Lemma Fastwire_writeBuf_spec_witness :
  let w := slave_world dev_example regs_example in
  let w' := snd (Fastwire_writeBuf 0xD0 reg_block bytes_example 2 w) in
  Fastwire_writeBuf 0xD0 reg_block bytes_example 2 w = (0, w') /\
  In 0 [0; 1; 2; 3; 4; 5; 6; 7; 8] /\
  writes_to TWDR (trace w') = [0xD0; 0x3B; 0xAA; 0xBB] /\
  writes_to TWCR (trace w') = [180; 132; 132; 132; 132] /\
  reads_from TWDR (trace w') = [].
Proof.
  intros w w'.
  assert (E : Fastwire_writeBuf 0xD0 reg_block bytes_example 2 w = (0, w'))
    by (vm_compute; reflexivity).
  destruct (Fastwire_writeBuf_spec (H := Slave) 0xD0 reg_block 2 0 bytes_example w w' E)
    as (T1 & _ & T3 & _).
  split; [exact E | split; [exact T1 | split; [| split; [| exact T3]]]];
    vm_compute; reflexivity.
Defined.

(** X5 at a concrete input: a two-byte read that delivers 0x11 and 0x22. *)
Lemma Fastwire_readBuf_buffer_witness :
  let data := fun _ : Z => 0xEE in
  let w := scripted_world (read_script [0x11; 0x22]) in
  let r := Fastwire_readBuf 0xD0 reg_block data 2 w in
  r = ((0, snd (fst r)), snd r) /\
  map (snd (fst r)) [0; 1; 2] = [0x11; 0x22; 0xEE] /\
  exists ds,
    snd (fst r) = store_from data 0 ds /\
    reads_from TWDR (trace (snd r)) = reads_from TWDR (trace w) ++ ds /\
    (List.length ds <= Z.to_nat 2)%nat.
Proof.
  intros data w r.
  assert (E : Fastwire_readBuf 0xD0 reg_block data 2 w = ((0, snd (fst r)), snd r))
    by (vm_compute; reflexivity).
  destruct (Fastwire_readBuf_buffer (H := Scripted) 0xD0 reg_block 2 0 data (snd (fst r))
              w (snd r) E) as (ds & T1 & T2 & T3 & _).
  split; [exact E | split; [vm_compute; reflexivity |]].
  exists ds. exact (conj T1 (conj T2 T3)).
Defined.

(** X6 at a concrete input: two bytes at registers 0x3B and 0x3C. *)
Lemma slave_writeBytes_readBytes_witness :
  (0 <= dev_example < 128 /\ 0 <= 2 <= 255) /\
  exists w1 w2 buf',
    I2Cdev_writeBytes dev_example reg_block 2 bytes_example
      (slave_world dev_example regs_example) = (1, w1) /\
    I2Cdev_readBytes dev_example reg_block 2 (fun _ => 0xEE) 1000 w1 = ((2, buf'), w2) /\
    (forall j, 0 <= j < 2 -> buf' j = to_uint8 (bytes_example j)) /\
    (forall j, j < 0 \/ 2 <= j -> buf' j = 0xEE).
Proof.
  assert (Ha : 0 <= dev_example < 128) by (unfold dev_example; lia).
  assert (Hl : 0 <= 2 <= 255) by lia.
  split; [exact (conj Ha Hl) |].
  destruct (slave_writeBytes_readBytes dev_example reg_block 2 1000 bytes_example
              (fun _ => 0xEE) regs_example Ha Hl)
    as (w1 & w2 & buf' & T1 & T2 & T3 & T4 & _).
  exists w1, w2, buf'. exact (conj T1 (conj T2 (conj T3 T4))).
Defined.

(** X7 at concrete inputs: a read of two bytes that succeeds, and one whose
    address is not acknowledged; the timeout is 1 ms. *)
Lemma I2Cdev_readBytes_count_witness :
  let data := fun _ : Z => 0xEE in
  let w := scripted_world (read_script [0x11; 0x22]) in
  let v := scripted_world three_nacks_script in
  0 <= 2 <= 127 /\
  fst (fst (I2Cdev_readBytes dev_example reg_block 2 data 1 w)) = 2 /\
  fst (fst (I2Cdev_readBytes dev_example reg_block 2 data 1 v)) = 255.
Proof.
  intros data w v.
  assert (Hl : 0 <= 2 <= 127) by lia.
  assert (Em : millis w = (0, snd (millis w))) by (vm_compute; reflexivity).
  assert (Er : Fastwire_readBuf (to_uint8 (Z.shiftl dev_example 1)) reg_block data 2
                 (snd (millis w))
               = ((0, snd (fst (Fastwire_readBuf (to_uint8 (Z.shiftl dev_example 1))
                                  reg_block data 2 (snd (millis w))))),
                  snd (Fastwire_readBuf (to_uint8 (Z.shiftl dev_example 1))
                         reg_block data 2 (snd (millis w)))))
    by (vm_compute; reflexivity).
  assert (Fm : millis v = (0, snd (millis v))) by (vm_compute; reflexivity).
  assert (Fr : Fastwire_readBuf (to_uint8 (Z.shiftl dev_example 1)) reg_block data 2
                 (snd (millis v))
               = ((19, data),
                  snd (Fastwire_readBuf (to_uint8 (Z.shiftl dev_example 1))
                         reg_block data 2 (snd (millis v)))))
    by (vm_compute; reflexivity).
  pose proof (I2Cdev_readBytes_count (H := Scripted) dev_example reg_block 2 1 0 0 data _
                w _ _ Hl Em Er) as T1.
  pose proof (I2Cdev_readBytes_count (H := Scripted) dev_example reg_block 2 1 0 19 data _
                v _ _ Hl Fm Fr) as T2.
  split; [exact Hl |]. split.
  - exact (f_equal fst T1).
  - exact (f_equal fst T2).
Defined.

(** X8 at a concrete input: 128 bytes arrive, and the clock has advanced by
    1000 ms between the two calls of [millis()]; the timeout is 1000 ms. *)
Lemma I2Cdev_readBytes_long_read_timeout_witness :
  let P := ticking_platform 1000 in
  let data := fun _ : Z => 0xEE in
  let w := scripted_world (read_script (repeat 0x11 128)) in
  let r := @I2Cdev_readBytes Scripted P dev_example reg_block 128 data 1000 w in
  (128 <= 128 <= 255 /\ 0 < 1000) /\
  fst (fst r) = 255 /\
  map (snd (fst r)) [0; 1; 127; 128] = [0x11; 0x11; 0x11; 0xEE].
Proof.
  intros P data w r.
  assert (Hl : 128 <= 128 <= 255) by lia.
  assert (Ht : 0 < 1000) by lia.
  set (wm := snd (@millis Scripted P w)).
  set (rb := @Fastwire_readBuf Scripted P (to_uint8 (Z.shiftl dev_example 1)) reg_block
               data 128 wm).
  assert (Em : @millis Scripted P w = (0, wm)) by (vm_compute; reflexivity).
  assert (Er : rb = ((0, snd (fst rb)), snd rb)) by (vm_compute; reflexivity).
  assert (En : @millis Scripted P (snd rb) = (1000, snd (@millis Scripted P (snd rb))))
    by (vm_compute; reflexivity).
  pose proof (@I2Cdev_readBytes_long_read_timeout Scripted P dev_example reg_block 128
                1000 0 1000 data (snd (fst rb)) w wm (snd rb) _ Hl Ht Em Er En) as T.
  split; [exact (conj Hl Ht) |]. split.
  - exact (f_equal (fun x => fst (fst x)) T).
  - vm_compute. reflexivity.
Defined.

(** X9 at concrete inputs: the register holds 0b01101001 and bit 3 is read;
    the word read is 0x1200 and bit 9 is read. *)
Lemma readBit_stores_masked_register_witness :
  let w := scripted_world (read_script [0x69]) in
  let v := scripted_world (read_script [0x12; 0x34]) in
  let rb := I2Cdev_readBit dev_example reg_example 3 1000 0 w in
  let rw := I2Cdev_readBitW dev_example reg_example 9 1000 0 (fun _ => 0) v in
  (0 <= 3 < 8 /\ rb = ((1, 8), snd rb) /\
   exists b',
     I2Cdev_readByte dev_example reg_example 0 1000 w = ((1, b'), snd rb) /\
     8 = (if Z.testbit b' 3 then 2 ^ 3 else 0)) /\
  (0 <= 9 < 15 /\ rw = ((1, 512), snd rw) /\
   exists wd',
     I2Cdev_readWord dev_example reg_example 0 1000 (fun _ => 0) v = ((1, wd'), snd rw) /\
     512 = (if Z.testbit wd' 9 then 2 ^ 9 else 0)).
Proof.
  intros w v rb rw.
  assert (H3 : 0 <= 3 < 8) by lia.
  assert (H9 : 0 <= 9 < 15) by lia.
  assert (Eb : I2Cdev_readBit dev_example reg_example 3 1000 0 w = ((1, 8), snd rb))
    by (vm_compute; reflexivity).
  assert (Ew : I2Cdev_readBitW dev_example reg_example 9 1000 0 (fun _ => 0) v
               = ((1, 512), snd rw)) by (vm_compute; reflexivity).
  destruct (readBit_stores_masked_register (H := Scripted) dev_example reg_example 3 1000
              0 0 (fun _ => 0) w) as [Tb _].
  destruct (readBit_stores_masked_register (H := Scripted) dev_example reg_example 9 1000
              0 0 (fun _ => 0) v) as [_ Tw].
  destruct (Tb H3 1 8 (snd rb) Eb) as (b' & Tb1 & Tb2 & _).
  destruct (Tw H9 1 512 (snd rw) Ew) as (wd' & Tw1 & Tw2 & _).
  split.
  - split; [exact H3 | split; [exact Eb |]]. exists b'. exact (conj Tb1 Tb2).
  - split; [exact H9 | split; [exact Ew |]]. exists wd'. exact (conj Tw1 Tw2).
Defined.

(** X10 at a concrete input: on a bus where nothing completes the read fails,
    and [*data], which held 0x55, receives the field of the indeterminate
    local 0x0F (0x0F0F). *)
Lemma readBits_stores_after_failed_read_witness :
  let w := scripted_world [] in
  let rb := I2Cdev_readByte dev_example reg_example 0x0F 1000 w in
  let rw := I2Cdev_readWord dev_example reg_example 0x0F0F 1000 (fun _ => 0) w in
  (rb = ((255, 0x0F), snd rb) /\
   I2Cdev_readBits dev_example reg_example 4 3 0x55 1000 0x0F w = ((255, 3), snd rb)) /\
  (rw = ((255, 0x0F0F), snd rw) /\
   I2Cdev_readBitsW dev_example reg_example 12 3 0x55 1000 0x0F0F (fun _ => 0) w
     = ((255, 3), snd rw)).
Proof.
  intros w rb rw.
  assert (Eb : I2Cdev_readByte dev_example reg_example 0x0F 1000 w
               = ((255, 0x0F), snd rb)) by (vm_compute; reflexivity).
  assert (Ew : I2Cdev_readWord dev_example reg_example 0x0F0F 1000 (fun _ => 0) w
               = ((255, 0x0F0F), snd rw)) by (vm_compute; reflexivity).
  destruct (readBits_stores_after_failed_read (H := Scripted) dev_example reg_example 4 3
              0x55 1000 0x0F 0 (fun _ => 0) w) as (Tb & _).
  destruct (readBits_stores_after_failed_read (H := Scripted) dev_example reg_example 12 3
              0x55 1000 0 0x0F0F (fun _ => 0) w) as (_ & Tw & _).
  split.
  - split; [exact Eb | exact (Tb 0x0F (snd rb) Eb)].
  - split; [exact Ew | exact (Tw 0x0F0F (snd rw) Ew)].
Defined.

(** X11 at a concrete input: the word read is 0x1200; bits 12 down to 10 are
    0b100. *)
Lemma readBitsW_right_aligned_field_witness :
  let w := scripted_world (read_script [0x12; 0x34]) in
  let r := I2Cdev_readWord dev_example reg_example 0 1000 (fun _ => 0) w in
  (0 <= 3 <= 12 + 1 /\ 12 + 1 <= 15 /\ r = ((1, 0x1200), snd r)) /\
  I2Cdev_readBitsW dev_example reg_example 12 3 0 1000 0 (fun _ => 0) w
    = ((1, 4), snd r).
Proof.
  intros w r.
  assert (Hl : 0 <= 3 <= 12 + 1) by lia.
  assert (Hb : 12 + 1 <= 15) by lia.
  assert (E : I2Cdev_readWord dev_example reg_example 0 1000 (fun _ => 0) w
              = ((1, 0x1200), snd r)) by (vm_compute; reflexivity).
  split; [exact (conj Hl (conj Hb E)) |].
  exact (readBitsW_right_aligned_field (H := Scripted) dev_example reg_example 12 3 0 1000
           0 0x1200 (fun _ => 0) w (snd r) Hl Hb E).
Defined.

(** X12 at a concrete input: the word read is 0x1200, and 0b101 is written to
    bits 12 down to 10: the word sent is 0x1600. *)
Lemma writeBitsW_replaces_field_witness :
  let w := scripted_world (read_script [0x12; 0x34]) in
  let r := I2Cdev_readWord dev_example reg_example 0 (I2Cdev_readTimeout w)
             (fun _ => 0) w in
  (0 <= 3 <= 12 + 1 /\ 12 + 1 <= 15 /\ 0 <= 5 < 2 ^ 3 /\ r = ((1, 0x1200), snd r)) /\
  I2Cdev_writeBitsW 2 dev_example reg_example 12 3 5 0 (fun _ => 0) w
    = I2Cdev_writeWord 2 dev_example reg_example 0x1600 (snd r) /\
  (writeBitsW_merge 12 3 5 0x1200 / 2 ^ (12 - 3 + 1)) mod 2 ^ 3 = 5.
Proof.
  intros w r.
  assert (Hl : 0 <= 3 <= 12 + 1) by lia.
  assert (Hb : 12 + 1 <= 15) by lia.
  assert (Hv : 0 <= 5 < 2 ^ 3) by lia.
  assert (E : I2Cdev_readWord dev_example reg_example 0 (I2Cdev_readTimeout w)
                (fun _ => 0) w = ((1, 0x1200), snd r)) by (vm_compute; reflexivity).
  destruct (writeBitsW_replaces_field (H := Scripted) 2 dev_example reg_example 12 3 5 0
              0x1200 (fun _ => 0) w (snd r) Hl Hb Hv E) as (T1 & T2 & _).
  split; [exact (conj Hl (conj Hb (conj Hv E))) |].
  split; [exact T1 | exact T2].
Defined.

(** X13 at a concrete input: bit 4 of the register holding 0b10101111 is set. *)
Lemma slave_writeBit_changes_one_bit_witness :
  (0 <= dev_example < 128 /\ 0 <= 4 < 8) /\
  exists w1,
    I2Cdev_writeBit dev_example reg_example 4 1 0
      (slave_world dev_example regs_example) = (1, w1) /\
    Z.testbit (sl_regs (hw w1) (to_uint8 reg_example)) 4 = true /\
    Z.testbit (sl_regs (hw w1) (to_uint8 reg_example)) 6 = false.
Proof.
  assert (Ha : 0 <= dev_example < 128) by (unfold dev_example; lia).
  assert (Hn : 0 <= 4 < 8) by lia.
  split; [exact (conj Ha Hn) |].
  destruct (slave_writeBit_changes_one_bit dev_example reg_example 4 1 0 regs_example
              Ha Hn) as (w1 & T1 & _ & T3).
  exists w1. split; [exact T1 | split].
  - exact (T3 4 ltac:(lia)).
  - exact (T3 6 ltac:(lia)).
Defined.

(** X14 at a concrete input: the word 0x1234 written to register 0x3B. *)
Lemma slave_writeWord_stores_high_byte_first_witness :
  (0 <= dev_example < 128 /\ (2 <= 2)%nat) /\
  exists w1,
    I2Cdev_writeWord 2 dev_example reg_block 0x1234
      (slave_world dev_example regs_example) = (Some 1, w1) /\
    map (sl_regs (hw w1)) [0x3A; 0x3B; 0x3C; 0x3D] = [0; 0x12; 0x34; 0].
Proof.
  assert (Ha : 0 <= dev_example < 128) by (unfold dev_example; lia).
  assert (Hf : (2 <= 2)%nat) by lia.
  split; [exact (conj Ha Hf) |].
  destruct (slave_writeWord_stores_high_byte_first 2 dev_example reg_block 0x1234
              regs_example Ha Hf) as (w1 & T1 & T2).
  exists w1. split; [exact T1 |]. rewrite T2. vm_compute. reflexivity.
Defined.

(** X16 at a concrete input: 400 kHz with the pull-ups on gives TWBR = 12. *)
Lemma Fastwire_setup_bit_rate_witness :
  31 <= 400 <= 1000 /\
  Fastwire_setup (P := avr_slave) 400 1 0x0F =
    Some [(SU_TWCR, 0); (SU_PORTC, 0x3F); (SU_TWSR, 0); (SU_TWBR, 12); (SU_TWCR, 4)] /\
  exists portc' twbr,
    Fastwire_setup (P := avr_slave) 400 1 0x0F =
      Some [(SU_TWCR, 0); (SU_PORTC, portc'); (SU_TWSR, 0); (SU_TWBR, twbr);
            (SU_TWCR, to_uint8 (bit TWEN))] /\
    0 <= twbr <= 250 /\
    400 * (16 + 2 * twbr) <= 16000 < 400 * (16 + 2 * (twbr + 1)).
Proof.
  assert (Hk : 31 <= 400 <= 1000) by lia.
  split; [exact Hk |]. split; [vm_compute; reflexivity |].
  destruct (Fastwire_setup_bit_rate (H := Slave) 400 1 0x0F Hk)
    as (portc' & twbr & T1 & T2 & T3 & _).
  exists portc', twbr. exact (conj T1 (conj T2 T3)).
Defined.

(** X17 at a concrete input: three ticks from 2^32 - 2 on; the counter wraps
    to 1, and the difference is 3. *)
Lemma millis_difference_counts_ticks_witness :
  0 <= 4294967294 < 2 ^ 32 /\
  Nat.iter 3 TIMER2_OVF_vect 4294967294 = 1 /\
  to_uint32 (msec_millis (Nat.iter 3 TIMER2_OVF_vect 4294967294)
             - msec_millis 4294967294) = 3.
Proof.
  assert (Hm : 0 <= 4294967294 < 2 ^ 32) by lia.
  split; [exact Hm |]. split; [vm_compute; reflexivity |].
  exact (proj1 (millis_difference_counts_ticks 3 4294967294 Hm)).
Defined.
